(* ===== verification/_CoqProject ===== *)
-Q . S2P
Prelude.v
JsLib.v
WeatherCodes.v
Api.v
Session.v
Samples.v
Location.v
Fetch.v
Card.v
Invariants.v
Steps.v
Phases.v
Frames.v
Progress.v
Share.v
View.v
App.v
Scenarios.v
