(* ===== verification/Prelude.v ===== *)
(** * Weather-Now: a verification development for the weather widget

    The program is a single-page React widget of two source files:
    [src/src/components/WeatherCard.jsx] (the card: location resolution,
    forecast fetching, request de-duplication, sharing, rendering) and
    [src/src/App.jsx] (the shell: theme, background gradient).  This
    library models its logic as executable Rocq definitions and proves the
    properties that make it correct, together with the places where the
    code departs from its written specification.

    ** Files, in dependency order

    - [Prelude] (this file): sequencing of state transformers in
      [act_scope], assertions ([triple]) and frames ([preserves]) on them,
      the generic theory of event-driven machines ([run], [reachable],
      invariants by rule induction), tactics and the hint database
      [weather].
    - [JsLib]: the JavaScript runtime functions the sources call, as
      executable functions over byte strings and rationals: truthiness,
      strict equality on numbers, [trim], [split(",")[0]], [join],
      [encodeURIComponent] and its decoder, [Math.round], [cx]; the
      outcomes of a network call ([HttpResult]) and URLs with their query
      parameters ([Url], [url_param]).
    - [WeatherCodes]: the three Open-Meteo code tables, [iconFor] and
      [labelFor] of WeatherCard.jsx and [gradientFor] of App.jsx, with the
      classification they share.
    - [Api]: the shape of the data the services return, as the records of
      the properties the code reads.
    - [Session]: the card's state: the [useState] cells and the
      [lastFetchRef] cell of [WeatherCard], the in-flight continuations
      ([Task]), the log of platform calls and the machine record that holds
      them.
    - [Samples]: concrete data (places, conditions, a week of forecast, a
      browser) for the witnesses and the scenarios.
    - [Location]: the LocationResolver: [formatLocationLabel], and the
      response handling of [resolveCity] and [reverseLabel].
    - [Fetch]: the WeatherFetchCoordinator: [fetchWeatherAt], cut at its
      [await] into [fetchWeatherAt_start] and [fetchWeatherAt_resume].
    - [Card]: the event handlers ([onSearch], the geolocation callbacks,
      the unit toggle, [handleShare]), the two [useEffect] bodies, the
      commit of a render, and the step function of the whole card.
    - [Invariants]: well-formedness of every reachable state of the card.
    - [Steps]: what each kind of event does in one step.
    - [Phases]: the coordinator's machine of the specification
      ([Idle], [Loading], [Ready], [Failed]) and its refinement by the card.
    - [Frames]: which events may change which cells.
    - [Progress]: executions that never end, fairness of the platform, and
      the liveness of the spinner.
    - [Share]: the share link and its feedback message.
    - [View]: the [return] of [WeatherCard], as the record of what is on
      screen.
    - [App]: the shell of App.jsx: theme, storage, [meta] and the class
      strings, and its composition with the card.
    - [Scenarios]: the orders of events on which the code departs from the
      written specification, each as a theorem over every state in which
      the order can happen, with a run from the mount that reaches one.

    ** How the code is modelled

    _State._  Each [useState] cell of [WeatherCard] is a field of the
    record [Session.Card]; [lastFetchRef] is the field [lastFetchRef].
    [setCoords({lat, lon})] allocates a fresh object on every call and the
    second effect depends on the object's identity, so the machine keeps a
    generation counter [coordsGen] that every [setCoords] increments.

    _Asynchrony._  An [async] function is cut at each [await] on the
    network, the clipboard or a timer.  The code up to the [await] is one
    state transformer; the code after it is another, stored as a
    first-order continuation ([Session.Task]) that records the variables
    the closure captured (the coordinates, the unit of the render that
    created it, the place label).  The environment picks any pending task
    and answers it: that is one event.  Events are processed one at a time
    (JavaScript is single-threaded); after each the component re-renders
    and the effects whose dependencies changed run once ([Card.commit]).
    No fuel is needed anywhere: every handler is a finite straight-line
    function and effects cannot change their own dependencies, so the
    commit ends after one pass.

    _Errors._  A rejected promise or a thrown [Error] is a value.
    [JsLib.HttpResult] is what [await fetch(url)] gives: a rejection, or a
    response with its [ok] flag and the outcome of [res.json()] on its body
    ([None] when the body is not JSON), so that the [!res.ok] test of the
    source is a test of the model.  The two [await]s of a network call are
    one event, since no state changes between them.  [Location.Exn] are
    the errors [onSearch] distinguishes.

    _Requests._  A URL is its base and the list of its query parameters,
    numbers not yet printed ([JsLib.Url]); [url_param] reads a parameter
    the way the service does.  For each of the three requests of the card
    a theorem states what the service finds in the URL that was logged
    ([Steps.search_request], [Steps.position_found],
    [Fetch.request_matches_key]).

    _Numbers._  A finite IEEE double is a rational, so numbers are [Q];
    [===] on numbers is [Qeq_bool] and [Math.round] is
    [Qfloor (x + 1/2)], both exact.  [NaN] and the infinities are not
    modelled: [JSON.parse] and the Geolocation API never produce [NaN].
    Weather codes and the day flag are integers ([Z]).

    _Strings._  Strings are byte strings ([string]), read as UTF-8.
    [trim] strips the white space and line terminators of ECMAScript: the
    six of one byte, U+00A0, and the three-byte encodings of U+1680,
    U+2000 to U+200A, U+2028, U+2029, U+202F, U+205F, U+3000 and U+FEFF.
    A string that is not well-formed UTF-8 (a lone surrogate in
    JavaScript) has no counterpart in the program.

    _JSON._  A response body is the record of the properties the code
    reads, each optional exactly where the code tests for its presence.

    ** What is proved

    - [JsLib]: [trim] is idempotent, cuts only white space off the end and
      returns the empty string exactly on blank input;
      [encodeURIComponent] emits only unreserved bytes and percent escapes
      and is inverted by the decoder.
    - [WeatherCodes]: the tables are total, agree on which codes are known,
      and the background depends on a code only through its palette
      family.
    - [Location]: the shape of every label; which failures [resolveCity]
      reports under which message; [reverseLabel] never fails.
    - [Fetch]: the de-duplication guard, the loading transition, the
      success and failure transitions field by field; the key remembered
      at completion is the latitude, longitude and unit found in the
      request that was sent.
    - [Invariants]: over all reachable states: task identifiers are fresh,
      [lastFetchRef] is only ever set together with data, a spinner is
      never left without a pending request.
    - [Steps]: the testable properties of the specification, event by
      event: blank and non-blank searches (with the parameters of the
      geocoding request), city not found, the double fetch of a search, a
      position found (with the reverse-lookup request) or denied, absorbed
      reverse-lookup failure, unit toggles with and without coordinates.
    - [Phases]: every step of the card stays in its phase or makes a move
      of the specification's machine, or one of two moves the code adds
      ([Idle] to [Failed], [Ready] to [Failed]); an idle card has nothing
      pending.
    - [Frames]: conditions, forecast and remembered key change only, and
      together, on a good answer to a pending fetch; the query and the unit
      change only by their controls; the error cell holds only the messages
      of the source.
    - [Progress]: in every execution in which the platform answers each
      pending search and fetch, whatever the user does in between, a
      spinner that is on goes off.
    - [Share]: the link is the origin, "/weather/" and the encoded city,
      and decodes to the text before the first comma of the shown name.
    - [View]: what is on screen in each phase; the grid reads its arrays
      index by index and is complete when they are aligned; the shown
      temperature is within half a degree of the one received.
    - [App]: the theme survives a reload, for every storage that satisfies
      the two laws of [Storage]; the storage always holds the theme on
      screen and nothing else is written; the background is at all times
      the gradient of the conditions the card shows.
    - [Scenarios]: for every state in which they can happen: an answer
      that was overtaken is shown under the wrong unit; an error raised
      while a fetch is in flight survives its success; the second of the
      two requests of a search takes the card from [Ready] to [Failed]; the
      timer of an earlier share clears the message of a later one.

    ** Bounds and fuel

    Nothing in the development is bounded or fuelled.  Every handler is a
    total function; a run is a fold over a finite list of events;
    reachability is an inductive relation, so the invariants hold for runs
    of every length and every interleaving of answers.  The number of
    pending continuations is not bounded; identifiers are natural numbers
    that are never reused.  An execution that never ends is a function
    from time to states ([Progress.execution]); the liveness theorem
    assumes of it only that pending searches and fetches are answered at
    some time, not when, and nothing of the user.

    ** What is not modelled

    JSX markup, the Tailwind class strings that depend on the theme alone
    (those of [cardClass], the Search button, [bgClass] and the root element
    are modelled, as is the gradient table), [framer-motion] animation,
    locale-dependent date formatting ([toLocaleDateString],
    [toLocaleTimeString]: the view keeps the string handed to [Date]), the
    header and the footer of the shell, the React scheduler itself (only its
    observable contract: batched updates, effects after commit), React
    StrictMode's double invocation of effects, and wall-clock time (a timer
    is a pending continuation that fires at some later event), and the
    [Loader] component, which is static markup.  A daily block is taken to
    hold its six arrays whenever it is present, and the arrays and the
    coordinates of a geocoding result to hold numbers: a body in which an
    array is missing would make the render throw, a [null] entry would be
    shown as 0 and a missing coordinate would be sent as "undefined"; the
    services do not answer so for the series and fields the card
    requests. *)

From stdpp Require Import base tactics option list.

(** ** Sequencing of state transformers

    A handler of the card returns nothing and updates the component's
    state, so it is modelled as a function from states to states.  The
    notation [a ;; b] reads like the statement sequence of the source. *)

Declare Scope act_scope.
Delimit Scope act_scope with act.

Definition Action (S : Type) : Type := S → S.

Definition skip {S : Type} : Action S := λ s, s.

Definition seq {S : Type} (a b : Action S) : Action S := λ s, b (a s).

Definition when {S : Type} (c : bool) (a : Action S) : Action S :=
  if c then a else skip.

Notation "a ;; b" := (seq a b)
  (at level 100, b at level 200, right associativity) : act_scope.

Lemma seq_assoc {S} (a b c : Action S) : seq (seq a b) c = seq a (seq b c).
Proof. reflexivity. Qed.

Lemma seq_apply {S} (a b : Action S) s : seq a b s = b (a s).
Proof. reflexivity. Qed.

Lemma when_apply {S} c (a : Action S) s : when c a s = if c then a s else s.
Proof. by destruct c. Qed.

(** ** Assertions about actions

    [triple P a Q]: from a state that satisfies [P], the action [a] leads to
    a state that satisfies [Q]. *)

Section Triples.
Context {S : Type}.
Implicit Types (P Q R : S → Prop) (a b : Action S).

Definition triple P a Q : Prop := ∀ s, P s → Q (a s).

Lemma triple_skip P : triple P skip P.
Proof. by intros s. Qed.

Lemma triple_seq P Q R a b : triple P a Q → triple Q b R → triple P (seq a b) R.
Proof. intros Ha Hb s Hs. apply Hb, Ha, Hs. Qed.

Lemma triple_when P c a : triple P a P → triple P (when c a) P.
Proof. destruct c; [done|]. intros _. apply triple_skip. Qed.

Lemma triple_if P Q (c : S → bool) a b :
  triple (λ s, P s ∧ c s = true) a Q →
  triple (λ s, P s ∧ c s = false) b Q →
  triple P (λ s, if c s then a s else b s) Q.
Proof. intros Ha Hb s Hs. destruct (c s) eqn:E; [apply Ha|apply Hb]; done. Qed.

Lemma triple_conseq P P' Q Q' a :
  (∀ s, P' s → P s) → (∀ s, Q s → Q' s) → triple P a Q → triple P' a Q'.
Proof. intros HP HQ Ha s Hs. apply HQ, Ha, HP, Hs. Qed.

End Triples.

(** ** Frames

    [preserves f a]: the action [a] does not change the observation [f] of
    the state. *)

Section Frames.
Context {S A : Type} (f : S → A).
Implicit Types (a b : Action S).

Definition preserves a : Prop := ∀ s, f (a s) = f s.

Lemma preserves_skip : preserves skip.
Proof. by intros s. Qed.

Lemma preserves_seq a b : preserves a → preserves b → preserves (seq a b).
Proof. intros Ha Hb s. unfold seq. by rewrite Hb, Ha. Qed.

Lemma preserves_when c a : preserves a → preserves (when c a).
Proof. destruct c; [done|]. intros _. apply preserves_skip. Qed.

Lemma preserves_if (c : S → bool) a b :
  preserves a → preserves b → preserves (λ s, if c s then a s else b s).
Proof. intros Ha Hb s. by destruct (c s). Qed.

End Frames.

(** ** Event-driven machines

    A machine is a partial step function over events; [None] means the
    event is not enabled in that state. *)

Section Machines.
Context {State Event : Type}.
Variable init : State → Prop.
Variable step : Event → State → option State.

Fixpoint run (es : list Event) (s : State) : option State :=
  match es with
  | [] => Some s
  | e :: es' =>
      match step e s with
      | Some s' => run es' s'
      | None => None
      end
  end.

Inductive reachable : State → Prop :=
| reach_init s : init s → reachable s
| reach_step s e s' : reachable s → step e s = Some s' → reachable s'.

Definition invariant (P : State → Prop) : Prop := ∀ s, reachable s → P s.

Lemma run_app es1 es2 s :
  run (es1 ++ es2) s = run es1 s ≫= run es2.
Proof.
  revert s. induction es1 as [|e es1 IH]; intros s; simpl; [done|].
  destruct (step e s); simpl; auto.
Qed.

Lemma reachable_run es s s' : reachable s → run es s = Some s' → reachable s'.
Proof.
  revert s. induction es as [|e es IH]; simpl; intros s Hs Hrun.
  - by simplify_eq.
  - destruct (step e s) as [s1|] eqn:E; [|done].
    eapply IH; [|done]. by eapply reach_step.
Qed.

Lemma reachable_trace s :
  reachable s → ∃ s0 es, init s0 ∧ run es s0 = Some s.
Proof.
  induction 1 as [s Hi|s e s' _ (s0 & es & Hi & Hr) Hstep].
  - by exists s, [].
  - exists s0, (es ++ [e]). split; [done|].
    rewrite run_app, Hr. simpl. by rewrite Hstep.
Qed.

(** Rule induction with the reachability of the source state at hand. *)
Lemma invariant_ind (P : State → Prop) :
  (∀ s, init s → P s) →
  (∀ s e s', reachable s → P s → step e s = Some s' → P s') →
  invariant P.
Proof. intros Hi Hs s Hr. induction Hr; eauto. Qed.

Lemma invariant_and (P Q : State → Prop) :
  invariant P → invariant Q → invariant (λ s, P s ∧ Q s).
Proof. intros HP HQ s Hs. split; auto. Qed.

Lemma invariant_weaken (P Q : State → Prop) :
  (∀ s, reachable s → P s → Q s) → invariant P → invariant Q.
Proof. intros HPQ HP s Hs. auto. Qed.

End Machines.

Arguments reach_init {State Event init step}.
Arguments reach_step {State Event init step}.

(** ** Tactics and hints *)

Create HintDb weather discriminated.
Create Rewrite HintDb weather.

#[export] Hint Rewrite @seq_apply @when_apply : weather.

#[export] Hint Resolve preserves_skip preserves_seq preserves_when : weather.

(** An observation is transported along a frame. *)
Lemma preserves_triple {S A} (f : S → A) (P : A → Prop) (a : Action S) :
  preserves f a → triple (λ s, P (f s)) a (λ s, P (f s)).
Proof. intros Ha s Hs. by rewrite Ha. Qed.

(** Unfold the sequencing combinators and compute. *)
Ltac act_simpl := unfold seq, when, skip in *; simpl in *.

(** Split on every [match] and [if] of the goal, simplifying equations. *)
Ltac case_all := repeat (case_match; simplify_eq; simpl in *; try done).
