(* ===== verification/JsLib.v ===== *)
(** * JsLib: the JavaScript runtime as the card uses it

    Executable models of the operators and library functions the two
    source files call: truthiness of strings, [===] on numbers,
    [Math.round], [String.prototype.trim], [split(",")[0]],
    [Array.prototype.join], [encodeURIComponent] (with a decoder, to state
    that nothing is lost), the class-name helper [cx], and the outcomes of
    [fetch] followed by [res.json()].  Strings are byte strings read as
    UTF-8; numbers are rationals. *)

From Stdlib Require Import Ascii String QArith Qround ZArith Lia Lqa.
From stdpp Require Import base tactics option list strings.
From S2P Require Import Prelude.

#[local] Open Scope Z_scope.

(** ** Numbers *)

Definition num : Type := Q.

#[export] Instance Q_eq_dec : EqDecision Q.
Proof. solve_decision. Defined.

(** [x === y] on two numbers. *)
Definition strict_eq (x y : num) : bool := Qeq_bool x y.

(** [r === y] where [r] is a number or [null]. *)
Definition strict_eq_null (r : option num) (y : num) : bool :=
  match r with
  | Some x => strict_eq x y
  | None => false
  end.

(** [Math.round]: the nearest integer, ties towards plus infinity. *)
Definition Math_round (x : num) : Z := Qfloor (x + (1 # 2)).

(** ** Strings *)

(** [Boolean(s)]: a string is truthy when it is not empty. *)
Definition truthy (s : string) : bool :=
  match s with
  | EmptyString => false
  | String _ _ => true
  end.

(** [Boolean(v)] for a value that is a string, [undefined] or [null]. *)
Definition truthy_opt (o : option string) : bool :=
  match o with
  | Some s => truthy s
  | None => false
  end.

(** [a || b] on such values, the result read as a string. *)
Definition or_else (o : option string) (d : string) : string :=
  match o with
  | Some s => if truthy s then s else d
  | None => d
  end.

(** [String.prototype.trim] strips the white space and the line
    terminators of ECMAScript from both ends.  On a byte string read as
    UTF-8 these are the sequences of one, two and three bytes below. *)

(** The white space and line terminators of one byte: TAB, LF, VT, FF, CR
    and SP. *)
Definition is_space (c : ascii) : bool :=
  match c with
  | "009" | "010" | "011" | "012" | "013" | " " => true
  | _ => false
  end%char.

(** The one of two bytes: U+00A0. *)
Definition is_space2 (c1 c2 : ascii) : bool :=
  match c1, c2 with
  | "194", "160" => true
  | _, _ => false
  end%char.

(** Those of three bytes: U+1680, U+2000 to U+200A, U+2028, U+2029,
    U+202F, U+205F, U+3000 and U+FEFF. *)
Definition is_space3 (c1 c2 c3 : ascii) : bool :=
  let n2 := N_of_ascii c2 in
  let n3 := N_of_ascii c3 in
  match N_of_ascii c1 with
  | 225 => (n2 =? 154) && (n3 =? 128)
  | 226 =>
      (n2 =? 128) &&
        ((128 <=? n3) && (n3 <=? 138) || (n3 =? 168) || (n3 =? 169)
         || (n3 =? 175))
      || (n2 =? 129) && (n3 =? 159)
  | 227 => (n2 =? 128) && (n3 =? 128)
  | 239 => (n2 =? 187) && (n3 =? 191)
  | _ => false
  end%N.

(** The rest of a string that starts with a white-space character. *)
Definition space_head (s : string) : option string :=
  match s with
  | String c1 s1 =>
      if is_space c1 then Some s1
      else
        match s1 with
        | String c2 s2 =>
            if is_space2 c1 c2 then Some s2
            else
              match s2 with
              | String c3 s3 => if is_space3 c1 c2 c3 then Some s3 else None
              | EmptyString => None
              end
        | EmptyString => None
        end
  | EmptyString => None
  end.

Fixpoint trimStart (s : string) : string :=
  match s with
  | String c1 s1 =>
      if is_space c1 then trimStart s1
      else
        match s1 with
        | String c2 s2 =>
            if is_space2 c1 c2 then trimStart s2
            else
              match s2 with
              | String c3 s3 => if is_space3 c1 c2 c3 then trimStart s3 else s
              | EmptyString => s
              end
        | EmptyString => s
        end
  | EmptyString => s
  end.

(** [s] is empty or consists of white-space characters. *)
Fixpoint blank (s : string) : bool :=
  match s with
  | String c1 s1 =>
      if is_space c1 then blank s1
      else
        match s1 with
        | String c2 s2 =>
            if is_space2 c1 c2 then blank s2
            else
              match s2 with
              | String c3 s3 => is_space3 c1 c2 c3 && blank s3
              | EmptyString => false
              end
        | EmptyString => false
        end
  | EmptyString => true
  end.

(** The shortest prefix after which only white space follows. *)
Fixpoint trimEnd (s : string) : string :=
  match s with
  | String c s' => if blank s then EmptyString else String c (trimEnd s')
  | EmptyString => EmptyString
  end.

Definition trim (s : string) : string := trimEnd (trimStart s).

Arguments blank : simpl never.
Arguments trimEnd : simpl never.
Arguments trimStart : simpl never.

(** [parts.join(sep)]. *)
Definition join (sep : string) (parts : list string) : string :=
  String.concat sep parts.

(** [s.split(sep)[0]] for a one-character separator: the text before its
    first occurrence, the whole string when there is none. *)
Fixpoint split_head (sep : ascii) (s : string) : string :=
  match s with
  | EmptyString => EmptyString
  | String c s' =>
      if decide (c = sep) then EmptyString else String c (split_head sep s')
  end.

(** [cx]: keep the truthy class names and join them with a space. *)
Definition cx (arr : list string) : string :=
  join " " (List.filter truthy arr).

(** ** [encodeURIComponent] *)

Definition between (lo hi : N) (c : ascii) : bool :=
  ((lo <=? N_of_ascii c) && (N_of_ascii c <=? hi))%N.

Definition is_alnum (c : ascii) : bool :=
  between 48 57 c || between 65 90 c || between 97 122 c.

(** The characters [encodeURIComponent] leaves alone. *)
Definition unreserved (c : ascii) : bool :=
  is_alnum c ||
  match c with
  | "-" | "_" | "." | "!" | "~" | "*" | "'" | "(" | ")" => true
  | _ => false
  end%char.

Definition hex_digit (n : N) : ascii :=
  ascii_of_N (if (n <? 10)%N then 48 + n else 55 + n)%N.

(** The two upper-case hexadecimal digits of a byte. *)
Definition pct_hi (c : ascii) : ascii := hex_digit (N_of_ascii c / 16).
Definition pct_lo (c : ascii) : ascii := hex_digit (N_of_ascii c mod 16).

Fixpoint encodeURIComponent (s : string) : string :=
  match s with
  | EmptyString => EmptyString
  | String c s' =>
      if unreserved c then String c (encodeURIComponent s')
      else String "%" (String (pct_hi c) (String (pct_lo c)
             (encodeURIComponent s')))
  end.

Definition hex_value (c : ascii) : option N :=
  if between 48 57 c then Some (N_of_ascii c - 48)%N
  else if between 65 70 c then Some (N_of_ascii c - 55)%N
  else if between 97 102 c then Some (N_of_ascii c - 87)%N
  else None.

(** The inverse the receiving side applies ([decodeURIComponent] on bytes):
    [None] on a malformed escape. *)
Fixpoint decodeURIComponent (s : string) : option string :=
  match s with
  | EmptyString => Some EmptyString
  | String c s1 =>
      if decide (c = "%"%char) then
        match s1 with
        | String h (String l s3) =>
            hi ← hex_value h; lo ← hex_value l;
            r ← decodeURIComponent s3;
            Some (String (ascii_of_N (16 * hi + lo)) r)
        | _ => None
        end
      else String c <$> decodeURIComponent s1
  end.

(** A byte that can stand in a query-string value without ending it. *)
Definition url_safe (c : ascii) : bool :=
  unreserved c || bool_decide (c = "%"%char).

Fixpoint all_chars (p : ascii → bool) (s : string) : bool :=
  match s with
  | EmptyString => true
  | String c s' => p c && all_chars p s'
  end.

(** ** Network outcomes

    What [await fetch(url)] can produce, for a body of type [J]: a
    rejection, or a response, of which the code reads [res.ok] and then
    awaits [res.json()].  [body] is what [res.json()] resolves to, [None]
    when it rejects. *)

Inductive HttpResult (J : Type) : Type :=
| FetchRejected                          (* no network, CORS, DNS *)
| Response (ok : bool) (body : option J).

Arguments FetchRejected {J}.
Arguments Response {J} ok body.

(** A 2xx response with a JSON body, a 2xx response whose body is not JSON,
    and an error status with no JSON body. *)
Abbreviation JsonOk j := (Response true (Some j)).
Abbreviation JsonRejected := (Response true None).
Abbreviation StatusNotOk := (Response false None).

(** A URL with its query string, the values not yet printed. *)
Inductive QVal : Type :=
| QNum (n : num)
| QStr (s : string).

Record Url : Type := mkUrl {
  url_base : string;
  url_query : list (string * QVal)
}.

#[export] Instance QVal_eq_dec : EqDecision QVal.
Proof. solve_decision. Defined.

#[export] Instance Url_eq_dec : EqDecision Url.
Proof. solve_decision. Defined.

(** What a server reads for a parameter of a URL: the value of its first
    occurrence in the query string. *)
Fixpoint assoc (k : string) (ps : list (string * QVal)) : option QVal :=
  match ps with
  | [] => None
  | (k', v) :: ps' => if decide (k' = k) then Some v else assoc k ps'
  end.

Definition url_param (k : string) (u : Url) : option QVal :=
  assoc k (url_query u).

(** A parameter that was interpolated from a number, and one that was
    interpolated from a string. *)
Definition url_num (k : string) (u : Url) : option num :=
  match url_param k u with
  | Some (QNum n) => Some n
  | _ => None
  end.

Definition url_str (k : string) (u : Url) : option string :=
  match url_param k u with
  | Some (QStr s) => Some s
  | _ => None
  end.

(** ** Properties of the number operations *)

Lemma strict_eq_refl x : strict_eq x x = true.
Proof. apply Qeq_bool_refl. Qed.

Lemma strict_eq_sym x y : strict_eq x y = strict_eq y x.
Proof. apply Qeq_bool_comm. Qed.

Lemma strict_eq_iff x y : strict_eq x y = true ↔ (x == y)%Q.
Proof. apply Qeq_bool_iff. Qed.

#[export] Instance strict_eq_proper : Proper (Qeq ==> Qeq ==> eq) strict_eq.
Proof. exact Qeqb_comp. Qed.

Lemma strict_eq_null_Some r y :
  strict_eq_null r y = true ↔ ∃ x, r = Some x ∧ (x == y)%Q.
Proof.
  destruct r as [x|]; simpl.
  - rewrite strict_eq_iff. split; [eauto|]. by intros (? & [= <-] & ?).
  - split; [done|]. by intros (? & ? & _).
Qed.

(** [Math.round x] is the integer [n] with [n - 1/2 <= x < n + 1/2]. *)
Lemma Math_round_spec x :
  (inject_Z (Math_round x) - (1 # 2) <= x)%Q ∧
  (x < inject_Z (Math_round x) + (1 # 2))%Q.
Proof.
  unfold Math_round.
  pose proof (Qfloor_le (x + (1 # 2))) as Hle.
  pose proof (Qlt_floor (x + (1 # 2))) as Hlt.
  rewrite inject_Z_plus in Hlt. change (inject_Z 1) with 1%Q in Hlt.
  split; lra.
Qed.

Lemma Math_round_int (n : Z) : Math_round (inject_Z n) = n.
Proof.
  unfold Math_round.
  assert (H : Qfloor (inject_Z n + (1 # 2)) = n); [|done].
  pose proof (Qfloor_le (inject_Z n + (1 # 2))) as Hle.
  pose proof (Qlt_floor (inject_Z n + (1 # 2))) as Hlt.
  set (k := Qfloor _) in *.
  rewrite inject_Z_plus in Hlt. change (inject_Z 1) with 1%Q in Hlt.
  assert (inject_Z k < inject_Z (n + 1))%Q as H1.
  { rewrite inject_Z_plus. change (inject_Z 1) with 1%Q. lra. }
  assert (inject_Z n < inject_Z (k + 1))%Q as H2.
  { rewrite inject_Z_plus. change (inject_Z 1) with 1%Q. lra. }
  rewrite <- Zlt_Qlt in H1, H2. lia.
Qed.

(** ** Properties of the string operations *)

Lemma truthy_spec s : truthy s = true ↔ s ≠ EmptyString.
Proof. by destruct s. Qed.

Lemma or_else_truthy o d : truthy d = true → truthy (or_else o d) = true.
Proof.
  intros Hd. destruct o as [s|]; simpl; [|done].
  by destruct (truthy s) eqn:E.
Qed.

Lemma join_singleton sep x : join sep [x] = x.
Proof. reflexivity. Qed.

Lemma join_cons sep x y l :
  join sep (x :: y :: l) = x +:+ sep +:+ join sep (y :: l).
Proof. reflexivity. Qed.

(** *** White space *)

Lemma string_length_ind (P : string → Prop) :
  (∀ s, (∀ r, (String.length r < String.length s)%nat → P r) → P s) → ∀ s, P s.
Proof.
  intros H s. remember (String.length s) as n eqn:E. revert s E.
  induction (lt_wf n) as [n _ IH]. intros s ->. apply H.
  intros r Hr. by eapply IH.
Qed.

Lemma space_head_length s r :
  space_head s = Some r → (String.length r < String.length s)%nat.
Proof.
  destruct s as [|c1 [|c2 [|c3 s3]]]; simpl; repeat case_match;
    intros; simplify_eq; simpl; lia.
Qed.

(** The functions by their white-space heads. *)
Lemma trimStart_eq s :
  trimStart s = match space_head s with Some r => trimStart r | None => s end.
Proof.
  destruct s as [|c1 s1]; [done|]. unfold space_head.
  change (trimStart (String c1 s1)) with
    (if is_space c1 then trimStart s1
     else match s1 with
          | String c2 s2 =>
              if is_space2 c1 c2 then trimStart s2
              else match s2 with
                   | String c3 s3 =>
                       if is_space3 c1 c2 c3 then trimStart s3
                       else String c1 s1
                   | EmptyString => String c1 s1
                   end
          | EmptyString => String c1 s1
          end).
  by repeat case_match.
Qed.

Lemma blank_eq s :
  blank s = match space_head s with
            | Some r => blank r
            | None => if s is EmptyString then true else false
            end.
Proof.
  destruct s as [|c1 s1]; [done|]. unfold space_head.
  change (blank (String c1 s1)) with
    (if is_space c1 then blank s1
     else match s1 with
          | String c2 s2 =>
              if is_space2 c1 c2 then blank s2
              else match s2 with
                   | String c3 s3 => is_space3 c1 c2 c3 && blank s3
                   | EmptyString => false
                   end
          | EmptyString => false
          end).
  repeat case_match; by simplify_eq.
Qed.

Lemma trimEnd_eq s :
  trimEnd s = match s with
              | String c s' => if blank s then EmptyString else String c (trimEnd s')
              | EmptyString => EmptyString
              end.
Proof. by destruct s. Qed.

Lemma trimStart_blank s : blank s = true → trimStart s = EmptyString.
Proof.
  induction s as [s IH] using string_length_ind.
  rewrite trimStart_eq, blank_eq.
  destruct (space_head s) as [r|] eqn:E; [|by destruct s].
  apply IH. by apply space_head_length.
Qed.

Lemma trimEnd_blank s : trimEnd s = EmptyString ↔ blank s = true.
Proof.
  rewrite trimEnd_eq. destruct s as [|c s]; [done|].
  by destruct (blank (String c s)).
Qed.

Lemma blank_trimStart s : blank (trimStart s) = blank s.
Proof.
  induction s as [s IH] using string_length_ind.
  rewrite trimStart_eq, (blank_eq s).
  destruct (space_head s) as [r|] eqn:E.
  - by rewrite IH by (by apply space_head_length).
  - by rewrite blank_eq, E.
Qed.

(** [!s.trim()] holds exactly when [s] consists of white space. *)
Lemma trim_empty_iff s : trim s = EmptyString ↔ blank s = true.
Proof. unfold trim. by rewrite trimEnd_blank, blank_trimStart. Qed.

(** What [trimStart] returns does not start with white space. *)
Lemma trimStart_head s : space_head (trimStart s) = None.
Proof.
  induction s as [s IH] using string_length_ind.
  rewrite trimStart_eq. destruct (space_head s) as [r|] eqn:E; [|done].
  apply IH. by apply space_head_length.
Qed.

Lemma trimStart_fix s : space_head s = None → trimStart s = s.
Proof. intros H. by rewrite trimStart_eq, H. Qed.

Lemma trimEnd_cases s :
  trimEnd s = EmptyString ∨
  ∃ c s', s = String c s' ∧ trimEnd s = String c (trimEnd s').
Proof.
  destruct s as [|c s]; [by left|]. rewrite trimEnd_eq.
  destruct (blank (String c s)); eauto.
Qed.

(** A string that does not start with white space keeps not doing so when
    its end is trimmed. *)
Lemma space_head_trimEnd s : space_head s = None → space_head (trimEnd s) = None.
Proof.
  destruct (trimEnd_cases s) as [->|(c1 & s1 & -> & ->)]; [done|].
  destruct (trimEnd_cases s1) as [->|(c2 & s2 & -> & ->)];
    [simpl; by repeat case_match|].
  destruct (trimEnd_cases s2) as [->|(c3 & s3 & -> & ->)];
    simpl; by repeat case_match.
Qed.

Lemma append_cons c s w : String c s +:+ w = String c (s +:+ w).
Proof. reflexivity. Qed.

Lemma space_head_app p r w :
  space_head p = Some r → space_head (p +:+ w) = Some (r +:+ w).
Proof.
  destruct p as [|c1 [|c2 [|c3 p3]]]; rewrite ?append_cons; simpl;
    repeat case_match; intros; by simplify_eq.
Qed.

Lemma blank_app p w : blank p = true → blank (p +:+ w) = blank w.
Proof.
  induction p as [p IH] using string_length_ind.
  rewrite (blank_eq p). destruct (space_head p) as [r|] eqn:E.
  - intros Hr. rewrite blank_eq, (space_head_app _ _ _ E).
    by apply IH; [apply space_head_length|].
  - by destruct p.
Qed.

(** What [trimEnd] cuts off is white space. *)
Lemma trimEnd_app s : ∃ w, s = trimEnd s +:+ w ∧ blank w = true.
Proof.
  induction s as [|c s (w & Hs & Hw)]; [by exists EmptyString|].
  rewrite trimEnd_eq. destruct (blank (String c s)) eqn:Hb; [by eexists|].
  exists w. by rewrite append_cons, <- Hs.
Qed.

Lemma blank_trimEnd s : blank (trimEnd s) = blank s.
Proof.
  destruct (trimEnd_app s) as (w & Hs & Hw).
  destruct (blank (trimEnd s)) eqn:Hb.
  - by rewrite Hs, blank_app, Hw.
  - destruct (blank s) eqn:Hb'; [|done].
    apply trimEnd_blank in Hb'. by rewrite Hb' in Hb.
Qed.

Lemma trimEnd_idemp s : trimEnd (trimEnd s) = trimEnd s.
Proof.
  induction s as [|c s IH]; [done|]. rewrite (trimEnd_eq (String c s)).
  destruct (blank (String c s)) eqn:Hb; [done|].
  rewrite trimEnd_eq, IH.
  replace (String c (trimEnd s)) with (trimEnd (String c s))
    by (by rewrite trimEnd_eq, Hb).
  by rewrite blank_trimEnd, Hb.
Qed.

(** Trimming the result of [trim] changes nothing. *)
Lemma trim_idemp s : trim (trim s) = trim s.
Proof.
  unfold trim. rewrite (trimStart_fix (trimEnd _)); [apply trimEnd_idemp|].
  apply space_head_trimEnd, trimStart_head.
Qed.

(** An ideographic space (U+3000) is stripped. *)
Lemma trim_ideographic :
  trim (String "227" (String "128" (String "128" "Oslo"))) = "Oslo"%string.
Proof. reflexivity. Qed.

(** [s] holds no occurrence of the separator. *)
Definition no_sep (sep : ascii) (s : string) : bool :=
  all_chars (λ c, negb (bool_decide (c = sep))) s.

Lemma no_sep_cons sep c s :
  no_sep sep (String c s) = true ↔ c ≠ sep ∧ no_sep sep s = true.
Proof.
  unfold no_sep. simpl.
  rewrite andb_true_iff, negb_true_iff, bool_decide_eq_false. done.
Qed.

Lemma split_head_no_sep sep s : no_sep sep (split_head sep s) = true.
Proof.
  induction s as [|c s IH]; simpl; [done|].
  case_decide; [done|]. by apply no_sep_cons.
Qed.

Lemma split_head_id sep s : no_sep sep s = true → split_head sep s = s.
Proof.
  induction s as [|c s IH]; simpl; [done|].
  intros [Hc Hs]%no_sep_cons. rewrite decide_False by done. by rewrite IH.
Qed.

Lemma split_head_app sep s t :
  no_sep sep s = true → split_head sep (s +:+ String sep t) = s.
Proof.
  induction s as [|c s IH]; simpl.
  - intros _. by rewrite decide_True.
  - intros [Hc Hs]%no_sep_cons. rewrite decide_False by done. by rewrite IH.
Qed.

(** ** Properties of [encodeURIComponent] *)

(** Case analysis over the 256 bytes, each case by computation. *)
Ltac by_byte c := destruct c as [[] [] [] [] [] [] [] []]; vm_compute; reflexivity.

Lemma pct_digits_safe c : url_safe (pct_hi c) && url_safe (pct_lo c) = true.
Proof. by_byte c. Qed.

Lemma pct_digits_value c :
  (hi ← hex_value (pct_hi c); lo ← hex_value (pct_lo c);
   Some (ascii_of_N (16 * hi + lo))) = Some c.
Proof. by_byte c. Qed.

Lemma unreserved_not_pct c : unreserved c = true → c ≠ "%"%char.
Proof. by intros H ->. Qed.

Lemma all_chars_app p s t :
  all_chars p (s +:+ t) = all_chars p s && all_chars p t.
Proof.
  induction s as [|c s IH]; simpl; [done|]. by rewrite IH, andb_assoc.
Qed.

(** The encoding holds only unreserved bytes and percent escapes: no [&],
    [=], [#], [/], [?] or space can leak into the query string. *)
Lemma encodeURIComponent_safe s :
  all_chars url_safe (encodeURIComponent s) = true.
Proof.
  induction s as [|c s IH]; simpl; [done|].
  destruct (unreserved c) eqn:E; simpl.
  - unfold url_safe at 1. by rewrite E, IH.
  - rewrite IH, andb_true_r. apply pct_digits_safe.
Qed.

(** Decoding an encoded string gives the string back. *)
Lemma decode_encode s :
  decodeURIComponent (encodeURIComponent s) = Some s.
Proof.
  induction s as [|c s IH]; simpl; [done|].
  destruct (unreserved c) eqn:E; simpl.
  - rewrite decide_False by by apply unreserved_not_pct. by rewrite IH.
  - rewrite IH.
    pose proof (pct_digits_value c) as H.
    destruct (hex_value (pct_hi c)) as [hi|]; [simpl in *|done].
    destruct (hex_value (pct_lo c)) as [lo|]; [simpl in *|done].
    by simplify_eq.
Qed.

Lemma encodeURIComponent_inj s t :
  encodeURIComponent s = encodeURIComponent t → s = t.
Proof.
  intros H. apply (f_equal decodeURIComponent) in H.
  rewrite !decode_encode in H. by simplify_eq.
Qed.
