(* ===== verification/WeatherCodes.v ===== *)
(** * WeatherCodes: the Open-Meteo code tables

    [iconFor] and [labelFor] of WeatherCard.jsx and [gradientFor] of
    App.jsx map a WMO weather code (and a day flag) to an icon, a label and
    a background.  Each is an if-chain over literal code lists; the
    definitions below keep the chains as written, default parameters
    included, and the theorems relate them to one classification of the
    codes. *)

From Stdlib Require Import Ascii String ZArith.
From stdpp Require Import base tactics option list strings.
From S2P Require Import Prelude JsLib.

#[local] Open Scope Z_scope.

(** ** Data *)

(** The [theme] prop and state: ["light"] or ["dark"]. *)
Inductive Theme : Type := light | dark.

#[export] Instance Theme_eq_dec : EqDecision Theme.
Proof. solve_decision. Defined.

(** The icon components imported from [react-icons/wi]. *)
Inductive Icon : Type :=
| WiDaySunny | WiNightClear | WiCloud | WiFog
| WiRain | WiSnow | WiThunderstorm | WiStrongWind.

#[export] Instance Icon_eq_dec : EqDecision Icon.
Proof. solve_decision. Defined.

(** The element [iconFor] returns: a component with its [size] and
    [className] props. *)
Record IconElement : Type := mkIcon {
  icon : Icon;
  icon_size : Z;
  icon_class : string
}.

(** [list.includes(code)] on numbers. *)
Definition includes (l : list Z) (code : Z) : bool := bool_decide (code ∈ l).

(** A number used as a condition: every number but zero is truthy. *)
Definition truthy_num (n : Z) : bool := negb (n =? 0).

(** ** The tables *)

(** [iconFor(code = 0, isDay = 1, size = 72)]; [None] is an argument that is
    [undefined], which selects the default. *)
Definition iconFor (code isDay size : option Z) : IconElement :=
  let code := default 0 code in
  let isDay := default 1 isDay in
  let size := default 72 size in
  if code =? 0 then
    if truthy_num isDay then mkIcon WiDaySunny size "text-yellow-400"
    else mkIcon WiNightClear size "text-indigo-300"
  else if includes [1; 2; 3] code then mkIcon WiCloud size "text-sky-400"
  else if includes [45; 48] code then mkIcon WiFog size "text-slate-400"
  else if includes [51; 53; 55; 56; 57; 61; 63; 65; 66; 67; 80; 81; 82] code
  then mkIcon WiRain size "text-blue-500"
  else if includes [71; 73; 75; 77; 85; 86] code
  then mkIcon WiSnow size "text-cyan-300"
  else if includes [95; 96; 99] code
  then mkIcon WiThunderstorm size "text-purple-400"
  else mkIcon WiStrongWind size "text-teal-400".

(** [labelFor(code = 0)]. *)
Definition labelFor (code : option Z) : string :=
  let code := default 0 code in
  if code =? 0 then "Clear sky"
  else if includes [1] code then "Mainly clear"
  else if includes [2] code then "Partly cloudy"
  else if includes [3] code then "Overcast"
  else if includes [45; 48] code then "Fog"
  else if includes [51; 53; 55] code then "Drizzle"
  else if includes [56; 57] code then "Freezing drizzle"
  else if includes [61; 63; 65] code then "Rain"
  else if includes [66; 67] code then "Freezing rain"
  else if includes [71; 73; 75] code then "Snowfall"
  else if includes [77] code then "Snow grains"
  else if includes [80; 81; 82] code then "Rain showers"
  else if includes [85; 86] code then "Snow showers"
  else if includes [95] code then "Thunderstorm"
  else if includes [96; 99] code then "Thunderstorm with hail"
  else "Unknown".

(** [gradientFor({ theme, code, isDay })] of App.jsx. *)
Definition gradientFor (theme : Theme) (code isDay : Z) : string :=
  let day := isDay =? 1 in
  if decide (theme = dark) then
    if code =? 0
    then "bg-gradient-to-br from-indigo-950 via-slate-900 to-slate-800"
    else if includes [1; 2; 3] code
    then "bg-gradient-to-br from-slate-900 via-slate-800 to-slate-900"
    else if includes [51; 53; 55; 56; 57; 61; 63; 65; 66; 67; 80; 81; 82] code
    then "bg-gradient-to-br from-slate-900 via-indigo-900 to-slate-800"
    else if includes [71; 73; 75; 77; 85; 86] code
    then "bg-gradient-to-br from-slate-900 via-blue-950 to-slate-800"
    else "bg-gradient-to-br from-slate-950 via-slate-900 to-slate-800"
  else if code =? 0 then
    if day then "bg-gradient-to-br from-sky-100 via-indigo-100 to-emerald-100"
    else "bg-gradient-to-br from-indigo-200 via-slate-200 to-blue-200"
  else if includes [1; 2; 3] code then
    if day then "bg-gradient-to-br from-slate-100 via-slate-200 to-slate-300"
    else "bg-gradient-to-br from-slate-200 via-slate-300 to-slate-400"
  else if includes [51; 53; 55; 56; 57; 61; 63; 65; 66; 67; 80; 81; 82] code
  then
    if day then "bg-gradient-to-br from-blue-100 via-blue-200 to-slate-300"
    else "bg-gradient-to-br from-blue-200 via-indigo-200 to-slate-400"
  else if includes [71; 73; 75; 77; 85; 86] code then
    if day then "bg-gradient-to-br from-blue-50 via-blue-100 to-sky-100"
    else "bg-gradient-to-br from-blue-100 via-indigo-100 to-slate-200"
  else "bg-gradient-to-br from-emerald-100 via-sky-100 to-indigo-100".

(** ** The classification the tables share *)

(** The weather family of a code, as the WMO table groups them. *)
Inductive Family : Type :=
| FClear | FCloud | FFog | FRain | FSnow | FThunder | FUnknown.

#[export] Instance Family_eq_dec : EqDecision Family.
Proof. solve_decision. Defined.

(** Every code some table mentions. *)
Definition known_codes : list Z :=
  [0; 1; 2; 3; 45; 48; 51; 53; 55; 56; 57; 61; 63; 65; 66; 67;
   71; 73; 75; 77; 80; 81; 82; 85; 86; 95; 96; 99].

Definition family (code : Z) : Family :=
  if code =? 0 then FClear
  else if (1 <=? code) && (code <=? 3) then FCloud
  else if includes [45; 48] code then FFog
  else if includes [51; 53; 55; 56; 57; 61; 63; 65; 66; 67; 80; 81; 82] code
  then FRain
  else if includes [71; 73; 75; 77; 85; 86] code then FSnow
  else if includes [95; 96; 99] code then FThunder
  else FUnknown.

Definition family_icon (f : Family) (day : bool) : Icon :=
  match f with
  | FClear => if day then WiDaySunny else WiNightClear
  | FCloud => WiCloud
  | FFog => WiFog
  | FRain => WiRain
  | FSnow => WiSnow
  | FThunder => WiThunderstorm
  | FUnknown => WiStrongWind
  end.

(** The families [gradientFor] tells apart: fog and thunderstorm have no
    palette of their own. *)
Definition palette (f : Family) : Family :=
  match f with
  | FFog | FThunder => FUnknown
  | _ => f
  end.

(** The background of a palette family, as a table. *)
Definition palette_gradient (theme : Theme) (f : Family) (day : bool) : string :=
  match theme, f with
  | dark, FClear => "bg-gradient-to-br from-indigo-950 via-slate-900 to-slate-800"
  | dark, FCloud => "bg-gradient-to-br from-slate-900 via-slate-800 to-slate-900"
  | dark, FRain => "bg-gradient-to-br from-slate-900 via-indigo-900 to-slate-800"
  | dark, FSnow => "bg-gradient-to-br from-slate-900 via-blue-950 to-slate-800"
  | dark, _ => "bg-gradient-to-br from-slate-950 via-slate-900 to-slate-800"
  | light, FClear =>
      if day then "bg-gradient-to-br from-sky-100 via-indigo-100 to-emerald-100"
      else "bg-gradient-to-br from-indigo-200 via-slate-200 to-blue-200"
  | light, FCloud =>
      if day then "bg-gradient-to-br from-slate-100 via-slate-200 to-slate-300"
      else "bg-gradient-to-br from-slate-200 via-slate-300 to-slate-400"
  | light, FRain =>
      if day then "bg-gradient-to-br from-blue-100 via-blue-200 to-slate-300"
      else "bg-gradient-to-br from-blue-200 via-indigo-200 to-slate-400"
  | light, FSnow =>
      if day then "bg-gradient-to-br from-blue-50 via-blue-100 to-sky-100"
      else "bg-gradient-to-br from-blue-100 via-indigo-100 to-slate-200"
  | light, _ => "bg-gradient-to-br from-emerald-100 via-sky-100 to-indigo-100"
  end.

(** ** Reasoning by cases on a code

    A code is one of the [known_codes], and then every table computes, or
    it is none of them, and then every [includes] test on a list of known
    codes is false. *)

Lemma includes_unknown l code :
  forallb (λ x, bool_decide (x ∈ known_codes)) l = true →
  code ∉ known_codes → includes l code = false.
Proof.
  intros Hl Hc. apply bool_decide_eq_false. intros Hin. apply Hc.
  rewrite forallb_forall in Hl. eapply bool_decide_eq_true_1, Hl.
  by apply list_elem_of_In.
Qed.

Lemma eqb0_unknown code : code ∉ known_codes → (code =? 0) = false.
Proof.
  intros Hc. apply Z.eqb_neq. intros ->. apply Hc. by left.
Qed.

Lemma range_unknown code :
  code ∉ known_codes → (1 <=? code) && (code <=? 3) = false.
Proof.
  intros Hc. apply not_true_is_false.
  intros [H1%Z.leb_le H3%Z.leb_le]%andb_prop.
  apply Hc. unfold known_codes.
  assert (code = 1 ∨ code = 2 ∨ code = 3) as [-> | [-> | ->]] by lia;
    by eapply bool_decide_eq_true_1.
Qed.

(** Rewrite every test of the tables to [false] for an unknown code. *)
Ltac unknown_code H :=
  rewrite ?(eqb0_unknown _ H), ?(range_unknown _ H);
  rewrite ?includes_unknown by first [reflexivity | exact H].

(** Run through the known codes by computation; leave the unknown case. *)
Ltac code_cases c H :=
  destruct (decide (c ∈ known_codes)) as [H|H];
  [ unfold known_codes in H;
    repeat (apply elem_of_cons in H as [-> | H]); try (vm_compute; reflexivity);
    try by apply elem_of_nil in H
  | ].

(** ** Theorems *)

(** [iconFor] shows the icon of the code's family; the clear-sky icon
    follows the truthiness of the day flag. *)
Lemma iconFor_family code isDay size :
  icon (iconFor (Some code) (Some isDay) size) =
  family_icon (family code) (truthy_num isDay).
Proof.
  code_cases code H.
  - unfold iconFor, family; simpl. by destruct (truthy_num isDay).
  - unfold iconFor, family; simpl. by unknown_code H.
Qed.

(** The size and colour props do not depend on each other: the size is
    the one passed, 72 when none is. *)
Lemma iconFor_size code isDay size :
  icon_size (iconFor code isDay size) = default 72 size.
Proof. unfold iconFor. by repeat case_match. Qed.

(** [labelFor] answers "Unknown" exactly for the codes of the unknown
    family, for which [iconFor] shows the wind icon: the two tables agree
    on which codes they know. *)
Lemma labelFor_unknown_iff code :
  labelFor (Some code) = "Unknown" ↔ family code = FUnknown.
Proof.
  code_cases code H; try (vm_compute; split; discriminate).
  unfold labelFor, family; simpl. by unknown_code H.
Qed.

(** [iconFor] shows the wind icon exactly for the codes of the unknown
    family. *)
Lemma iconFor_wind_iff code isDay size :
  icon (iconFor (Some code) (Some isDay) size) = WiStrongWind ↔
  family code = FUnknown.
Proof.
  rewrite iconFor_family.
  destruct (family code), (truthy_num isDay); simpl; split; done.
Qed.

(** C39. The two tables agree on the codes they know: [labelFor] answers
    "Unknown" exactly for the codes for which [iconFor] falls back to the
    wind icon, whatever the day flag and the size. *)
Theorem icon_label_agree code isDay size :
  labelFor (Some code) = "Unknown" ↔
  icon (iconFor (Some code) (Some isDay) size) = WiStrongWind.
Proof. by rewrite labelFor_unknown_iff, iconFor_wind_iff. Qed.

(** An omitted code is read as 0, clear sky. *)
Lemma labelFor_default : labelFor None = "Clear sky".
Proof. reflexivity. Qed.

(** In the dark theme the background ignores the day flag. *)
Lemma gradientFor_dark_day code isDay isDay' :
  gradientFor dark code isDay = gradientFor dark code isDay'.
Proof. reflexivity. Qed.

(** [gradientFor] is the palette table applied to the code's palette
    family and to the test [isDay === 1]. *)
Lemma gradientFor_family theme code isDay :
  gradientFor theme code isDay =
  palette_gradient theme (palette (family code)) (isDay =? 1).
Proof.
  unfold gradientFor.
  destruct (isDay =? 1), theme; code_cases code H;
    unfold family; simpl; by unknown_code H.
Qed.

(** C40. The background depends on the code only through its palette family:
    two codes of one palette family get the same background.  Fog and
    thunderstorm have no palette, so they get the background of a code the
    application does not know. *)
Theorem gradientFor_palette theme code code' isDay :
  palette (family code) = palette (family code') →
  gradientFor theme code isDay = gradientFor theme code' isDay.
Proof. intros Hp. by rewrite !gradientFor_family, Hp. Qed.

(** ** Witnesses *)

(** Fog (45) is shown on the background of the unknown code 4. *)
Lemma gradientFor_palette_witness :
  gradientFor light 45 1 = gradientFor light 4 1.
Proof. exact (gradientFor_palette light 45 4 1 eq_refl). Defined.
