(* ===== verification/Api.v ===== *)
(** * Api: the shapes of what the card exchanges with Open-Meteo

    The card reads a handful of properties off the parsed JSON of the
    geocoding and forecast services.  Each record below holds exactly the
    properties the code reads; a property is optional ([option]) where the
    code tests for its presence ([!j.results], [!json.current_weather],
    [r.admin1 && ...], [typeof data.winddirection === "number"],
    [data.time ? ... : ""]) and plain where the code uses it untested. *)

From Stdlib Require Import Ascii String ZArith QArith.
From stdpp Require Import base tactics option list strings.
From S2P Require Import Prelude JsLib.

(** The [unit] state: ["celsius"] or ["fahrenheit"]. *)
Inductive Unit : Type := celsius | fahrenheit.

#[export] Instance Unit_eq_dec : EqDecision Unit.
Proof. solve_decision. Defined.

(** The string the state holds, as it is spliced into the forecast URL. *)
Definition unit_string (u : Unit) : string :=
  match u with
  | celsius => "celsius"
  | fahrenheit => "fahrenheit"
  end.

(** One entry of [results] of the geocoding services. *)
Record GeoResult : Type := mkGeoResult {
  latitude : num;
  longitude : num;
  name : option string;
  admin1 : option string;
  country : option string
}.

(** [json.current_weather] of the forecast service. *)
Record CurrentWeather : Type := mkCurrentWeather {
  temperature : num;
  weathercode : Z;
  is_day : Z;
  windspeed : num;
  winddirection : option num;
  time : option string
}.

(** [json.daily] of the forecast service: index-aligned arrays. *)
Record Daily : Type := mkDaily {
  daily_time : list string;
  daily_weathercode : list Z;
  temperature_2m_max : list num;
  temperature_2m_min : list num;
  sunrise : list string;
  sunset : list string
}.

(** A parsed response body, seen through the properties the card reads.
    An entry of [results] may be [null]. *)
Record Json : Type := mkJson {
  results : option (list (option GeoResult));
  current_weather : option CurrentWeather;
  daily : option Daily
}.

#[export] Instance GeoResult_eq_dec : EqDecision GeoResult.
Proof. solve_decision. Defined.

#[export] Instance CurrentWeather_eq_dec : EqDecision CurrentWeather.
Proof. solve_decision. Defined.

#[export] Instance Daily_eq_dec : EqDecision Daily.
Proof. solve_decision. Defined.

#[export] Instance Json_eq_dec : EqDecision Json.
Proof. solve_decision. Defined.

(** A body of the geocoding services and a body of the forecast service. *)
Definition geo_body (rs : list (option GeoResult)) : Json :=
  mkJson (Some rs) None None.

Definition forecast_body (cw : CurrentWeather) (d : option Daily) : Json :=
  mkJson None (Some cw) d.

(** The arrays of a well-formed [daily] block have one length. *)
Definition aligned (d : Daily) : Prop :=
  length (daily_weathercode d) = length (daily_time d) ∧
  length (temperature_2m_max d) = length (daily_time d) ∧
  length (temperature_2m_min d) = length (daily_time d) ∧
  length (sunrise d) = length (daily_time d) ∧
  length (sunset d) = length (daily_time d).

#[export] Instance aligned_dec d : Decision (aligned d).
Proof. unfold aligned. apply _. Defined.
