(* ===== verification/Session.v ===== *)
(** * Session: the state of the card

    [Card] is the component state of [WeatherCard]: one field per
    [useState] cell (WeatherCard.jsx lines 69-77) and one for the
    [lastFetchRef] cell (line 78).  [Machine] adds what the JavaScript
    runtime holds for the component while it is mounted: the suspended
    continuations of its [async] functions ([Task]), the identity of the
    object in the [coords] cell, and the trace of platform calls. *)

From Stdlib Require Import Ascii String ZArith QArith.
From stdpp Require Import base tactics option list strings gmap.
From S2P Require Import Prelude JsLib Api.

(** ** The component state *)

(** The object [{ lat, lon }] of the [coords] cell. *)
Record Coords : Type := mkCoords {
  lat : num;
  lon : num
}.

(** The object of [lastFetchRef.current]; every field starts as [null]. *)
Record FetchRef : Type := mkFetchRef {
  ref_lat : option num;
  ref_lon : option num;
  ref_unit : option Unit
}.

Record Card : Type := mkCard {
  query : string;
  displayName : string;
  unit : Unit;
  loading : bool;
  error : string;
  coords : option Coords;
  data : option CurrentWeather;
  dailyForecast : option Daily;
  shareMessage : string;
  lastFetchRef : FetchRef
}.

#[export] Instance Coords_eq_dec : EqDecision Coords.
Proof. solve_decision. Defined.

#[export] Instance FetchRef_eq_dec : EqDecision FetchRef.
Proof. solve_decision. Defined.

#[export] Instance Card_eq_dec : EqDecision Card.
Proof. solve_decision. Defined.

(** The initial values of the cells. *)
Definition initial_card : Card :=
  mkCard "" "" celsius false "" None None None "" (mkFetchRef None None None).

(** ** Suspended continuations *)

(** Who awaits the promise of a [fetchWeatherAt] call: nobody (the effects
    and the geolocation callback drop it) or [onSearch], which then runs
    its [finally] block. *)
Inductive FetchCont : Type := KNone | KSearch.

(** A continuation waiting for the platform, with the variables its
    closure captured. *)
Inductive Task : Type :=
| TGeolocation (u : Unit)
    (* the callbacks passed to getCurrentPosition by the first effect of a
       render whose unit was [u] *)
| TReverse (lat lon : num) (u : Unit)
    (* the success callback, suspended at [await reverseLabel(lat, lon)] *)
| TResolve (name : string) (u : Unit)
    (* [onSearch], suspended at [await resolveCity(name)] *)
| TFetch (lat lon : num) (unitToUse : Unit) (placeLabel : option string)
         (k : FetchCont)
    (* [fetchWeatherAt], suspended at [await fetch(url)] *)
| TClipboard (text : string)
    (* [handleShare], suspended at [await navigator.clipboard.writeText] *)
| TTimer.
    (* the callback of [setTimeout(() => setShareMessage(""), 3000)] *)

#[export] Instance FetchCont_eq_dec : EqDecision FetchCont.
Proof. solve_decision. Defined.

#[export] Instance Task_eq_dec : EqDecision Task.
Proof. solve_decision. Defined.

(** ** Platform calls *)

(** What the component asks of its environment, in the order it asks. *)
Inductive Output : Type :=
| ONet (url : Url)              (* fetch(url) *)
| OGeolocate                    (* navigator.geolocation.getCurrentPosition *)
| OMeta (code isDay : Z)        (* onMetaChange({ code, isDay }) *)
| OConsoleError                 (* console.error(e) *)
| OClipboardWrite (text : string)
| OSetTimeout (ms : Z).

#[export] Instance Output_eq_dec : EqDecision Output.
Proof. solve_decision. Defined.

(** ** The environment of a mounted card *)

Record Env : Type := mkEnv {
  env_geolocation : bool;    (* [navigator.geolocation] is defined *)
  env_onMetaChange : bool;   (* the [onMetaChange] prop was passed *)
  env_origin : string        (* [window.location.origin] *)
}.

(** ** The machine *)

Record Machine : Type := mkMachine {
  card : Card;
  coordsGen : nat;           (* identity of the object in the [coords] cell *)
  tasks : gmap nat Task;     (* suspended continuations, by identifier *)
  nextId : nat;              (* the next fresh identifier *)
  log : list Output          (* platform calls so far, oldest first *)
}.

#[export] Instance Machine_eq_dec : EqDecision Machine.
Proof. solve_decision. Defined.

Definition initial_machine : Machine :=
  mkMachine initial_card 0 ∅ 0 [].

(** *** Primitive actions *)

Definition on_card (f : Card → Card) : Action Machine :=
  λ m, mkMachine (f (card m)) (coordsGen m) (tasks m) (nextId m) (log m).

Definition setQuery (v : string) : Action Machine :=
  on_card (λ c, mkCard v (displayName c) (unit c) (loading c) (error c)
    (coords c) (data c) (dailyForecast c) (shareMessage c) (lastFetchRef c)).

Definition setDisplayName (v : string) : Action Machine :=
  on_card (λ c, mkCard (query c) v (unit c) (loading c) (error c)
    (coords c) (data c) (dailyForecast c) (shareMessage c) (lastFetchRef c)).

Definition setUnit (f : Unit → Unit) : Action Machine :=
  on_card (λ c, mkCard (query c) (displayName c) (f (unit c)) (loading c)
    (error c) (coords c) (data c) (dailyForecast c) (shareMessage c)
    (lastFetchRef c)).

Definition setLoading (v : bool) : Action Machine :=
  on_card (λ c, mkCard (query c) (displayName c) (unit c) v (error c)
    (coords c) (data c) (dailyForecast c) (shareMessage c) (lastFetchRef c)).

Definition setError (v : string) : Action Machine :=
  on_card (λ c, mkCard (query c) (displayName c) (unit c) (loading c) v
    (coords c) (data c) (dailyForecast c) (shareMessage c) (lastFetchRef c)).

(** [setCoords({ lat, lon })]: a new object each time. *)
Definition setCoords (v : Coords) : Action Machine :=
  λ m, mkMachine
    (mkCard (query (card m)) (displayName (card m)) (unit (card m))
       (loading (card m)) (error (card m)) (Some v) (data (card m))
       (dailyForecast (card m)) (shareMessage (card m))
       (lastFetchRef (card m)))
    (S (coordsGen m)) (tasks m) (nextId m) (log m).

Definition setData (v : option CurrentWeather) : Action Machine :=
  on_card (λ c, mkCard (query c) (displayName c) (unit c) (loading c)
    (error c) (coords c) v (dailyForecast c) (shareMessage c)
    (lastFetchRef c)).

Definition setDailyForecast (v : option Daily) : Action Machine :=
  on_card (λ c, mkCard (query c) (displayName c) (unit c) (loading c)
    (error c) (coords c) (data c) v (shareMessage c) (lastFetchRef c)).

Definition setShareMessage (v : string) : Action Machine :=
  on_card (λ c, mkCard (query c) (displayName c) (unit c) (loading c)
    (error c) (coords c) (data c) (dailyForecast c) v (lastFetchRef c)).

(** [lastFetchRef.current = v]. *)
Definition setLastFetchRef (v : FetchRef) : Action Machine :=
  on_card (λ c, mkCard (query c) (displayName c) (unit c) (loading c)
    (error c) (coords c) (data c) (dailyForecast c) (shareMessage c) v).

(** Record a platform call. *)
Definition emit (o : Output) : Action Machine :=
  λ m, mkMachine (card m) (coordsGen m) (tasks m) (nextId m) (log m ++ [o]).

(** Suspend a continuation under a fresh identifier. *)
Definition spawn (t : Task) : Action Machine :=
  λ m, mkMachine (card m) (coordsGen m) (<[nextId m := t]> (tasks m))
         (S (nextId m)) (log m).

(** Resume: the continuation leaves the pending set. *)
Definition retire (id : nat) : Action Machine :=
  λ m, mkMachine (card m) (coordsGen m) (delete id (tasks m)) (nextId m)
         (log m).

(** The network requests among some platform calls, and the calls a step
    from [m] to [m'] added to the log. *)
Definition requests (os : list Output) : list Url :=
  omap (λ o, match o with ONet u => Some u | _ => None end) os.

Definition new_calls (m m' : Machine) : list Output :=
  drop (length (log m)) (log m').

(** ** Well-formedness *)

(** Every pending identifier was handed out: [spawn] never overwrites. *)
Definition fresh_ids (m : Machine) : Prop :=
  ∀ id t, tasks m !! id = Some t → id < nextId m.

Lemma fresh_ids_initial : fresh_ids initial_machine.
Proof. intros id t. unfold initial_machine. simpl. by rewrite lookup_empty. Qed.

Lemma fresh_ids_on_card f m : fresh_ids m → fresh_ids (on_card f m).
Proof. done. Qed.

Lemma fresh_ids_setCoords v m : fresh_ids m → fresh_ids (setCoords v m).
Proof. done. Qed.

Lemma fresh_ids_emit o m : fresh_ids m → fresh_ids (emit o m).
Proof. done. Qed.

Lemma fresh_ids_spawn t m : fresh_ids m → fresh_ids (spawn t m).
Proof.
  intros Hm id t'. unfold spawn. simpl. intros Hl.
  destruct (decide (nextId m = id)) as [<-|Hne]; [lia|].
  rewrite lookup_insert_ne in Hl by done. apply Hm in Hl. lia.
Qed.

Lemma fresh_ids_retire id m : fresh_ids m → fresh_ids (retire id m).
Proof.
  intros Hm id' t. unfold retire. simpl. intros Hl.
  apply lookup_delete_Some in Hl as [_ Hl]. eauto.
Qed.

Lemma lookup_nextId m : fresh_ids m → tasks m !! nextId m = None.
Proof.
  intros Hm. destruct (tasks m !! nextId m) as [t'|] eqn:E; [|done].
  apply Hm in E. lia.
Qed.

(** A spawned task is pending and no pending task is lost. *)
Lemma spawn_preserves t m id t' :
  fresh_ids m → tasks m !! id = Some t' → tasks (spawn t m) !! id = Some t'.
Proof.
  intros Hm Hl. unfold spawn. simpl.
  rewrite lookup_insert_ne; [done|]. apply Hm in Hl. lia.
Qed.

#[export] Hint Resolve fresh_ids_initial fresh_ids_on_card fresh_ids_setCoords
  fresh_ids_emit fresh_ids_spawn fresh_ids_retire : weather.
