(* ===== verification/Samples.v ===== *)
(** * Samples: concrete data for the witnesses and the scenarios

    A geocoding result for Chennai, a current-conditions block, a seven-day
    forecast and a browser environment, on which the theorems of the
    development are instantiated and the scenarios run. *)

From Stdlib Require Import Ascii String ZArith QArith.
From stdpp Require Import base tactics option list strings gmap.
From S2P Require Import Prelude JsLib Api Session.

#[local] Open Scope Q_scope.

Definition chennai : GeoResult :=
  mkGeoResult (1308 # 100) (8027 # 100)
    (Some "Chennai") (Some "Tamil Nadu") (Some "India").

Definition singapore : GeoResult :=
  mkGeoResult (129 # 100) (10385 # 100)
    (Some "Singapore") (Some "Singapore") (Some "Singapore").

Definition london : GeoResult :=
  mkGeoResult (5151 # 100) (-13 # 100)
    (Some "London") (Some "England") (Some "United Kingdom").

Definition sunny : CurrentWeather :=
  mkCurrentWeather (315 # 10) 0 1 (12 # 1) (Some (90 # 1))
    (Some "2024-05-01T12:00").

Definition rainy : CurrentWeather :=
  mkCurrentWeather (887 # 10) 61 0 (20 # 1) None (Some "2024-05-01T22:00").

Definition week : Daily :=
  mkDaily
    ["2024-05-01"; "2024-05-02"; "2024-05-03"; "2024-05-04";
     "2024-05-05"; "2024-05-06"; "2024-05-07"]
    [0; 1; 2; 3; 61; 95; 45]%Z
    [35 # 1; 36 # 1; 34 # 1; 33 # 1; 30 # 1; 29 # 1; 31 # 1]
    [27 # 1; 28 # 1; 27 # 1; 26 # 1; 25 # 1; 24 # 1; 25 # 1]
    ["2024-05-01T05:45"; "2024-05-02T05:45"; "2024-05-03T05:44";
     "2024-05-04T05:44"; "2024-05-05T05:43"; "2024-05-06T05:43";
     "2024-05-07T05:43"]
    ["2024-05-01T18:20"; "2024-05-02T18:20"; "2024-05-03T18:21";
     "2024-05-04T18:21"; "2024-05-05T18:21"; "2024-05-06T18:22";
     "2024-05-07T18:22"].

(** A browser with geolocation, mounted by [App] (which passes
    [onMetaChange]). *)
Definition browser : Env := mkEnv true true "https://weather.example".
