(* ===== verification/Location.v ===== *)
(** * Location: the location resolver

    [formatLocationLabel], and what [resolveCity] and [reverseLabel] of
    WeatherCard.jsx make of each outcome of their network call.  Both are
    [async] functions with a single suspension, so each is a URL (what is
    requested) and a total function of the outcome (what is returned or
    thrown). *)

From Stdlib Require Import Ascii String ZArith QArith.
From stdpp Require Import base tactics option list strings.
From S2P Require Import Prelude JsLib Api Session Samples.

(** ** Labels *)

(** The separator [",\n"]: a comma and a line feed. *)
Definition label_sep : string := String "," (String "010" EmptyString).

(** [parts.filter(Boolean)] on values that are strings or [undefined]. *)
Definition filter_Boolean (parts : list (option string)) : list string :=
  omap (λ o, if truthy_opt o then o else None) parts.

(** [formatLocationLabel(r)]; [None] is a result that is [null] or
    [undefined]. *)
Definition formatLocationLabel (r : option GeoResult) : string :=
  match r with
  | None => "Unknown location"
  | Some r =>
      let parts := [name r] in
      let parts :=
        if truthy_opt (admin1 r) && negb (bool_decide (admin1 r = name r))
        then parts ++ [admin1 r] else parts in
      let parts :=
        if truthy_opt (country r) then parts ++ [country r] else parts in
      join label_sep (filter_Boolean parts)
  end.

(** ** Forward lookup *)

(** What an [await] can throw into [onSearch]: an [Error] the code
    constructs with a message, or a rejection raised by the platform
    ([fetch] failing, [res.json()] failing, a [TypeError]). *)
Inductive Exn : Type :=
| Error (message : string)
| Rejection.

(** The value [resolveCity] resolves to. *)
Record Place : Type := mkPlace {
  place_lat : num;
  place_lon : num;
  place_label : string
}.

#[export] Instance Exn_eq_dec : EqDecision Exn.
Proof. solve_decision. Defined.

#[export] Instance Place_eq_dec : EqDecision Place.
Proof. solve_decision. Defined.

(** The URL [resolveCity(name)] requests. *)
Definition resolveCity_url (name : string) : Url :=
  mkUrl "https://geocoding-api.open-meteo.com/v1/search"
    [("name", QStr (encodeURIComponent name));
     ("count", QStr "1");
     ("language", QStr "en")].

(** [resolveCity] after its [await]s: throws ([inl]) or returns ([inr]). *)
Definition resolveCity_result (r : HttpResult Json) : Exn + Place :=
  match r with
  | FetchRejected => inl Rejection
  | Response false _ => inl (Error "Geocoding request failed")
  | Response true None => inl Rejection
  | Response true (Some j) =>
      match results j with
      | None | Some [] => inl (Error "City not found")
      | Some (None :: _) => inl Rejection
      | Some (Some r :: _) =>
          inr (mkPlace (latitude r) (longitude r)
                       (formatLocationLabel (Some r)))
      end
  end.

(** ** Reverse lookup *)

(** The URL [reverseLabel(lat, lon)] requests. *)
Definition reverseLabel_url (lat lon : num) : Url :=
  mkUrl "https://geocoding-api.open-meteo.com/v1/reverse"
    [("latitude", QNum lat);
     ("longitude", QNum lon);
     ("language", QStr "en");
     ("count", QStr "1")].

(** [reverseLabel] after its [await]s: a label or [null], never a throw. *)
Definition reverseLabel_result (r : HttpResult Json) : option string :=
  match r with
  | Response true (Some j) =>
      match results j with
      | None | Some [] => None
      | Some (r :: _) => Some (formatLocationLabel r)
      end
  | _ => None
  end.

(** ** Properties of labels *)

Lemma filter_Boolean_cons s parts :
  truthy s = true → filter_Boolean (Some s :: parts) = s :: filter_Boolean parts.
Proof. intros H. unfold filter_Boolean. simpl. by rewrite H. Qed.

Section Labels.
Context (r : GeoResult).

(** The parts of the label, before the falsy ones are dropped. *)
Definition label_parts : list string :=
  filter_Boolean
    [name r;
     if bool_decide (admin1 r = name r) then None else admin1 r;
     country r].

Lemma formatLocationLabel_parts :
  formatLocationLabel (Some r) = join label_sep label_parts.
Proof.
  unfold formatLocationLabel, label_parts, filter_Boolean.
  destruct (name r) as [[|]|], (admin1 r) as [[|]|], (country r) as [[|]|];
    simpl; repeat case_bool_decide; simplify_eq; done.
Qed.

(** C32. A result whose [name] is a non-empty string gets a label that is the
    name, followed by nothing or by the separator and more. *)
Theorem formatLocationLabel_name n :
  name r = Some n → truthy n = true →
  formatLocationLabel (Some r) = n ∨
  ∃ rest, formatLocationLabel (Some r) = n +:+ label_sep +:+ rest.
Proof.
  intros Hn Ht. rewrite formatLocationLabel_parts.
  unfold label_parts. rewrite Hn, filter_Boolean_cons by done.
  destruct (filter_Boolean _) as [|p ps]; [by left|right].
  eexists. by rewrite join_cons.
Qed.

(** A region equal to the place name is not repeated. *)
Lemma formatLocationLabel_same_region :
  admin1 r = name r →
  formatLocationLabel (Some r) = join label_sep (filter_Boolean [name r; country r]).
Proof.
  intros He. rewrite formatLocationLabel_parts. unfold label_parts.
  by rewrite bool_decide_eq_true_2.
Qed.

(** The label is empty exactly when no field of the result is a
    non-empty string. *)
Theorem formatLocationLabel_empty :
  formatLocationLabel (Some r) = EmptyString ↔
  truthy_opt (name r) = false ∧ truthy_opt (admin1 r) = false ∧
  truthy_opt (country r) = false.
Proof.
  unfold formatLocationLabel, filter_Boolean.
  destruct (name r) as [[|]|], (admin1 r) as [[|]|], (country r) as [[|]|];
    simpl; repeat case_bool_decide; simpl; split; intros Hx;
    destruct_and?; done.
Qed.

End Labels.

(** An absent field and an empty one give the same label. *)
Definition normalize (o : option string) : option string :=
  if truthy_opt o then o else None.

Lemma formatLocationLabel_normalize lat lon n a c :
  formatLocationLabel (Some (mkGeoResult lat lon n a c)) =
  formatLocationLabel
    (Some (mkGeoResult lat lon (normalize n) (normalize a) (normalize c))).
Proof.
  destruct n as [[|]|], a as [[|]|], c as [[|]|];
    simpl; repeat case_bool_decide; simplify_eq; done.
Qed.

(** ** Properties of the lookups *)

Lemma resolveCity_empty j :
  results j = None ∨ results j = Some [] →
  resolveCity_result (JsonOk j) = inl (Error "City not found").
Proof. intros [H|H]; simpl; by rewrite H. Qed.

(** [resolveCity] throws "City not found" exactly when the service answered
    with well-formed JSON that holds no result. *)
Theorem resolveCity_not_found r :
  resolveCity_result r = inl (Error "City not found") ↔
  ∃ j, r = JsonOk j ∧ (results j = None ∨ results j = Some []).
Proof.
  split.
  - destruct r as [|[] [j|]]; simpl; try done.
    destruct (results j) as [[|[g|] rs]|] eqn:E; try done; eauto.
  - intros (j & -> & H). by apply resolveCity_empty.
Qed.

(** C33. [resolveCity] returns exactly when the status of the response is
    ok, its body is JSON and the first result is an object, and then the
    place is built from that result alone. *)
Theorem resolveCity_ok r p :
  resolveCity_result r = inr p ↔
  ∃ j g rs, r = JsonOk j ∧ results j = Some (Some g :: rs) ∧
    p = mkPlace (latitude g) (longitude g) (formatLocationLabel (Some g)).
Proof.
  split.
  - destruct r as [|[] [j|]]; simpl; try done.
    destruct (results j) as [[|[g|] rs]|] eqn:E; try done.
    intros [= <-]. eauto 6.
  - intros (j & g & rs & -> & H & ->). simpl. by rewrite H.
Qed.

(** An error status is reported as such whatever the body holds. *)
Lemma resolveCity_status body :
  resolveCity_result (Response false body) =
  inl (Error "Geocoding request failed").
Proof. done. Qed.

(** Only the first candidate counts: the others never change the answer. *)
Lemma resolveCity_first g rs rs' :
  resolveCity_result (JsonOk (geo_body (g :: rs))) =
  resolveCity_result (JsonOk (geo_body (g :: rs'))).
Proof. by destruct g. Qed.

(** C34. [reverseLabel] gives no label exactly on a failed call (a rejected
    fetch, an error status whatever its body, a body that is not JSON) or
    an empty result list. *)
Theorem reverseLabel_none r :
  reverseLabel_result r = None ↔
  r = FetchRejected ∨ (∃ body, r = Response false body) ∨ r = JsonRejected ∨
  ∃ j, r = JsonOk j ∧ (results j = None ∨ results j = Some []).
Proof.
  split.
  - destruct r as [|[] [j|]]; simpl; eauto.
    destruct (results j) as [[|g rs]|] eqn:E; try done; eauto 8.
  - intros [->|[[b ->]|[->|(j & -> & [H|H])]]]; simpl; try done; by rewrite H.
Qed.

(** ** Witnesses *)

Lemma formatLocationLabel_name_witness :
  formatLocationLabel (Some chennai) = "Chennai" ∨
  ∃ rest, formatLocationLabel (Some chennai) = "Chennai" +:+ label_sep +:+ rest.
Proof. exact (formatLocationLabel_name chennai "Chennai" eq_refl eq_refl). Defined.
