(* ===== verification/Fetch.v ===== *)
(** * Fetch: the weather fetch coordinator

    [fetchWeatherAt] of WeatherCard.jsx (lines 92-130) is an [async]
    function with one suspension that changes state, [await fetch(url)]
    (the [await res.json()] that follows changes nothing in between, so the
    two are one outcome).  [fetchWeatherAt_start] is the function up to
    that [await]: the de-duplication guard, the loading transition and the
    request.  [fetchWeatherAt_resume] is the rest: the [try] body on a good
    response, the [catch] block on a bad one, the [finally] block on
    both. *)

From Stdlib Require Import Ascii String ZArith QArith.
From stdpp Require Import base tactics option list strings gmap.
From S2P Require Import Prelude JsLib Api Session Samples.

#[local] Open Scope act_scope.

(** ** Definitions *)

(** The argument object [{ lat, lon, unitToUse, placeLabel }]; a missing
    property is [None]. *)
Record FetchArgs : Type := mkFetchArgs {
  arg_lat : num;
  arg_lon : num;
  arg_unitToUse : option Unit;
  arg_placeLabel : option string
}.

(** The forecast URL of line 105. *)
Definition forecast_url (lat lon : num) (unitToUse : Unit) : Url :=
  mkUrl "https://api.open-meteo.com/v1/forecast"
    [("latitude", QNum lat);
     ("longitude", QNum lon);
     ("current_weather", QStr "true");
     ("daily",
      QStr "temperature_2m_max,temperature_2m_min,weathercode,sunrise,sunset");
     ("temperature_unit", QStr (unit_string unitToUse));
     ("timezone", QStr "auto")].

(** The unit a forecast URL asks for, as the service reads it. *)
Definition url_unit (url : Url) : option Unit :=
  s ← url_str "temperature_unit" url;
  if decide (s = "celsius") then Some celsius
  else if decide (s = "fahrenheit") then Some fahrenheit
  else None.

(** The guard of lines 94-98: the three fields of [lastFetchRef.current]
    are strictly equal to the arguments. *)
Definition same_key (r : FetchRef) (lat lon : num) (u : Unit) : bool :=
  strict_eq_null (ref_lat r) lat &&
  strict_eq_null (ref_lon r) lon &&
  bool_decide (ref_unit r = Some u).

(** [unitToUse = unit]: the default is the [unit] of the render that
    created the callback. *)
Definition unit_of (closure_unit : Unit) (a : FetchArgs) : Unit :=
  default closure_unit (arg_unitToUse a).

Definition deduped (closure_unit : Unit) (a : FetchArgs) (m : Machine) : bool :=
  same_key (lastFetchRef (card m)) (arg_lat a) (arg_lon a)
    (unit_of closure_unit a).

(** [fetchWeatherAt] up to [await fetch(url)]. *)
Definition fetchWeatherAt_start (closure_unit : Unit) (a : FetchArgs)
    (k : FetchCont) : Action Machine :=
  λ m,
    let unitToUse := unit_of closure_unit a in
    if deduped closure_unit a m then m
    else
      (setLoading true ;;
       setError "" ;;
       emit (ONet (forecast_url (arg_lat a) (arg_lon a) unitToUse)) ;;
       spawn (TFetch (arg_lat a) (arg_lon a) unitToUse (arg_placeLabel a) k))
      m.

(** The [catch] block followed by the [finally] block. *)
Definition fetch_failed : Action Machine :=
  emit OConsoleError ;;
  setError "Failed to fetch weather. Please try again." ;;
  setLoading false.

(** [if (placeLabel) setDisplayName(placeLabel)]. *)
Definition adopt_label (placeLabel : option string) : Action Machine :=
  match placeLabel with
  | Some l => when (truthy l) (setDisplayName l)
  | None => skip
  end.

(** [fetchWeatherAt] from [await fetch(url)] on, given the outcome. *)
Definition fetchWeatherAt_resume (env : Env) (lat lon : num) (unitToUse : Unit)
    (placeLabel : option string) (r : HttpResult Json) : Action Machine :=
  match r with
  | Response true (Some j) =>
      match current_weather j with
      | Some cw =>
          setData (Some cw) ;;
          setDailyForecast (daily j) ;;
          when (env_onMetaChange env)
            (emit (OMeta (weathercode cw) (is_day cw))) ;;
          adopt_label placeLabel ;;
          setLastFetchRef (mkFetchRef (Some lat) (Some lon) (Some unitToUse)) ;;
          setLoading false
      | None => fetch_failed
      end
  | _ => fetch_failed
  end.

(** The outcomes on which the [try] body runs to its end. *)
Definition fetch_ok (r : HttpResult Json) : option (CurrentWeather * option Daily) :=
  match r with
  | Response true (Some j) => cw ← current_weather j; Some (cw, daily j)
  | _ => None
  end.

(** The [try] body runs to its end exactly on a response whose status is
    ok and whose body is JSON with a current-weather block. *)
Lemma fetch_ok_iff r cw d :
  fetch_ok r = Some (cw, d) ↔
  ∃ j, r = Response true (Some j) ∧ current_weather j = Some cw ∧ daily j = d.
Proof.
  split.
  - destruct r as [|[] [j|]]; simpl; try done.
    destruct (current_weather j) eqn:E; simpl; [|done]. intros [= <- <-]. eauto.
  - intros (j & -> & Hc & <-). simpl. by rewrite Hc.
Qed.

(** An error status is a failure whatever the body holds. *)
Lemma fetch_ok_status body : fetch_ok (Response false body) = None.
Proof. done. Qed.

(** ** The guard *)

(** Two keys are the same request when their numbers are equal as numbers
    and their units are equal. *)
Definition key_equiv (k1 k2 : num * num * Unit) : Prop :=
  (k1.1.1 == k2.1.1)%Q ∧ (k1.1.2 == k2.1.2)%Q ∧ k1.2 = k2.2.

#[export] Instance key_equiv_equivalence : Equivalence key_equiv.
Proof.
  split.
  - intros [[??]?]. by repeat split.
  - intros [[??]?] [[??]?] (?&?&?). by repeat split.
  - intros [[??]?] [[??]?] [[??]?] (?&?&?) (?&?&?). simpl in *.
    repeat split; etrans; eauto.
Qed.

(** The guard cannot tell equivalent keys apart. *)
#[export] Instance same_key_proper r :
  Proper (Qeq ==> Qeq ==> eq ==> eq) (same_key r).
Proof.
  intros x x' Hx y y' Hy u ? <-. unfold same_key, strict_eq_null.
  destruct r as [[a|] [b|] c]; simpl; try done;
    unfold strict_eq; by rewrite ?Hx, ?Hy.
Qed.

Lemma same_key_iff r lat lon u :
  same_key r lat lon u = true ↔
  ∃ lat' lon', r = mkFetchRef (Some lat') (Some lon') (Some u) ∧
    key_equiv (lat', lon', u) (lat, lon, u).
Proof.
  unfold same_key, key_equiv. destruct r as [a b c]; simpl.
  rewrite !andb_true_iff, !strict_eq_null_Some, bool_decide_eq_true.
  split.
  - intros [[(x & -> & Hx) (y & -> & Hy)] ->]. by exists x, y.
  - intros (x & y & [= -> -> ->] & Hx & Hy & _). eauto 10.
Qed.

Lemma same_key_initial lat lon u :
  same_key (lastFetchRef initial_card) lat lon u = false.
Proof. reflexivity. Qed.

Lemma same_key_refl lat lon u :
  same_key (mkFetchRef (Some lat) (Some lon) (Some u)) lat lon u = true.
Proof.
  unfold same_key. simpl. rewrite !strict_eq_refl.
  by rewrite bool_decide_eq_true_2.
Qed.

(** ** The transitions *)

Section Transitions.
Context (u : Unit) (a : FetchArgs) (k : FetchCont) (m : Machine).

(** The state a call that is not suppressed leaves behind. *)
Definition started : Machine :=
  mkMachine
    (mkCard (query (card m)) (displayName (card m)) (unit (card m)) true ""
       (coords (card m)) (data (card m)) (dailyForecast (card m))
       (shareMessage (card m)) (lastFetchRef (card m)))
    (coordsGen m)
    (<[nextId m := TFetch (arg_lat a) (arg_lon a) (unit_of u a)
                     (arg_placeLabel a) k]> (tasks m))
    (S (nextId m))
    (log m ++ [ONet (forecast_url (arg_lat a) (arg_lon a) (unit_of u a))]).

Lemma fetchWeatherAt_start_cases :
  fetchWeatherAt_start u a k m = if deduped u a m then m else started.
Proof. unfold fetchWeatherAt_start. by destruct (deduped u a m). Qed.

Lemma fetchWeatherAt_start_fresh :
  deduped u a m = false → fetchWeatherAt_start u a k m = started.
Proof. intros H. by rewrite fetchWeatherAt_start_cases, H. Qed.

Lemma fetchWeatherAt_start_deduped :
  deduped u a m = true → fetchWeatherAt_start u a k m = m.
Proof. intros H. by rewrite fetchWeatherAt_start_cases, H. Qed.

Lemma started_neq : started ≠ m.
Proof. intros H. apply (f_equal nextId) in H. simpl in H. lia. Qed.

(** C1. A call leaves the state as it is, request log and pending set
    included, exactly when the guard holds: the guard suppresses the whole
    call, and nothing else does. *)
Theorem fetch_noop_iff :
  fetchWeatherAt_start u a k m = m ↔ deduped u a m = true.
Proof.
  rewrite fetchWeatherAt_start_cases. destruct (deduped u a m); [done|].
  split; [|done]. intros H. by apply started_neq in H.
Qed.

(** C2. A call whose key differs from the last completed one shows the
    spinner, clears the error, sends one request, for the forecast URL of
    its arguments, and suspends under a fresh identifier with its
    coordinates, unit, label and awaiter; conditions, forecast, shown name,
    coordinates, unit and remembered key do not change. *)
Theorem fetch_start_spec :
  deduped u a m = false →
  loading (card (fetchWeatherAt_start u a k m)) = true ∧
  error (card (fetchWeatherAt_start u a k m)) = "" ∧
  log (fetchWeatherAt_start u a k m) =
    log m ++ [ONet (forecast_url (arg_lat a) (arg_lon a) (unit_of u a))] ∧
  tasks (fetchWeatherAt_start u a k m) =
    <[nextId m := TFetch (arg_lat a) (arg_lon a) (unit_of u a)
                    (arg_placeLabel a) k]> (tasks m) ∧
  tasks m !! nextId (fetchWeatherAt_start u a k m) = tasks m !! S (nextId m) ∧
  (λ c, (data c, dailyForecast c, displayName c, coords c, unit c,
         lastFetchRef c)) (card (fetchWeatherAt_start u a k m)) =
  (λ c, (data c, dailyForecast c, displayName c, coords c, unit c,
         lastFetchRef c)) (card m).
Proof. intros H. by rewrite fetchWeatherAt_start_fresh. Qed.

(** The guard holds when the remembered key is the call's key, up to
    equality of numbers. *)
Lemma deduped_key lat' lon' :
  lastFetchRef (card m) = mkFetchRef (Some lat') (Some lon') (Some (unit_of u a)) →
  key_equiv (lat', lon', unit_of u a) (arg_lat a, arg_lon a, unit_of u a) →
  deduped u a m = true.
Proof. intros Hr Hk. apply same_key_iff. eauto. Qed.

End Transitions.

Section Completion.
Context (env : Env) (lat lon : num) (unitToUse : Unit)
  (placeLabel : option string) (r : HttpResult Json) (m : Machine).

Abbreviation resumed :=
  (fetchWeatherAt_resume env lat lon unitToUse placeLabel r m).

(** The state after the [try] body ran to its end. *)
Definition succeeded (cw : CurrentWeather) (d : option Daily) : Machine :=
  mkMachine
    (mkCard (query (card m))
       (if truthy_opt placeLabel then or_else placeLabel ""
        else displayName (card m))
       (unit (card m)) false (error (card m)) (coords (card m)) (Some cw) d
       (shareMessage (card m))
       (mkFetchRef (Some lat) (Some lon) (Some unitToUse)))
    (coordsGen m) (tasks m) (nextId m)
    (log m ++ if env_onMetaChange env
              then [OMeta (weathercode cw) (is_day cw)] else []).

(** The state after the [catch] and [finally] blocks. *)
Definition failed : Machine :=
  mkMachine
    (mkCard (query (card m)) (displayName (card m)) (unit (card m)) false
       "Failed to fetch weather. Please try again."
       (coords (card m)) (data (card m)) (dailyForecast (card m))
       (shareMessage (card m)) (lastFetchRef (card m)))
    (coordsGen m) (tasks m) (nextId m) (log m ++ [OConsoleError]).

Lemma fetchWeatherAt_resume_cases :
  resumed = match fetch_ok r with
            | Some (cw, d) => succeeded cw d
            | None => failed
            end.
Proof.
  unfold fetchWeatherAt_resume, fetch_ok, succeeded, adopt_label.
  destruct r as [|[] [j|]]; try done.
  destruct (current_weather j) as [cw|]; [|done]. simpl.
  destruct m as [c g ts n l], (env_onMetaChange env),
    placeLabel as [[|]|]; simpl; by rewrite ?app_nil_r.
Qed.

Lemma fetchWeatherAt_resume_ok cw d :
  fetch_ok r = Some (cw, d) → resumed = succeeded cw d.
Proof. intros H. by rewrite fetchWeatherAt_resume_cases, H. Qed.

Lemma fetchWeatherAt_resume_bad : fetch_ok r = None → resumed = failed.
Proof. intros H. by rewrite fetchWeatherAt_resume_cases, H. Qed.

(** C3. On a response with a current-weather block the conditions and the
    forecast are stored, the key of the call is remembered, the spinner
    stops, a truthy label is adopted and a missing or empty one leaves the
    shown name alone, and the parent is told the code and the day flag when
    it listens.  The error cell is not written. *)
Theorem fetch_success cw d :
  fetch_ok r = Some (cw, d) →
  data (card resumed) = Some cw ∧
  dailyForecast (card resumed) = d ∧
  loading (card resumed) = false ∧
  lastFetchRef (card resumed) =
    mkFetchRef (Some lat) (Some lon) (Some unitToUse) ∧
  displayName (card resumed) =
    (if truthy_opt placeLabel then or_else placeLabel ""
     else displayName (card m)) ∧
  error (card resumed) = error (card m) ∧
  log resumed = log m ++ (if env_onMetaChange env
                          then [OMeta (weathercode cw) (is_day cw)] else []).
Proof. intros H. by rewrite (fetchWeatherAt_resume_ok _ _ H). Qed.

(** C4. On every other outcome (rejected fetch, non-2xx status, invalid
    JSON, no current-weather block) the spinner stops and the message
    "Failed to fetch weather. Please try again." is shown, while
    conditions, forecast, shown name and remembered key keep their values:
    stale data stays visible, and the same request can be tried again. *)
Theorem fetch_failure :
  fetch_ok r = None →
  loading (card resumed) = false ∧
  error (card resumed) = "Failed to fetch weather. Please try again." ∧
  data (card resumed) = data (card m) ∧
  dailyForecast (card resumed) = dailyForecast (card m) ∧
  displayName (card resumed) = displayName (card m) ∧
  lastFetchRef (card resumed) = lastFetchRef (card m) ∧
  requests (log resumed) = requests (log m).
Proof.
  intros H. rewrite fetchWeatherAt_resume_bad by done. simpl.
  repeat split. unfold requests. by rewrite omap_app, app_nil_r.
Qed.

(** C5. Once a fetch has completed, a call with the same key, whatever its
    label and whoever awaits it, does nothing at all. *)
Theorem fetch_completed_dedups u a k cw d :
  fetch_ok r = Some (cw, d) →
  key_equiv (arg_lat a, arg_lon a, unit_of u a) (lat, lon, unitToUse) →
  fetchWeatherAt_start u a k resumed = resumed.
Proof.
  intros Hok (Hlat & Hlon & Hu). simpl in *.
  apply fetchWeatherAt_start_deduped. rewrite (fetchWeatherAt_resume_ok _ _ Hok).
  apply same_key_iff. exists lat, lon. rewrite Hu.
  by repeat split; simpl; symmetry.
Qed.

(** A failed fetch leaves the guard as it was. *)
Lemma fetch_failure_guard u a :
  fetch_ok r = None → deduped u a resumed = deduped u a m.
Proof. intros H. by rewrite fetchWeatherAt_resume_bad. Qed.

End Completion.

(** C6. A call that is not suppressed and whose response arrives before
    anything else happens ends with the spinner off, no error shown and the
    new conditions in place, whatever error was shown before. *)
Theorem fetch_round env u a k m r cw d :
  deduped u a m = false → fetch_ok r = Some (cw, d) →
  (λ c, (loading c, error c, data c, dailyForecast c))
    (card (fetchWeatherAt_resume env (arg_lat a) (arg_lon a) (unit_of u a)
             (arg_placeLabel a) r (fetchWeatherAt_start u a k m))) =
  (false, "", Some cw, d).
Proof.
  intros Hd Hok.
  by rewrite (fetchWeatherAt_start_fresh _ _ _ _ Hd),
    (fetchWeatherAt_resume_ok _ _ _ _ _ _ _ _ _ Hok).
Qed.

(** C21. The request of a call asks for what its answer is remembered as:
    a call that is not suppressed sends one request, to the forecast
    service, for the current conditions and the five daily series the card
    reads, and the key remembered when its answer is good is the latitude,
    the longitude and the unit found in that request. *)
Theorem request_matches_key env u a k m r cw d :
  deduped u a m = false → fetch_ok r = Some (cw, d) →
  ∃ url,
    requests (new_calls m (fetchWeatherAt_start u a k m)) = [url] ∧
    url_base url = "https://api.open-meteo.com/v1/forecast" ∧
    url_str "current_weather" url = Some "true" ∧
    url_str "daily" url =
      Some "temperature_2m_max,temperature_2m_min,weathercode,sunrise,sunset" ∧
    url_str "timezone" url = Some "auto" ∧
    lastFetchRef
      (card (fetchWeatherAt_resume env (arg_lat a) (arg_lon a) (unit_of u a)
               (arg_placeLabel a) r (fetchWeatherAt_start u a k m))) =
    mkFetchRef (url_num "latitude" url) (url_num "longitude" url)
      (url_unit url).
Proof.
  intros Hd Hok.
  rewrite (fetchWeatherAt_start_fresh _ _ _ _ Hd),
    (fetchWeatherAt_resume_ok _ _ _ _ _ _ _ _ _ Hok).
  eexists. split.
  { unfold new_calls, started. simpl. by rewrite drop_app_length. }
  repeat split. by destruct (unit_of u a).
Qed.

(** ** Witnesses *)

(** A first call for Chennai in celsius, and a failing response. *)
Definition chennai_args : FetchArgs :=
  mkFetchArgs (latitude chennai) (longitude chennai) (Some celsius)
    (Some "Chennai").

Definition sunny_response : HttpResult Json :=
  JsonOk (forecast_body sunny (Some week)).

Lemma fetch_start_spec_witness :
  loading (card (fetchWeatherAt_start fahrenheit chennai_args KNone
                   initial_machine)) = true.
Proof.
  exact (proj1 (fetch_start_spec fahrenheit chennai_args KNone initial_machine
                  eq_refl)).
Defined.

Lemma fetch_success_witness :
  data (card (fetchWeatherAt_resume browser (latitude chennai)
                (longitude chennai) celsius (Some "Chennai") sunny_response
                initial_machine)) = Some sunny.
Proof.
  exact (proj1 (fetch_success browser (latitude chennai) (longitude chennai)
                  celsius (Some "Chennai") sunny_response initial_machine
                  sunny (Some week) eq_refl)).
Defined.

Lemma fetch_failure_witness :
  loading (card (fetchWeatherAt_resume browser (latitude chennai)
                   (longitude chennai) celsius None StatusNotOk
                   (started celsius chennai_args KNone initial_machine)))
  = false.
Proof.
  exact (proj1 (fetch_failure browser (latitude chennai) (longitude chennai)
                  celsius None StatusNotOk
                  (started celsius chennai_args KNone initial_machine)
                  eq_refl)).
Defined.

Lemma fetch_completed_dedups_witness :
  fetchWeatherAt_start fahrenheit chennai_args KSearch
    (fetchWeatherAt_resume browser (latitude chennai) (longitude chennai)
       celsius None sunny_response initial_machine) =
  fetchWeatherAt_resume browser (latitude chennai) (longitude chennai)
    celsius None sunny_response initial_machine.
Proof.
  apply (fetch_completed_dedups browser (latitude chennai) (longitude chennai)
           celsius None sunny_response initial_machine fahrenheit chennai_args
           KSearch sunny (Some week)); [reflexivity|].
  repeat split; reflexivity.
Defined.

Lemma fetch_round_witness :
  (λ c, (loading c, error c, data c, dailyForecast c))
    (card (fetchWeatherAt_resume browser (latitude chennai) (longitude chennai)
             celsius (Some "Chennai") sunny_response
             (fetchWeatherAt_start celsius chennai_args KNone
                (setError "Could not get your location." initial_machine)))) =
  (false, "", Some sunny, Some week).
Proof.
  exact (fetch_round browser celsius chennai_args KNone
           (setError "Could not get your location." initial_machine)
           sunny_response sunny (Some week) eq_refl eq_refl).
Defined.

Lemma request_matches_key_witness :
  ∃ url,
    requests (new_calls initial_machine
                (fetchWeatherAt_start fahrenheit chennai_args KNone
                   initial_machine)) = [url] ∧
    url_unit url = Some celsius.
Proof.
  destruct (request_matches_key browser fahrenheit chennai_args KNone
              initial_machine sunny_response sunny (Some week)
              eq_refl eq_refl) as (url & Hr & _ & _ & _ & _ & Hk).
  exists url. split; [exact Hr|]. by injection Hk as _ _ <-.
Defined.
