(* ===== verification/Card.v ===== *)
(** * Card: the event handlers and the step function of the card

    Every piece of [WeatherCard] that runs in response to something: the
    two [useEffect] bodies, the geolocation callbacks, [onSearch], the unit
    toggle, [handleShare] and its timer.  An [async] handler is cut at each
    [await], as in [Fetch].  [step] dispatches one event to its handler and
    then commits the render: the effects whose dependency list changed run,
    in the order the component declares them. *)

From Stdlib Require Import Ascii String ZArith QArith.
From stdpp Require Import base tactics option list strings gmap.
From S2P Require Import Prelude JsLib Api Location Session Fetch.

#[local] Open Scope act_scope.

(** ** Events *)

(** What can happen to a mounted card: the user acts, or the platform
    answers a pending continuation, named by its identifier. *)
Inductive Event : Type :=
| EInput (text : string)        (* typing in the search box *)
| EEnter                        (* the Enter key in the search box *)
| EClickSearch                  (* the Search button *)
| EClickUnit                    (* the unit toggle *)
| EClickShare                   (* the Share button *)
| EPosition (id : nat) (lat lon : num)
                                (* geolocation succeeded *)
| EPositionError (id : nat)     (* geolocation was denied or timed out *)
| EResponse (id : nat) (r : HttpResult Json)
                                (* a network call settled *)
| EClipboard (id : nat) (ok : bool)
                                (* the clipboard write settled *)
| ETimeout (id : nat).          (* a timer fired *)

Section Card.
Context (env : Env).

(** ** Effects *)

(** The first effect (lines 162-179): ask for the position.  Its
    dependencies are [fetchWeatherAt], [reverseLabel] and [unit]; the first
    changes with [unit] and the second never. *)
Definition effect_geolocate : Action Machine :=
  λ m,
    if env_geolocation env
    then (emit OGeolocate ;; spawn (TGeolocation (unit (card m)))) m
    else m.

(** The second effect (lines 181-185): fetch for the known coordinates.
    Its dependencies are [unit], [coords] and [fetchWeatherAt]. *)
Definition effect_refetch : Action Machine :=
  λ m,
    match coords (card m) with
    | Some c =>
        fetchWeatherAt_start (unit (card m))
          (mkFetchArgs (lat c) (lon c) (Some (unit (card m))) None) KNone m
    | None => m
    end.

(** The effects that run after a render, given the state [before] the
    event that caused it. *)
Definition commit (before : Machine) : Action Machine :=
  λ m,
    let unit_changed := bool_decide (unit (card before) ≠ unit (card m)) in
    let coords_changed := bool_decide (coordsGen before ≠ coordsGen m) in
    (when unit_changed effect_geolocate ;;
     when (unit_changed || coords_changed) effect_refetch) m.

(** Mounting: the first render, after which every effect runs. *)
Definition mount : Machine :=
  (effect_geolocate ;; effect_refetch) initial_machine.

(** ** The geolocation callbacks *)

(** The success callback up to [await reverseLabel(lat, lon)]. *)
Definition onPosition_start (u : Unit) (lat lon : num) : Action Machine :=
  setCoords (mkCoords lat lon) ;;
  emit (ONet (reverseLabel_url lat lon)) ;;
  spawn (TReverse lat lon u).

(** The success callback after it. *)
Definition onPosition_resume (u : Unit) (lat lon : num)
    (r : HttpResult Json) : Action Machine :=
  let label := or_else (reverseLabel_result r) "Live location" in
  setDisplayName label ;;
  fetchWeatherAt_start u (mkFetchArgs lat lon (Some u) (Some label)) KNone.

(** The error callback. *)
Definition onPositionError : Action Machine :=
  setError "Could not get your location.".

(** ** Search *)

(** [onSearch] up to [await resolveCity(query.trim())]. *)
Definition onSearch_start : Action Machine :=
  λ m,
    let name := trim (query (card m)) in
    if negb (truthy name) then m
    else
      (setLoading true ;;
       setError "" ;;
       emit (ONet (resolveCity_url name)) ;;
       spawn (TResolve name (unit (card m)))) m.

(** The message [onSearch]'s [catch] block shows for an exception. *)
Definition search_error (e : Exn) : string :=
  match e with
  | Error msg =>
      if decide (msg = "City not found") then "City not found. Try another name."
      else "Could not find that place. Please try again."
  | Rejection => "Could not find that place. Please try again."
  end.

(** [onSearch]'s [finally] block. *)
Definition onSearch_finally : Action Machine := setLoading false.

(** [onSearch] after [await resolveCity]: on a place, up to the end of
    [await fetchWeatherAt(...)] if that call returns at once, and up to its
    suspension otherwise; on an exception, the [catch] and [finally]
    blocks. *)
Definition onSearch_resume (u : Unit) (r : HttpResult Json) : Action Machine :=
  match resolveCity_result r with
  | inr p =>
      let a := mkFetchArgs (place_lat p) (place_lon p) (Some u)
                 (Some (place_label p)) in
      setCoords (mkCoords (place_lat p) (place_lon p)) ;;
      setDisplayName (place_label p) ;;
      (λ m, if deduped u a m then onSearch_finally m
            else fetchWeatherAt_start u a KSearch m)
  | inl e =>
      emit OConsoleError ;;
      setError (search_error e) ;;
      onSearch_finally
  end.

(** What runs when the promise of [fetchWeatherAt] settles. *)
Definition run_cont (k : FetchCont) : Action Machine :=
  match k with
  | KNone => skip
  | KSearch => onSearch_finally
  end.

(** ** Unit toggle and sharing *)

Definition toggle_unit (u : Unit) : Unit :=
  match u with
  | celsius => fahrenheit
  | fahrenheit => celsius
  end.

(** The link [handleShare] builds for a shown name. *)
Definition share_url (shown : string) : string :=
  env_origin env +:+ "/weather/" +:+
  encodeURIComponent (split_head "," shown).

(** [handleShare] up to [await navigator.clipboard.writeText(shareUrl)]. *)
Definition handleShare : Action Machine :=
  λ m,
    if negb (truthy (displayName (card m))) then m
    else
      (emit (OClipboardWrite (share_url (displayName (card m)))) ;;
       spawn (TClipboard (share_url (displayName (card m))))) m.

(** [handleShare] after it: the [try] tail or the [catch] block. *)
Definition handleShare_resume (ok : bool) : Action Machine :=
  setShareMessage
    (if ok then "✅ Weather link copied!" else "❌ Failed to copy link") ;;
  emit (OSetTimeout 3000) ;;
  spawn TTimer.

(** The timer callback. *)
Definition onTimeout : Action Machine := setShareMessage "".

(** ** The step function *)

(** The handler an event runs, if the event is enabled: a disabled button
    does not click, and the platform only answers what is pending. *)
Definition handle (e : Event) (m : Machine) : option Machine :=
  match e with
  | EInput text => Some (setQuery text m)
  | EEnter => Some (onSearch_start m)
  | EClickSearch =>
      if loading (card m) then None else Some (onSearch_start m)
  | EClickUnit => Some (setUnit toggle_unit m)
  | EClickShare => Some (handleShare m)
  | EPosition id lat lon =>
      match tasks m !! id with
      | Some (TGeolocation u) =>
          Some ((retire id ;; onPosition_start u lat lon) m)
      | _ => None
      end
  | EPositionError id =>
      match tasks m !! id with
      | Some (TGeolocation u) => Some ((retire id ;; onPositionError) m)
      | _ => None
      end
  | EResponse id r =>
      match tasks m !! id with
      | Some (TReverse lat lon u) =>
          Some ((retire id ;; onPosition_resume u lat lon r) m)
      | Some (TResolve name u) =>
          Some ((retire id ;; onSearch_resume u r) m)
      | Some (TFetch lat lon u label k) =>
          Some ((retire id ;;
                 fetchWeatherAt_resume env lat lon u label r ;;
                 run_cont k) m)
      | _ => None
      end
  | EClipboard id ok =>
      match tasks m !! id with
      | Some (TClipboard _) => Some ((retire id ;; handleShare_resume ok) m)
      | _ => None
      end
  | ETimeout id =>
      match tasks m !! id with
      | Some TTimer => Some ((retire id ;; onTimeout) m)
      | _ => None
      end
  end.

(** One event: its handler, then the commit of the render. *)
Definition step (e : Event) (m : Machine) : option Machine :=
  m' ← handle e m; Some (commit m m').

(** The states a mounted card can be in. *)
Definition reachable_card : Machine → Prop :=
  reachable (λ m, m = mount) step.

(** The run of a list of events from the mounted card. *)
Definition run_card (es : list Event) : option Machine := run step es mount.

End Card.
