(* ===== verification/Invariants.v ===== *)
(** * Invariants: what holds in every reachable state of the card

    Three facts, proved together by induction over [Card.step]:
    - identifiers are fresh ([fresh_ids]): a suspended continuation is
      never overwritten by a later one;
    - the remembered key vouches for data ([key_ok]): [lastFetchRef] is set
      only by a completed fetch, which has stored its conditions;
    - a spinner has a cause ([spinner_ok]): while [loading] is true some
      search or fetch is still pending.  [Progress] shows that its answer
      turns the spinner off. *)

From Stdlib Require Import Ascii String ZArith QArith.
From stdpp Require Import base tactics option list strings gmap.
From S2P Require Import Prelude JsLib Api Location Session Samples Fetch Card.

#[local] Open Scope act_scope.

(** ** Definitions *)

(** The continuations that turn the spinner off when they run. *)
Definition busy (t : Task) : bool :=
  match t with
  | TFetch _ _ _ _ _ | TResolve _ _ => true
  | _ => false
  end.

Definition spinner_ok (m : Machine) : Prop :=
  loading (card m) = true → ∃ id t, tasks m !! id = Some t ∧ busy t = true.

Definition key_ok (m : Machine) : Prop :=
  is_Some (ref_lat (lastFetchRef (card m))) → is_Some (data (card m)).

(** What survives the retirement of a busy continuation. *)
Definition pre (m : Machine) : Prop := fresh_ids m ∧ key_ok m.

Definition wf (m : Machine) : Prop := pre m ∧ spinner_ok m.

(** The actions that touch neither [loading], [data], [lastFetchRef] nor
    the pending set. *)
Inductive neutral : Action Machine → Prop :=
| neutral_skip : neutral skip
| neutral_seq a b : neutral a → neutral b → neutral (seq a b)
| neutral_when c a : neutral a → neutral (when c a)
| neutral_setQuery v : neutral (setQuery v)
| neutral_setDisplayName v : neutral (setDisplayName v)
| neutral_setUnit f : neutral (setUnit f)
| neutral_setError v : neutral (setError v)
| neutral_setCoords v : neutral (setCoords v)
| neutral_setDailyForecast v : neutral (setDailyForecast v)
| neutral_setShareMessage v : neutral (setShareMessage v)
| neutral_emit o : neutral (emit o).

#[export] Hint Constructors neutral : weather.

(** ** Primitive actions *)

Lemma neutral_same a m :
  neutral a →
  loading (card (a m)) = loading (card m) ∧
  data (card (a m)) = data (card m) ∧
  lastFetchRef (card (a m)) = lastFetchRef (card m) ∧
  tasks (a m) = tasks m ∧ nextId (a m) = nextId m.
Proof.
  intros Ha. revert m. induction Ha; intros m; try done.
  - unfold seq. destruct (IHHa1 m) as (<- & <- & <- & <- & <-). apply IHHa2.
  - destruct c; [apply IHHa|done].
Qed.

Lemma neutral_pre a : neutral a → triple pre a pre.
Proof.
  intros Ha m [Hf Hk]. destruct (neutral_same a m Ha) as (Hl & Hd & Hr & Ht & Hn).
  split.
  - intros id t. rewrite Ht, Hn. apply Hf.
  - unfold key_ok. by rewrite Hd, Hr.
Qed.

Lemma neutral_wf a : neutral a → triple wf a wf.
Proof.
  intros Ha m [Hp Hs]. split; [by apply neutral_pre|].
  destruct (neutral_same a m Ha) as (Hl & Hd & Hr & Ht & Hn).
  unfold spinner_ok. by rewrite Hl, Ht.
Qed.

Lemma spawn_pre t : triple pre (spawn t) pre.
Proof. intros m [Hf Hk]. split; [by apply fresh_ids_spawn|done]. Qed.

Lemma spawn_wf t : triple wf (spawn t) wf.
Proof.
  intros m [Hp Hs]. split; [by apply spawn_pre|].
  intros Hl. destruct (Hs Hl) as (id & t' & Ht & Hb).
  exists id, t'. split; [|done]. apply spawn_preserves; [apply Hp|done].
Qed.

(** Spawning a busy continuation justifies a spinner. *)
Lemma spawn_busy t m : busy t = true → pre m → wf (spawn t m).
Proof.
  intros Hb Hp. split; [by apply spawn_pre|].
  intros _. exists (nextId m), t. split; [|done]. apply lookup_insert_eq.
Qed.

Lemma retire_pre id : triple pre (retire id) pre.
Proof. intros m [Hf Hk]. split; [by apply fresh_ids_retire|done]. Qed.

(** Retiring an idle continuation leaves the cause of the spinner. *)
Lemma retire_wf id t m :
  tasks m !! id = Some t → busy t = false → wf m → wf (retire id m).
Proof.
  intros Ht Hb [Hp Hs]. split; [by apply retire_pre|].
  intros Hl. destruct (Hs Hl) as (id' & t' & Ht' & Hb').
  exists id', t'. split; [|done]. apply lookup_delete_Some. split; [|done].
  intros ->. congruence.
Qed.

Lemma setLoading_false_wf : triple pre (setLoading false) wf.
Proof. intros m Hp. split; [done|]. by intros [=]. Qed.

Lemma setLoading_pre v : triple pre (setLoading v) pre.
Proof. by intros m Hp. Qed.

Lemma wf_pre m : wf m → pre m.
Proof. by intros [? _]. Qed.

#[export] Hint Resolve wf_pre : weather.

(** ** The fetch coordinator *)

Lemma started_wf u a k m : pre m → wf (started u a k m).
Proof.
  intros [Hf Hk]. split; [split|].
  - apply (fresh_ids_spawn _ m Hf).
  - done.
  - intros _. eexists _, _. split; [apply lookup_insert_eq|done].
Qed.

Lemma fetchWeatherAt_start_wf u a k : triple wf (fetchWeatherAt_start u a k) wf.
Proof.
  intros m Hm. rewrite fetchWeatherAt_start_cases.
  destruct (deduped u a m); [done|]. apply started_wf, Hm.
Qed.

Lemma fetchWeatherAt_resume_wf env lat lon u label r :
  triple pre (fetchWeatherAt_resume env lat lon u label r) wf.
Proof.
  intros m [Hf Hk]. rewrite fetchWeatherAt_resume_cases.
  destruct (fetch_ok r) as [[cw d]|]; (split; [split|]); try done.
  by intros _.
Qed.

(** ** The handlers *)

Section Handlers.
Context (env : Env).

Lemma effect_geolocate_wf : triple wf (effect_geolocate env) wf.
Proof.
  intros m Hm. unfold effect_geolocate. destruct (env_geolocation env); [|done].
  by apply spawn_wf, neutral_wf; auto with weather.
Qed.

Lemma effect_refetch_wf : triple wf effect_refetch wf.
Proof.
  intros m Hm. unfold effect_refetch. destruct (coords (card m)); [|done].
  by apply fetchWeatherAt_start_wf.
Qed.

Lemma commit_wf before : triple wf (commit env before) wf.
Proof.
  unfold commit. intros m Hm.
  refine (triple_seq wf wf wf _ _ _ _ m Hm); apply triple_when;
    auto using effect_geolocate_wf, effect_refetch_wf.
Qed.

Lemma mount_wf : wf (mount env).
Proof.
  apply effect_refetch_wf, effect_geolocate_wf.
  split; [split|]; [apply fresh_ids_initial|by intros [? [=]]|by intros [=]].
Qed.

Lemma onSearch_start_wf : triple wf onSearch_start wf.
Proof.
  intros m Hm. unfold onSearch_start. case_match; [done|].
  apply spawn_busy; [done|].
  apply (neutral_pre (seq (setError "") (emit _))); [auto with weather|].
  by apply setLoading_pre, wf_pre.
Qed.

Lemma onSearch_resume_wf u r : triple pre (onSearch_resume u r) wf.
Proof.
  intros m Hm. unfold onSearch_resume.
  destruct (resolveCity_result r) as [e|p]; unfold seq.
  - apply setLoading_false_wf.
    by apply (neutral_pre (seq (emit _) (setError _))); auto with weather.
  - set (m1 := setDisplayName _ _).
    assert (pre m1) as H1.
    { by apply (neutral_pre (seq (setCoords _) (setDisplayName _)));
        auto with weather. }
    case_match; [by apply setLoading_false_wf|].
    rewrite fetchWeatherAt_start_fresh by done. by apply started_wf.
Qed.

Lemma onPosition_resume_wf u lat lon r : triple wf (onPosition_resume u lat lon r) wf.
Proof.
  intros m Hm. unfold onPosition_resume, seq.
  by apply fetchWeatherAt_start_wf, (neutral_wf (setDisplayName _));
    auto with weather.
Qed.

Lemma run_cont_wf k : triple wf (run_cont k) wf.
Proof. destruct k; [apply triple_skip|]. intros m Hm. by apply setLoading_false_wf, wf_pre. Qed.

(** A handler keeps the state well formed. *)
Lemma handle_wf e m m' : wf m → handle env e m = Some m' → wf m'.
Proof.
  intros Hm He. destruct e; simpl in He; repeat case_match; simplify_eq;
    unfold seq.
  - by apply (neutral_wf (setQuery _)); auto with weather.
  - by apply onSearch_start_wf.
  - by apply onSearch_start_wf.
  - by apply (neutral_wf (setUnit _)); auto with weather.
  - unfold handleShare. case_match; [done|].
    by apply spawn_wf, (neutral_wf (emit _)); auto with weather.
  - apply spawn_wf, (neutral_wf (seq (setCoords _) (emit _)));
      [auto with weather|]. by eapply retire_wf.
  - apply (neutral_wf onPositionError); [constructor|]. by eapply retire_wf.
  - apply onPosition_resume_wf. by eapply retire_wf.
  - apply onSearch_resume_wf, retire_pre, wf_pre, Hm.
  - apply run_cont_wf, fetchWeatherAt_resume_wf, retire_pre, wf_pre, Hm.
  - apply spawn_wf, (neutral_wf (seq (setShareMessage _) (emit _)));
      [auto with weather|]. by eapply retire_wf.
  - apply (neutral_wf onTimeout); [constructor|]. by eapply retire_wf.
Qed.

Lemma step_wf e m m' : wf m → step env e m = Some m' → wf m'.
Proof.
  unfold step. intros Hm He. destruct (handle env e m) as [m1|] eqn:E; [|done].
  simpl in He. simplify_eq. eapply commit_wf, handle_wf; eauto.
Qed.

Lemma wf_invariant : invariant (λ m, m = mount env) (step env) wf.
Proof.
  apply invariant_ind.
  - intros m ->. apply mount_wf.
  - intros m e m' _ Hm He. by eapply step_wf.
Qed.

(** The state after a run of events is reachable. *)
Lemma run_card_reachable es m :
  run_card env es = Some m → reachable_card env m.
Proof. apply reachable_run. by apply reach_init. Qed.

(** C7. Every state the card can reach from its mount, by any interleaving
    of user events and platform answers, is well formed: identifiers of
    suspended continuations are fresh, a remembered key comes with
    conditions, and a spinner has a pending search or fetch behind it. *)
Theorem reachable_wf m : reachable_card env m → wf m.
Proof. apply wf_invariant. Qed.

(** C20. A suppressed fetch never leaves the card empty: when the guard
    holds, conditions are on display. *)
Theorem deduped_has_data u a m :
  reachable_card env m → deduped u a m = true → is_Some (data (card m)).
Proof.
  intros [[_ Hk] _]%wf_invariant Hd. apply Hk.
  apply same_key_iff in Hd as (lat' & lon' & -> & _). by eexists.
Qed.

End Handlers.

(** ** Witnesses *)

(** The card after a search for Chennai was answered and one of the two
    forecast requests is still pending, and after both were answered. *)
Definition chennai_search : list Event :=
  [EPositionError 0; EInput "Chennai"; EEnter;
   EResponse 1 (JsonOk (geo_body [Some chennai]));
   EResponse 2 (JsonOk (forecast_body sunny (Some week)))].

Definition chennai_shown : list Event :=
  chennai_search ++ [EResponse 3 (JsonOk (forecast_body sunny (Some week)))].

Definition after (es : list Event) : Machine :=
  default initial_machine (run_card browser es).

Lemma reachable_after es :
  is_Some (run_card browser es) → reachable_card browser (after es).
Proof. intros [m H]. apply run_card_reachable with es. unfold after. by rewrite H. Qed.

Lemma reachable_wf_witness : wf (after chennai_search).
Proof.
  apply (reachable_wf browser), reachable_after. vm_compute. by eexists.
Defined.

Lemma deduped_has_data_witness : is_Some (data (card (after chennai_shown))).
Proof.
  apply (deduped_has_data browser celsius
           (mkFetchArgs (latitude chennai) (longitude chennai) None None)).
  - apply reachable_after. vm_compute. by eexists.
  - vm_compute. reflexivity.
Defined.
