(* ===== verification/Steps.v ===== *)
(** * Steps: what a single event does to the card

    The behaviour of [Card.step] on each kind of event, stated on the
    cells, the pending set and the log of platform calls.  These are the
    testable properties of the written specification, as the code has
    them, and the two places where one event does more than the
    specification says (a search fetches twice; a unit toggle asks for the
    position again). *)

From Stdlib Require Import Ascii String ZArith QArith.
From stdpp Require Import base tactics option list strings gmap.
From S2P Require Import Prelude JsLib Api Session Samples Location Fetch.
From S2P Require Import Card Invariants.

#[local] Open Scope act_scope.

(** Compute the calls a step added: the log after it is the log before it
    followed by them. *)
Ltac calls :=
  unfold new_calls, started; simpl; rewrite <- ?app_assoc;
  rewrite ?drop_app_length, ?drop_all; simpl; try done.

Section Steps.
Context (env : Env).

(** ** The commit *)

(** A render with the same unit and the same coordinates object runs no
    effect. *)
Lemma commit_unchanged before m :
  unit (card before) = unit (card m) → coordsGen before = coordsGen m →
  commit env before m = m.
Proof.
  intros Hu Hg. unfold commit.
  rewrite (bool_decide_eq_false_2 (_ ≠ unit _)) by (by intros []).
  by rewrite (bool_decide_eq_false_2 (_ ≠ coordsGen _)) by (by intros []).
Qed.

(** A render with a new coordinates object runs the second effect. *)
Lemma commit_coords before m :
  unit (card before) = unit (card m) → coordsGen before ≠ coordsGen m →
  commit env before m = effect_refetch m.
Proof.
  intros Hu Hg. unfold commit.
  rewrite (bool_decide_eq_false_2 (_ ≠ unit _)) by (by intros []).
  by rewrite (bool_decide_eq_true_2 (_ ≠ coordsGen _)).
Qed.

(** A render with a new unit runs both effects, in order. *)
Lemma commit_unit before m :
  unit (card before) ≠ unit (card m) →
  commit env before m = effect_refetch (effect_geolocate env m).
Proof. intros Hu. unfold commit. by rewrite (bool_decide_eq_true_2 (_ ≠ unit _)). Qed.

(** The second effect, when its key is not the remembered one. *)
Lemma effect_refetch_started m c :
  coords (card m) = Some c →
  same_key (lastFetchRef (card m)) (lat c) (lon c) (unit (card m)) = false →
  effect_refetch m =
  started (unit (card m))
    (mkFetchArgs (lat c) (lon c) (Some (unit (card m))) None) KNone m.
Proof.
  intros Hc Hk. unfold effect_refetch. by rewrite Hc, fetchWeatherAt_start_fresh.
Qed.

Lemma effect_refetch_no_coords m : coords (card m) = None → effect_refetch m = m.
Proof. intros Hc. unfold effect_refetch. by rewrite Hc. Qed.

(** The step that answers a pending fetch: the rest of [fetchWeatherAt],
    then what awaited it; no effect runs. *)
Lemma fetch_answer_step m id lat lon u label k r :
  tasks m !! id = Some (TFetch lat lon u label k) →
  step env (EResponse id r) m =
  Some (run_cont k (fetchWeatherAt_resume env lat lon u label r (retire id m))).
Proof.
  intros Ht. unfold step, handle. rewrite Ht. simpl. f_equal. unfold seq.
  rewrite fetchWeatherAt_resume_cases.
  destruct (fetch_ok r) as [[??]|], k; by rewrite commit_unchanged.
Qed.

(** ** Search *)

(** C12. Pressing Enter on a blank query does nothing: no state change, no
    request, no render effect; and a query with any other content does
    change the state. *)
Theorem search_blank_iff m :
  step env EEnter m = Some m ↔ blank (query (card m)) = true.
Proof.
  unfold step, handle, onSearch_start. rewrite <- trim_empty_iff.
  destruct (trim (query (card m))) as [|c s] eqn:E; simpl.
  - by rewrite commit_unchanged.
  - split; [|done]. intros [= H]. apply (f_equal nextId) in H.
    rewrite commit_unchanged in H by done. simpl in H. lia.
Qed.

(** C13. A search with content shows the spinner, clears the error and
    sends one request, to the forward-geocoding service, for one result in
    English.  The [name] parameter of that request holds only unreserved
    bytes and percent escapes, so the text the user typed cannot add or end
    a query parameter, and it decodes to the trimmed text. *)
Theorem search_request m :
  blank (query (card m)) = false →
  ∃ m', step env EEnter m = Some m' ∧
    loading (card m') = true ∧ error (card m') = "" ∧
    new_calls m m' = [ONet (resolveCity_url (trim (query (card m))))] ∧
    tasks m' = <[nextId m := TResolve (trim (query (card m))) (unit (card m))]>
                 (tasks m) ∧
    ∃ url s, requests (new_calls m m') = [url] ∧
      url_base url = "https://geocoding-api.open-meteo.com/v1/search" ∧
      url_str "count" url = Some "1" ∧ url_str "language" url = Some "en" ∧
      url_str "name" url = Some s ∧
      all_chars url_safe s = true ∧
      decodeURIComponent s = Some (trim (query (card m))).
Proof.
  intros Hb. unfold step, handle, onSearch_start.
  destruct (trim (query (card m))) as [|c s] eqn:E.
  { apply trim_empty_iff in E. congruence. }
  eexists. split; [simpl; by rewrite commit_unchanged|]. simpl.
  repeat split; [calls|]. eexists _, _. split; [calls|].
  repeat split; [apply encodeURIComponent_safe|apply decode_encode].
Qed.

(** C14. When the geocoding service answers with no result, the search
    ends with the message "City not found. Try another name.", the spinner
    off, no forecast request, and conditions, forecast, shown name and
    coordinates as they were. *)
Theorem city_not_found m id name u j :
  tasks m !! id = Some (TResolve name u) →
  results j = None ∨ results j = Some [] →
  ∃ m', step env (EResponse id (JsonOk j)) m = Some m' ∧
    error (card m') = "City not found. Try another name." ∧
    loading (card m') = false ∧
    data (card m') = data (card m) ∧
    dailyForecast (card m') = dailyForecast (card m) ∧
    displayName (card m') = displayName (card m) ∧
    coords (card m') = coords (card m) ∧
    requests (new_calls m m') = [].
Proof.
  intros Ht Hj. unfold step, handle. rewrite Ht. simpl.
  assert (resolveCity_result (JsonOk j) = inl (Error "City not found")) as Hr.
  { by apply resolveCity_empty. }
  unfold onSearch_resume, seq. rewrite Hr.
  eexists. split; [by rewrite commit_unchanged|]. simpl.
  repeat split. calls.
Qed.

(** Any other failure of the lookup ends with the generic message. *)
Lemma search_error_generic e :
  e ≠ Error "City not found" →
  search_error e = "Could not find that place. Please try again.".
Proof. destruct e as [msg|]; simpl; [|done]. case_decide; congruence. Qed.

(** The step that answers a search with a place whose key is not the
    remembered one: [onSearch] starts a fetch, and so does the effect on
    the new coordinates. *)
Lemma search_found_step m id name r p :
  tasks m !! id = Some (TResolve name (unit (card m))) →
  resolveCity_result r = inr p →
  same_key (lastFetchRef (card m)) (place_lat p) (place_lon p)
    (unit (card m)) = false →
  step env (EResponse id r) m =
  Some (started (unit (card m))
          (mkFetchArgs (place_lat p) (place_lon p) (Some (unit (card m))) None)
          KNone
          (started (unit (card m))
             (mkFetchArgs (place_lat p) (place_lon p) (Some (unit (card m)))
                (Some (place_label p)))
             KSearch
             (setDisplayName (place_label p)
                (setCoords (mkCoords (place_lat p) (place_lon p))
                   (retire id m))))).
Proof.
  intros Ht Hr Hk. unfold step, handle. rewrite Ht. simpl.
  unfold onSearch_resume, seq. rewrite Hr. unfold deduped, unit_of. simpl.
  rewrite Hk, fetchWeatherAt_start_fresh by done.
  rewrite commit_coords by (simpl; lia || done).
  by erewrite effect_refetch_started by (simpl; done).
Qed.

(** C11. A successful search for a key that is not the remembered one
    sends the same forecast request twice: once from [onSearch] and once
    from the effect that the new [coords] object triggers, because the key
    is remembered only when a fetch completes. *)
Theorem search_fetches_twice m id name r p :
  tasks m !! id = Some (TResolve name (unit (card m))) →
  resolveCity_result r = inr p →
  same_key (lastFetchRef (card m)) (place_lat p) (place_lon p)
    (unit (card m)) = false →
  ∃ m', step env (EResponse id r) m = Some m' ∧
    requests (new_calls m m') =
      [forecast_url (place_lat p) (place_lon p) (unit (card m));
       forecast_url (place_lat p) (place_lon p) (unit (card m))] ∧
    displayName (card m') = place_label p ∧
    coords (card m') = Some (mkCoords (place_lat p) (place_lon p)).
Proof.
  intros Ht Hr Hk. rewrite (search_found_step _ _ _ _ _ Ht Hr Hk).
  eexists. split; [reflexivity|]. repeat split. calls.
Qed.

(** ** Geolocation *)

(** The step that reports a denied position: the error callback, and no
    effect. *)
Lemma position_error_step m id u :
  tasks m !! id = Some (TGeolocation u) →
  step env (EPositionError id) m = Some (onPositionError (retire id m)).
Proof.
  intros Ht. unfold step, handle. rewrite Ht. simpl.
  by rewrite commit_unchanged.
Qed.

(** C18. When the position is denied or times out, the message "Could not
    get your location." is shown, the shown name stays as it was, and no
    request is sent. *)
Theorem position_denied m id u :
  tasks m !! id = Some (TGeolocation u) →
  ∃ m', step env (EPositionError id) m = Some m' ∧
    error (card m') = "Could not get your location." ∧
    displayName (card m') = displayName (card m) ∧
    data (card m') = data (card m) ∧
    loading (card m') = loading (card m) ∧
    new_calls m m' = [] ∧
    tasks m' = delete id (tasks m).
Proof.
  intros Ht. unfold step, handle. rewrite Ht. simpl.
  eexists. split; [by rewrite commit_unchanged|]. simpl.
  repeat split. calls.
Qed.

(** C17. When the position arrives the coordinates are replaced by it,
    whatever was searched before, and two requests go out in the same step:
    the reverse lookup for that latitude and longitude, for one result in
    English, and, from the effect on the new coordinates, the forecast for
    them in the current unit, before the label is known. *)
Theorem position_found m id u lat lon :
  tasks m !! id = Some (TGeolocation u) →
  same_key (lastFetchRef (card m)) lat lon (unit (card m)) = false →
  ∃ m', step env (EPosition id lat lon) m = Some m' ∧
    coords (card m') = Some (mkCoords lat lon) ∧
    displayName (card m') = displayName (card m) ∧
    loading (card m') = true ∧
    requests (new_calls m m') =
      [mkUrl "https://geocoding-api.open-meteo.com/v1/reverse"
         [("latitude", QNum lat); ("longitude", QNum lon);
          ("language", QStr "en"); ("count", QStr "1")];
       forecast_url lat lon (unit (card m))] ∧
    tasks m' =
      <[S (nextId m) := TFetch lat lon (unit (card m)) None KNone]>
        (<[nextId m := TReverse lat lon u]> (delete id (tasks m))).
Proof.
  intros Ht Hk. unfold step, handle. rewrite Ht. simpl.
  eexists. split; [reflexivity|].
  rewrite commit_coords by (simpl; lia || done).
  erewrite effect_refetch_started by (simpl; done).
  repeat split. calls.
Qed.

(** C19. A reverse lookup that fails in any way is absorbed: the shown
    name becomes "Live location", the error cell is not written by the
    lookup, and the forecast fetch for the position goes ahead. *)
Theorem reverse_failure_absorbed m id lat lon u r :
  tasks m !! id = Some (TReverse lat lon u) →
  reverseLabel_result r = None →
  step env (EResponse id r) m =
  Some (fetchWeatherAt_start u
          (mkFetchArgs lat lon (Some u) (Some "Live location")) KNone
          (setDisplayName "Live location" (retire id m))).
Proof.
  intros Ht Hr. unfold step, handle. rewrite Ht. simpl.
  unfold onPosition_resume, seq. rewrite Hr. simpl.
  rewrite commit_unchanged; [done| |];
    rewrite fetchWeatherAt_start_cases; by case_match.
Qed.

(** ** Unit toggle *)

(** C16. Toggling the unit while no coordinates are known sends no
    request; the only platform call is a new position request, made
    because the first effect depends on the unit. *)
Theorem toggle_without_coords m :
  coords (card m) = None →
  ∃ m', step env EClickUnit m = Some m' ∧
    unit (card m') = toggle_unit (unit (card m)) ∧
    requests (new_calls m m') = [] ∧
    new_calls m m' = (if env_geolocation env then [OGeolocate] else []) ∧
    loading (card m') = loading (card m).
Proof.
  intros Hc. unfold step, handle. simpl. eexists. split; [done|].
  rewrite commit_unit by (simpl; by destruct (unit (card m))).
  unfold effect_geolocate, seq.
  destruct (env_geolocation env); rewrite effect_refetch_no_coords by done;
    repeat split; calls.
Qed.

(** C15. Toggling the unit for coordinates whose forecast was fetched in
    the old unit sends exactly one forecast request, for the same
    coordinates and the new unit, with no label, so the shown name stays;
    it also asks for the position again. *)
Theorem toggle_refetches m c :
  coords (card m) = Some c →
  ref_unit (lastFetchRef (card m)) = Some (unit (card m)) →
  ∃ m', step env EClickUnit m = Some m' ∧
    requests (new_calls m m') =
      [forecast_url (lat c) (lon c) (toggle_unit (unit (card m)))] ∧
    displayName (card m') = displayName (card m) ∧
    loading (card m') = true ∧
    (env_geolocation env = true → OGeolocate ∈ new_calls m m').
Proof.
  intros Hc Hu. unfold step, handle. simpl. eexists. split; [done|].
  rewrite commit_unit by (simpl; by destruct (unit (card m))).
  assert (same_key (lastFetchRef (card m)) (lat c) (lon c)
            (toggle_unit (unit (card m))) = false) as Hk.
  { unfold same_key. rewrite Hu.
    rewrite (bool_decide_eq_false_2 (Some _ = _)), andb_false_r; [done|].
    by destruct (unit (card m)). }
  unfold effect_geolocate, seq.
  destruct (env_geolocation env);
    erewrite effect_refetch_started by (simpl; done);
    repeat split; calls. intros _. by left.
Qed.

End Steps.

(** ** Witnesses *)

(** The card with "Chennai" typed, and with that search under way. *)
Definition typed : Machine := after [EPositionError 0; EInput "Chennai"].

Definition searching : Machine :=
  after [EPositionError 0; EInput "Chennai"; EEnter].

Definition chennai_place : Place :=
  mkPlace (latitude chennai) (longitude chennai)
    (formatLocationLabel (Some chennai)).

(** The card after a position arrived and its reverse lookup is pending. *)
Definition located : Machine :=
  after [EPosition 0 (latitude london) (longitude london)].

Lemma search_request_witness :
  ∃ m', step browser EEnter typed = Some m' ∧ loading (card m') = true.
Proof.
  destruct (search_request browser typed eq_refl) as (m' & Hs & Hl & _).
  exists m'. split; [exact Hs|exact Hl].
Defined.

Lemma city_not_found_witness :
  ∃ m', step browser (EResponse 1 (JsonOk (geo_body []))) searching = Some m' ∧
    error (card m') = "City not found. Try another name.".
Proof.
  destruct (city_not_found browser searching 1 "Chennai" celsius (geo_body [])
              eq_refl (or_intror eq_refl)) as (m' & Hs & He & _).
  exists m'. split; [exact Hs|exact He].
Defined.

Lemma search_fetches_twice_witness :
  ∃ m', step browser (EResponse 1 (JsonOk (geo_body [Some chennai]))) searching
        = Some m' ∧
    requests (new_calls searching m') =
      [forecast_url (latitude chennai) (longitude chennai) celsius;
       forecast_url (latitude chennai) (longitude chennai) celsius].
Proof.
  destruct (search_fetches_twice browser searching 1 "Chennai"
              (JsonOk (geo_body [Some chennai])) chennai_place
              eq_refl eq_refl eq_refl) as (m' & Hs & Hr & _).
  exists m'. split; [exact Hs|exact Hr].
Defined.

Lemma position_denied_witness :
  ∃ m', step browser (EPositionError 0) (mount browser) = Some m' ∧
    error (card m') = "Could not get your location.".
Proof.
  destruct (position_denied browser (mount browser) 0 celsius eq_refl)
    as (m' & Hs & He & _).
  exists m'. split; [exact Hs|exact He].
Defined.

Lemma position_found_witness :
  ∃ m', step browser (EPosition 0 (latitude london) (longitude london))
          (mount browser) = Some m' ∧
    coords (card m') = Some (mkCoords (latitude london) (longitude london)).
Proof.
  destruct (position_found browser (mount browser) 0 celsius
              (latitude london) (longitude london) eq_refl eq_refl)
    as (m' & Hs & Hc & _).
  exists m'. split; [exact Hs|exact Hc].
Defined.

Lemma reverse_failure_absorbed_witness :
  step browser (EResponse 1 FetchRejected) located =
  Some (fetchWeatherAt_start celsius
          (mkFetchArgs (latitude london) (longitude london) (Some celsius)
             (Some "Live location")) KNone
          (setDisplayName "Live location" (retire 1 located))).
Proof.
  exact (reverse_failure_absorbed browser located 1 (latitude london)
           (longitude london) celsius FetchRejected eq_refl eq_refl).
Defined.

Lemma toggle_without_coords_witness :
  ∃ m', step browser EClickUnit (mount browser) = Some m' ∧
    unit (card m') = fahrenheit ∧ requests (new_calls (mount browser) m') = [].
Proof.
  destruct (toggle_without_coords browser (mount browser) eq_refl)
    as (m' & Hs & Hu & Hr & _).
  exists m'. split; [exact Hs|]. split; [exact Hu|exact Hr].
Defined.

Lemma toggle_refetches_witness :
  ∃ m', step browser EClickUnit (after chennai_shown) = Some m' ∧
    requests (new_calls (after chennai_shown) m') =
      [forecast_url (latitude chennai) (longitude chennai) fahrenheit].
Proof.
  destruct (toggle_refetches browser (after chennai_shown)
              (mkCoords (latitude chennai) (longitude chennai))
              eq_refl eq_refl) as (m' & Hs & Hr & _).
  exists m'. split; [exact Hs|exact Hr].
Defined.
