(* ===== verification/Phases.v ===== *)
(** * Phases: the coordinator's state machine and its refinement

    The written specification describes the fetch lifecycle as a machine
    with four states, [Idle → Loading → {Ready, Failed}], where [Ready] and
    [Failed] re-enter [Loading] on the next fetch.  [phase] reads the state
    of that machine off the cells of the card, the way the render does
    (spinner, error box, conditions, tip).  The theorems say which moves
    between phases the card makes: every move of the specification's
    machine, and two more, [Idle → Failed] and [Ready → Failed], that
    happen when an error arrives while no fetch is loading. *)

From Stdlib Require Import Ascii String ZArith QArith.
From stdpp Require Import base tactics option list strings gmap.
From S2P Require Import Prelude JsLib Api Session Samples Location Fetch.
From S2P Require Import Card Invariants.

#[local] Open Scope act_scope.

(** ** Definitions *)

Inductive Phase : Type := Idle | Loading | Ready | Failed.

#[export] Instance Phase_eq_dec : EqDecision Phase.
Proof. solve_decision. Defined.

(** The phase a card shows: the spinner wins over the error box, the error
    box over the conditions. *)
Definition phase (m : Machine) : Phase :=
  if loading (card m) then Loading
  else if truthy (error (card m)) then Failed
  else if data (card m) is Some _ then Ready
  else Idle.

(** The moves of the specification's machine. *)
Inductive spec_step : Phase → Phase → Prop :=
| spec_start p : p ≠ Loading → spec_step p Loading
| spec_ready : spec_step Loading Ready
| spec_failed : spec_step Loading Failed.

(** The moves of the card. *)
Inductive card_step : Phase → Phase → Prop :=
| card_spec p q : spec_step p q → card_step p q
| card_idle_failed : card_step Idle Failed
| card_ready_failed : card_step Ready Failed.

(** A step of the card stays in its phase or makes a move. *)
Definition moves (p q : Phase) : Prop := p = q ∨ card_step p q.

(** No search and no fetch is pending. *)
Definition quiet (m : Machine) : Prop :=
  map_Forall (λ _ t, busy t = false) (tasks m).

(** In the [Idle] phase nothing is pending that could bring data. *)
Definition idle_ok (m : Machine) : Prop := phase m = Idle → quiet m.

(** The actions that keep the phase or enter [Loading], and that leave a
    quiet card quiet unless they enter [Loading]. *)
Definition gentle (a : Action Machine) : Prop :=
  ∀ m, phase (a m) = Loading ∨ (phase (a m) = phase m ∧ (quiet m → quiet (a m))).

#[export] Hint Constructors spec_step card_step : weather.

(** ** Moves *)

Lemma moves_loading p : moves p Loading.
Proof. destruct p; [right|left|right|right]; auto with weather. Qed.

Lemma moves_failed p : moves p Failed.
Proof. destruct p; [right|right|right|left]; auto with weather. Qed.

Lemma moves_idle p : moves p Idle → p = Idle.
Proof. intros [->|H]; [done|]. inv H. inv H0. Qed.

Lemma moves_ready p : p = Loading ∨ p = Ready → moves p Ready.
Proof. intros [->| ->]; [right|left]; auto with weather. Qed.

(** A state that ends a load is reached by a move, unless it came from
    [Idle]: the error shown before is still shown, and data is there. *)
Lemma moves_done m m' :
  loading (card m') = false → error (card m') = error (card m) →
  is_Some (data (card m')) → phase m ≠ Idle → moves (phase m) (phase m').
Proof.
  unfold phase. intros -> -> [cw ->] Hp.
  destruct (truthy (error (card m))) eqn:E; [apply moves_failed|].
  apply moves_ready. destruct (loading (card m)); [by left|].
  destruct (data (card m)); [by right|done].
Qed.

(** ** Gentle actions *)

Lemma gentle_skip : gentle skip.
Proof. intros m. by right. Qed.

Lemma gentle_seq a b : gentle a → gentle b → gentle (a ;; b).
Proof.
  intros Ha Hb m. unfold seq.
  destruct (Ha m) as [Hl|[Hp Hq]], (Hb (a m)) as [Hl'|[Hp' Hq']]; auto.
  - left. congruence.
  - right. split; [congruence|auto].
Qed.

Lemma gentle_when c a : gentle a → gentle (when c a).
Proof. destruct c; [done|]. intros _. apply gentle_skip. Qed.

(** An action that leaves the three cells and only adds idle tasks. *)
Lemma gentle_same a :
  (∀ m, loading (card (a m)) = loading (card m) ∧
        error (card (a m)) = error (card m) ∧
        data (card (a m)) = data (card m) ∧
        (quiet m → quiet (a m))) →
  gentle a.
Proof.
  intros H m. destruct (H m) as (Hl & He & Hd & Hq). right.
  split; [|done]. unfold phase. by rewrite Hl, He, Hd.
Qed.

Lemma quiet_spawn t m : busy t = false → quiet m → quiet (spawn t m).
Proof. intros Hb Hq. by apply map_Forall_insert_2. Qed.

Lemma quiet_retire id m : quiet m → quiet (retire id m).
Proof. apply map_Forall_delete. Qed.

Lemma gentle_spawn t : busy t = false → gentle (spawn t).
Proof. intros Hb. apply gentle_same. intros m. auto using quiet_spawn. Qed.

Lemma gentle_fetchWeatherAt_start u a k : gentle (fetchWeatherAt_start u a k).
Proof.
  intros m. rewrite fetchWeatherAt_start_cases.
  destruct (deduped u a m); [by right|by left].
Qed.

Lemma gentle_onSearch_start : gentle onSearch_start.
Proof. intros m. unfold onSearch_start. case_match; [by right|by left]. Qed.

#[export] Hint Resolve gentle_skip gentle_seq gentle_when gentle_spawn
  gentle_fetchWeatherAt_start gentle_onSearch_start : weather.

(** The setters of the cells that [phase] does not read, and [emit]. *)
Ltac gentle_cell := apply gentle_same; intros m; by repeat split.

Lemma gentle_setQuery v : gentle (setQuery v).
Proof. gentle_cell. Qed.

Lemma gentle_setDisplayName v : gentle (setDisplayName v).
Proof. gentle_cell. Qed.

Lemma gentle_setUnit f : gentle (setUnit f).
Proof. gentle_cell. Qed.

Lemma gentle_setCoords v : gentle (setCoords v).
Proof. gentle_cell. Qed.

Lemma gentle_setShareMessage v : gentle (setShareMessage v).
Proof. gentle_cell. Qed.

Lemma gentle_emit o : gentle (emit o).
Proof. gentle_cell. Qed.

Lemma gentle_retire id : gentle (retire id).
Proof. apply gentle_same. intros m. auto using quiet_retire. Qed.

#[export] Hint Resolve gentle_setQuery gentle_setDisplayName gentle_setUnit
  gentle_setCoords gentle_setShareMessage gentle_emit gentle_retire : weather.

(** ** The handlers *)

Lemma gentle_moves a m : gentle a → moves (phase m) (phase (a m)).
Proof. intros H. destruct (H m) as [-> |[-> _]]; [apply moves_loading|by left]. Qed.

Lemma gentle_idle_ok a m : gentle a → idle_ok m → idle_ok (a m).
Proof.
  intros Ha Hi Hp. destruct (Ha m) as [Hl|[Hs Hq]]; [congruence|].
  apply Hq, Hi. congruence.
Qed.

Lemma moves_gentle a p m : gentle a → moves p (phase m) → moves p (phase (a m)).
Proof. intros H Hm. destruct (H m) as [-> |[-> _]]; [apply moves_loading|done]. Qed.

Lemma settled_idle_ok m : phase m ≠ Idle → idle_ok m.
Proof. by intros H ?. Qed.

Lemma pending_settled m id t :
  idle_ok m → tasks m !! id = Some t → busy t = true → phase m ≠ Idle.
Proof. intros Hi Ht Hb Hp. apply Hi in Hp. apply Hp in Ht. simpl in Ht. congruence. Qed.

Lemma data_settled m : is_Some (data (card m)) → phase m ≠ Idle.
Proof. unfold phase. intros [cw ->]. by repeat case_match. Qed.

Lemma search_error_truthy e : truthy (search_error e) = true.
Proof. destruct e as [msg|]; simpl; [|done]. by case_decide. Qed.

Section Handlers.
Context (env : Env).

Lemma gentle_effect_geolocate : gentle (effect_geolocate env).
Proof.
  intros m. unfold effect_geolocate. destruct (env_geolocation env); [|by right].
  apply (gentle_seq (emit _) (spawn _)); auto with weather.
Qed.

Lemma gentle_effect_refetch : gentle effect_refetch.
Proof.
  intros m. unfold effect_refetch. destruct (coords (card m)); [|by right].
  apply gentle_fetchWeatherAt_start.
Qed.

Lemma gentle_commit before : gentle (commit env before).
Proof.
  intros m. unfold commit.
  apply (gentle_seq (when _ _) (when _ _));
    auto using gentle_effect_geolocate, gentle_effect_refetch with weather.
Qed.

Lemma gentle_handleShare : gentle (handleShare env).
Proof.
  intros m. unfold handleShare. case_match; [by right|].
  apply (gentle_seq (emit _) (spawn _)); auto with weather.
Qed.

(** The answer to a pending fetch ends in [Ready] or [Failed], by a move. *)
Lemma fetch_lands id lat lon u label k r m :
  idle_ok m → tasks m !! id = Some (TFetch lat lon u label k) →
  phase (run_cont k (fetchWeatherAt_resume env lat lon u label r (retire id m)))
    ≠ Idle ∧
  moves (phase m)
    (phase (run_cont k (fetchWeatherAt_resume env lat lon u label r (retire id m)))).
Proof.
  intros Hi Ht. assert (phase m ≠ Idle) as Hp by (by eapply pending_settled).
  rewrite fetchWeatherAt_resume_cases.
  destruct (fetch_ok r) as [[cw d]|], k; simpl;
    first [ by split; [|apply moves_failed]
          | split; [by apply data_settled|by apply moves_done] ].
Qed.

(** The answer to a pending city lookup ends the load, or starts the
    fetch. *)
Lemma search_lands id name u r m :
  wf m → idle_ok m → tasks m !! id = Some (TResolve name u) →
  phase (onSearch_resume u r (retire id m)) ≠ Idle ∧
  moves (phase m) (phase (onSearch_resume u r (retire id m))).
Proof.
  intros [[_ Hk] _] Hi Ht.
  assert (phase m ≠ Idle) as Hp by (by eapply pending_settled).
  unfold onSearch_resume. destruct (resolveCity_result r) as [e|p]; unfold seq.
  - unfold phase. simpl. rewrite search_error_truthy. split; [done|apply moves_failed].
  - case_match eqn:Hd; [|rewrite fetchWeatherAt_start_fresh by done;
                          split; [done|apply moves_loading]].
    assert (is_Some (data (card m))) as Hdata.
    { apply Hk. apply same_key_iff in Hd as (lat' & lon' & Hr & _).
      simpl in Hr. rewrite Hr. by eexists. }
    split; [by apply data_settled|by apply moves_done].
Qed.

(** A denied position shows its error: at once when nothing loads. *)
Lemma position_error_lands m :
  phase (onPositionError m) ≠ Idle ∧ moves (phase m) (phase (onPositionError m)).
Proof.
  unfold onPositionError, phase. simpl.
  destruct (loading (card m)); (split; [done|]); [by left|apply moves_failed].
Qed.

Lemma gentle_onPosition_start u lat lon : gentle (onPosition_start u lat lon).
Proof. unfold onPosition_start. auto 6 with weather. Qed.

Lemma gentle_onPosition_resume u lat lon r : gentle (onPosition_resume u lat lon r).
Proof. unfold onPosition_resume. auto with weather. Qed.

Lemma gentle_handleShare_resume ok : gentle (handleShare_resume ok).
Proof. unfold handleShare_resume. auto 6 with weather. Qed.

(** A handler stays in its phase or makes a move, and keeps [idle_ok]. *)
Lemma handle_moves e m m1 :
  wf m → idle_ok m → handle env e m = Some m1 →
  moves (phase m) (phase m1) ∧ idle_ok m1.
Proof.
  intros Hwf Hi He.
  assert (∀ a, gentle a → moves (phase m) (phase (a m)) ∧ idle_ok (a m)) as Hg.
  { split; [by apply gentle_moves|by apply gentle_idle_ok]. }
  assert (∀ m', phase m' ≠ Idle ∧ moves (phase m) (phase m') →
                moves (phase m) (phase m') ∧ idle_ok m') as Hl.
  { intros m' [??]. split; [done|by apply settled_idle_ok]. }
  destruct e; simpl in He; repeat case_match; simplify_eq;
    first
      [ apply Hg;
        solve [auto 6 using gentle_handleShare, gentle_onPosition_start,
                 gentle_onPosition_resume, gentle_handleShare_resume
                 with weather]
      | apply Hl ].
  - apply (position_error_lands (retire id m)).
  - by eapply search_lands.
  - by eapply fetch_lands.
Qed.

Lemma step_moves e m m' :
  wf m → idle_ok m → step env e m = Some m' →
  moves (phase m) (phase m') ∧ idle_ok m'.
Proof.
  unfold step. intros Hwf Hi He. destruct (handle env e m) as [m1|] eqn:E; [|done].
  simpl in He. simplify_eq. destruct (handle_moves _ _ _ Hwf Hi E) as [Hm Hi1].
  split; [apply moves_gentle|apply gentle_idle_ok]; auto using gentle_commit.
Qed.

Lemma phases_invariant :
  invariant (λ m, m = mount env) (step env) (λ m, wf m ∧ idle_ok m).
Proof.
  apply invariant_ind.
  - intros m ->. split; [apply mount_wf|].
    apply (gentle_idle_ok (effect_geolocate env ;; effect_refetch));
      [auto using gentle_effect_geolocate, gentle_effect_refetch with weather|].
    intros _. apply map_Forall_empty.
  - intros m e m' _ [Hwf Hi] He. split; [by eapply step_wf|by eapply step_moves].
Qed.

(** ** Theorems *)

(** C9. The card refines the machine of phases: a step from a reachable
    state stays in its phase or makes one of the moves of [card_step], that
    is, a move of the specification's machine, or [Idle → Failed], or
    [Ready → Failed].  In particular the card never goes back to [Idle],
    never shows conditions without having been [Loading], and an error is
    only ever cleared by a load. *)
Theorem step_refines e m m' :
  reachable_card env m → step env e m = Some m' → moves (phase m) (phase m').
Proof. intros [Hwf Hi]%phases_invariant He. by eapply step_moves. Qed.

(** While the card is [Idle] no search and no fetch is pending:
    conditions never appear on an idle card without the spinner having
    shown first. *)
Theorem idle_is_quiet m : reachable_card env m → phase m = Idle → quiet m.
Proof. intros [_ Hi]%phases_invariant. exact Hi. Qed.

End Handlers.

(** ** Witnesses *)

(** The second forecast answer of a search arrives when the first has
    already ended the load: the card stays [Ready]. *)
Lemma step_refines_witness :
  moves (phase (after chennai_search)) (phase (after chennai_shown)).
Proof.
  apply (step_refines browser
           (EResponse 3 (JsonOk (forecast_body sunny (Some week))))).
  - apply reachable_after. vm_compute. by eexists.
  - vm_compute. reflexivity.
Defined.

Lemma idle_is_quiet_witness : quiet (mount browser).
Proof.
  apply (idle_is_quiet browser); [|reflexivity].
  apply reach_init. reflexivity.
Defined.
