(* ===== verification/Frames.v ===== *)
(** * Frames: what an event may change

    For each group of cells, the events that write it and the value they
    write; every other event leaves the group alone.  The conditions, the
    forecast and the remembered key change together, and only when a
    pending fetch gets a good answer; the query changes by typing and the
    unit by its toggle; the error cell only ever holds one of the messages
    of the source. *)

From Stdlib Require Import Ascii String ZArith QArith.
From stdpp Require Import base tactics option list strings gmap.
From S2P Require Import Prelude JsLib Api Session Samples Location Fetch.
From S2P Require Import Card Invariants.

#[local] Open Scope act_scope.

(** ** Definitions *)

(** What a successful fetch writes. *)
Definition forecast_cells (m : Machine) :
    option CurrentWeather * option Daily * FetchRef :=
  (data (card m), dailyForecast (card m), lastFetchRef (card m)).

(** What the user sets directly. *)
Definition controls (m : Machine) : string * Unit :=
  (query (card m), unit (card m)).

(** The good answer an event brings to a pending fetch, with the key of
    that fetch. *)
Definition fetch_answer (e : Event) (m : Machine) :
    option (num * num * Unit * CurrentWeather * option Daily) :=
  match e with
  | EResponse id r =>
      match tasks m !! id with
      | Some (TFetch lat lon u _ _) =>
          '(cw, d) ← fetch_ok r; Some (lat, lon, u, cw, d)
      | _ => None
      end
  | _ => None
  end.

(** The messages the source writes to the error cell. *)
Definition messages : list string :=
  [""; "Failed to fetch weather. Please try again.";
   "City not found. Try another name.";
   "Could not find that place. Please try again.";
   "Could not get your location."].

Definition known_error (m : Machine) : Prop := error (card m) ∈ messages.

(** Unfold every handler down to the setters and split on its tests. *)
Ltac frame :=
  intros;
  unfold commit, effect_geolocate, effect_refetch, onSearch_start,
    onSearch_resume, onSearch_finally, handleShare, handleShare_resume,
    onPosition_start, onPosition_resume, onPositionError, onTimeout, run_cont,
    fetchWeatherAt_start, seq, when, skip;
  repeat case_match; try reflexivity.

Section Frames.
Context (env : Env).

(** ** The forecast cells *)

Lemma commit_forecast before : preserves forecast_cells (commit env before).
Proof. intros m. frame. Qed.

Lemma handle_forecast e m m1 :
  handle env e m = Some m1 →
  forecast_cells m1 =
  match fetch_answer e m with
  | Some (lat, lon, u, cw, d) =>
      (Some cw, d, mkFetchRef (Some lat) (Some lon) (Some u))
  | None => forecast_cells m
  end.
Proof.
  intros He. destruct e; simpl in *; repeat case_match; simplify_eq;
    try (by frame).
  all: unfold seq; rewrite fetchWeatherAt_resume_cases;
    destruct (fetch_ok r) as [[??]|], k; by simplify_eq/=.
Qed.

(** ** The controls *)

Lemma commit_controls before : preserves controls (commit env before).
Proof. intros m. frame. Qed.

Lemma handle_controls e m m1 :
  handle env e m = Some m1 →
  controls m1 =
  match e with
  | EInput text => (text, unit (card m))
  | EClickUnit => (query (card m), toggle_unit (unit (card m)))
  | _ => controls m
  end.
Proof.
  intros He. destruct e; simpl in *; repeat case_match; simplify_eq;
    try (by frame).
  unfold seq. rewrite fetchWeatherAt_resume_cases.
  by destruct (fetch_ok r) as [[??]|], k.
Qed.

(** ** The error cell *)

(** The error after an action is the error before it or a message. *)
Ltac known H :=
  unfold known_error in *; simpl;
  first [ exact H | eapply bool_decide_eq_true_1; vm_compute; reflexivity ].

Lemma search_error_known e : search_error e ∈ messages.
Proof. destruct e as [msg|]; simpl; [case_decide|]; known I. Qed.

Lemma commit_known_error before m : known_error m → known_error (commit env before m).
Proof. intros H. frame; known H. Qed.

Lemma handle_known_error e m m1 :
  known_error m → handle env e m = Some m1 → known_error m1.
Proof.
  intros H He. destruct e; simpl in *; repeat case_match; simplify_eq;
    try (frame; first [known H | apply search_error_known]).
  unfold seq. rewrite fetchWeatherAt_resume_cases.
  destruct (fetch_ok r) as [[??]|], k; known H.
Qed.

Lemma known_error_invariant :
  invariant (λ m, m = mount env) (step env) known_error.
Proof.
  apply invariant_ind.
  - intros m ->. unfold mount. frame; known I.
  - unfold step. intros m e m' _ Hm He.
    destruct (handle env e m) as [m1|] eqn:E; simplify_eq/=.
    eapply commit_known_error, handle_known_error; eauto.
Qed.

(** ** Theorems *)

(** C10. The conditions, the forecast and the remembered key change only
    when a pending fetch is answered with a body that has a current-weather
    block, and then all three are written together: the conditions and the
    forecast of that body and the key of that fetch.  No other event, and
    no failure, clears or replaces what is shown. *)
Theorem step_forecast e m m' :
  step env e m = Some m' →
  forecast_cells m' =
  match fetch_answer e m with
  | Some (lat, lon, u, cw, d) =>
      (Some cw, d, mkFetchRef (Some lat) (Some lon) (Some u))
  | None => forecast_cells m
  end.
Proof.
  unfold step. intros He. destruct (handle env e m) as [m1|] eqn:E; simplify_eq/=.
  rewrite commit_forecast. by apply handle_forecast.
Qed.

(** The query changes only by typing and the unit only by its toggle;
    no answer of the platform and no effect writes either. *)
Theorem step_controls e m m' :
  step env e m = Some m' →
  controls m' =
  match e with
  | EInput text => (text, unit (card m))
  | EClickUnit => (query (card m), toggle_unit (unit (card m)))
  | _ => controls m
  end.
Proof.
  unfold step. intros He. destruct (handle env e m) as [m1|] eqn:E; simplify_eq/=.
  rewrite commit_controls. by apply handle_controls.
Qed.

(** C35. In every reachable state the error cell holds the empty string or
    one of the four messages of the source. *)
Theorem reachable_known_error m : reachable_card env m → known_error m.
Proof. apply known_error_invariant. Qed.

End Frames.

(** ** Witnesses *)

Lemma step_forecast_witness :
  forecast_cells (after chennai_shown) =
  (Some sunny, Some week,
   mkFetchRef (Some (latitude chennai)) (Some (longitude chennai))
     (Some celsius)).
Proof.
  rewrite (step_forecast browser
             (EResponse 3 (JsonOk (forecast_body sunny (Some week))))
             (after chennai_search) (after chennai_shown));
    vm_compute; reflexivity.
Defined.

Lemma step_controls_witness :
  controls (commit browser (mount browser) (setUnit toggle_unit (mount browser)))
  = ("", fahrenheit).
Proof.
  rewrite (step_controls browser EClickUnit (mount browser)
             (commit browser (mount browser)
                (setUnit toggle_unit (mount browser))));
    vm_compute; reflexivity.
Defined.

Lemma reachable_known_error_witness : known_error (after chennai_shown).
Proof.
  apply (reachable_known_error browser), reachable_after. vm_compute. by eexists.
Defined.
