(* ===== verification/Progress.v ===== *)
(** * Progress: a spinner that is on goes off

    A liveness property of the card, over executions that never end: a
    function from time to states, each state followed by a step of
    [Card.step].  The platform is assumed fair to the requests the spinner
    waits for: a pending search or fetch is answered at some later time,
    with any outcome.  Nothing is assumed of the user, who may type, search,
    toggle and share at any time in between.  Then whenever the spinner is
    on there is a later time at which it is off: the answer to a fetch
    always ends with [setLoading(false)], and the answer to a city lookup
    does so too or leaves a fetch pending whose answer does. *)

From Stdlib Require Import Ascii String ZArith QArith Lia.
From stdpp Require Import base tactics option list strings gmap.
From S2P Require Import Prelude JsLib Api Session Samples Location Fetch.
From S2P Require Import Card Invariants Steps Frames.

#[local] Open Scope act_scope.

(** ** Definitions *)

(** The continuation an event resumes, when it is an answer of the
    platform. *)
Definition answered (e : Event) : option nat :=
  match e with
  | EPosition id _ _ | EPositionError id | EResponse id _
  | EClipboard id _ | ETimeout id => Some id
  | EInput _ | EEnter | EClickSearch | EClickUnit | EClickShare => None
  end.

Section Executions.
Context (env : Env) (st : nat → Machine) (ev : nat → Event).

(** An execution: the state at each time, the first one reachable from the
    mount, and the event that leads from each to the next. *)
Definition execution : Prop :=
  reachable_card env (st 0) ∧ ∀ n, step env (ev n) (st n) = Some (st (S n)).

(** The platform answers every pending search and fetch. *)
Definition fair : Prop :=
  ∀ n id t, tasks (st n) !! id = Some t → busy t = true →
    ∃ k, answered (ev (n + k)) = Some id.

End Executions.

(** Look a pending identifier up after a handler ran: the handler retired
    another identifier and suspended under fresh ones. *)
Ltac pending :=
  simpl; rewrite ?lookup_insert_ne by lia;
  rewrite ?lookup_insert_eq, ?lookup_delete_ne by congruence; done.

Section Progress.
Context (env : Env).

(** ** A pending continuation stays until it is answered *)

Lemma commit_keeps before m id t :
  fresh_ids m → tasks m !! id = Some t →
  tasks (commit env before m) !! id = Some t.
Proof. intros Hf Ht. pose proof (Hf _ _ Ht). frame; pending. Qed.

Lemma handle_keeps e m m1 id t :
  fresh_ids m → handle env e m = Some m1 → tasks m !! id = Some t →
  answered e ≠ Some id → tasks m1 !! id = Some t.
Proof.
  intros Hf He Ht Hne. pose proof (Hf _ _ Ht).
  destruct e; simpl in *; repeat case_match; simplify_eq;
    try (frame; pending).
  unfold seq. rewrite fetchWeatherAt_resume_cases.
  destruct (fetch_ok r) as [[??]|], k; pending.
Qed.

Lemma step_keeps e m m' id t :
  wf m → step env e m = Some m' → tasks m !! id = Some t →
  answered e ≠ Some id → tasks m' !! id = Some t.
Proof.
  unfold step. intros Hm He Ht Hne.
  destruct (handle env e m) as [m1|] eqn:E; simplify_eq/=.
  apply commit_keeps; [|by eapply handle_keeps, Hne; [apply Hm|..]].
  by eapply handle_wf.
Qed.

(** ** What the answer to a search or a fetch does *)

(** Only a network answer resumes a search or a fetch. *)
Lemma busy_answer e m m' id t :
  tasks m !! id = Some t → busy t = true → answered e = Some id →
  step env e m = Some m' → ∃ r, e = EResponse id r.
Proof.
  unfold step. intros Ht Hb Ha He.
  destruct e; simplify_eq/=; rewrite Ht in He; destruct t; try done.
  all: by eexists.
Qed.

(** The answer to a fetch stops the spinner, whatever it is. *)
Lemma fetch_answer_stops m m' id lat lon u label k r :
  tasks m !! id = Some (TFetch lat lon u label k) →
  step env (EResponse id r) m = Some m' → loading (card m') = false.
Proof.
  unfold step, handle. intros Ht. rewrite Ht. simpl. intros [= <-].
  unfold seq. rewrite fetchWeatherAt_resume_cases.
  destruct (fetch_ok r) as [[??]|], k; by rewrite commit_unchanged.
Qed.

(** The answer to a city lookup stops the spinner or leaves a fetch
    pending. *)
Lemma search_answer_stops m m' id name u r :
  tasks m !! id = Some (TResolve name u) →
  step env (EResponse id r) m = Some m' →
  loading (card m') = false ∨
  ∃ lat lon u' label k,
    tasks m' !! nextId m = Some (TFetch lat lon u' label k).
Proof.
  unfold step, handle. intros Ht. rewrite Ht. simpl. intros [= <-].
  unfold onSearch_resume, seq.
  destruct (resolveCity_result r) as [e|p]; [left; by rewrite commit_unchanged|].
  cbv beta.
  match goal with
  | |- context [deduped ?u ?a ?x] => destruct (deduped u a x) eqn:Hd
  end.
  2: rewrite fetchWeatherAt_start_fresh by done.
  all: rewrite commit_coords by (simpl; lia || done).
  all: unfold effect_refetch; simpl; rewrite fetchWeatherAt_start_cases.
  all: case_match; first [by left | right; eexists _, _, _, _, _; pending].
Qed.

Section Executions.
Context (st : nat → Machine) (ev : nat → Event).
Context (Hexec : execution env st ev) (Hfair : fair st ev).

Lemma execution_wf n : wf (st n).
Proof.
  apply (wf_invariant env). induction n as [|n IH]; [apply Hexec|].
  eapply reach_step; [exact IH|apply Hexec].
Qed.

(** The first time an answer to a pending continuation arrives, the
    continuation is still pending. *)
Lemma first_answer k : ∀ n id t,
  tasks (st n) !! id = Some t → answered (ev (n + k)) = Some id →
  ∃ j, tasks (st (n + j)) !! id = Some t ∧ answered (ev (n + j)) = Some id.
Proof.
  induction k as [|k IH]; intros n id t Ht Ha.
  { exists 0. by rewrite Nat.add_0_r in *. }
  destruct (decide (answered (ev n) = Some id)) as [H|H].
  { exists 0. by rewrite Nat.add_0_r. }
  destruct (IH (S n) id t) as (j & Hj & Haj).
  - eapply step_keeps; [apply execution_wf|apply Hexec|done..].
  - by rewrite Nat.add_succ_comm.
  - exists (S j). by rewrite <- Nat.add_succ_comm.
Qed.

(** A pending search or fetch gets its answer while it is pending. *)
Lemma busy_answered n id t :
  tasks (st n) !! id = Some t → busy t = true →
  ∃ j r, tasks (st (n + j)) !! id = Some t ∧
    step env (EResponse id r) (st (n + j)) = Some (st (S (n + j))).
Proof.
  intros Ht Hb. destruct (Hfair n id t Ht Hb) as [k Hk].
  destruct (first_answer k n id t Ht Hk) as (j & Hj & Ha).
  destruct (busy_answer (ev (n + j)) (st (n + j)) (st (S (n + j))) id t)
    as [r Hr]; [done..|apply Hexec|].
  exists j, r. split; [done|]. rewrite <- Hr. apply Hexec.
Qed.

(** A pending fetch leads to a state without spinner. *)
Lemma fetch_leads_to_rest n id lat lon u label k :
  tasks (st n) !! id = Some (TFetch lat lon u label k) →
  ∃ j, loading (card (st (n + j))) = false.
Proof.
  intros Ht. destruct (busy_answered n id _ Ht) as (j & r & Hj & Hs); [done|].
  exists (S j). rewrite Nat.add_succ_r. by eapply fetch_answer_stops.
Qed.

End Executions.
End Progress.

(** ** The theorem *)

(** C8. Under a fair platform every spinner goes off: in an execution of
    the card in which each pending search and fetch is answered at some
    time, with any outcome and with any user events in between, a state
    with [loading] true is followed by a state with [loading] false. *)
Theorem spinner_goes_off env st ev n :
  execution env st ev → fair st ev →
  loading (card (st n)) = true → ∃ k, loading (card (st (n + k))) = false.
Proof.
  intros Hexec Hfair Hl. destruct (execution_wf env st ev Hexec n) as [_ Hs].
  destruct (Hs Hl) as (id & t & Ht & Hb).
  destruct t; try done; [|by eapply fetch_leads_to_rest].
  destruct (busy_answered env st ev Hexec Hfair n id _ Ht)
    as (j & r & Hj & Hstep); [done|].
  destruct (search_answer_stops env _ _ _ _ _ _ Hj Hstep)
    as [Hoff|(lat & lon & u' & label & k & Hf)].
  { exists (S j). by rewrite Nat.add_succ_r. }
  destruct (fetch_leads_to_rest env st ev Hexec Hfair _ _ _ _ _ _ _ Hf)
    as [j' Hj'].
  exists (S j + j'). by rewrite Nat.add_assoc, Nat.add_succ_r.
Qed.

(** ** Witnesses *)

(** A search for a city that does not exist, after which the user keeps
    typing the same text. *)
Definition lost_search : list Event :=
  [EInput "Atlantis"; EEnter; EResponse 1 (JsonOk (geo_body []))].

Definition lost_events (n : nat) : Event :=
  nth n lost_search (EInput "Atlantis").

Definition lost_states (n : nat) : Machine := after (take n lost_search).

Lemma lost_states_late n : 3 ≤ n → lost_states n = after lost_search.
Proof. intros Hn. unfold lost_states. by rewrite take_ge by (simpl; lia). Qed.

Lemma lost_execution : execution browser lost_states lost_events.
Proof.
  split; [apply reachable_after; vm_compute; by eexists|]. intros n.
  destruct (decide (3 ≤ n)) as [Hn|Hn].
  - rewrite !lost_states_late by lia. unfold lost_events.
    rewrite nth_overflow by (simpl; lia). vm_compute. reflexivity.
  - assert (n = 0 ∨ n = 1 ∨ n = 2) as [->|[->| ->]] by lia;
      vm_compute; reflexivity.
Qed.

Lemma lost_quiet n :
  n ≠ 2 → map_Forall (λ _ t, busy t = false) (tasks (lost_states n)).
Proof.
  intros Hn. destruct (decide (3 ≤ n)).
  - rewrite lost_states_late by done. apply map_Forall_to_list. vm_compute.
    repeat constructor.
  - assert (n = 0 ∨ n = 1) as [->| ->] by lia; apply map_Forall_to_list;
      vm_compute; repeat constructor.
Qed.

Lemma lost_fair : fair lost_states lost_events.
Proof.
  intros n id t Ht Hb. destruct (decide (n = 2)) as [->|Hn].
  - exists 0.
    assert (map_Forall (λ i t, busy t = true → i = 1) (tasks (lost_states 2)))
      as H.
    { apply map_Forall_to_list. vm_compute. repeat constructor; done. }
    by rewrite (H _ _ Ht Hb).
  - apply (lost_quiet n Hn) in Ht. congruence.
Qed.

Lemma spinner_goes_off_witness :
  ∃ k, loading (card (lost_states (2 + k))) = false.
Proof.
  apply (spinner_goes_off browser lost_states lost_events 2 lost_execution
           lost_fair).
  vm_compute. reflexivity.
Defined.
