(* ===== verification/Share.v ===== *)
(** * Share: the share link and its feedback

    [handleShare] of WeatherCard.jsx (lines 209-223): the link that is
    written to the clipboard, and the message that reports the outcome and
    is cleared by a timer.  The link's last segment is the text of the shown
    name before its first comma, percent-encoded; decoding it gives that
    text back. *)

From Stdlib Require Import Ascii String ZArith QArith Lia.
From stdpp Require Import base tactics option list strings gmap.
From S2P Require Import Prelude JsLib Api Session Samples Location Fetch.
From S2P Require Import Card Invariants Steps.

#[local] Open Scope act_scope.

(** ** Definitions *)

(** The city [handleShare] puts in the link: [displayName.split(",")[0]]. *)
Definition share_city (m : Machine) : string :=
  split_head "," (displayName (card m)).

Section Share.
Context (env : Env).

(** ** The link *)

Lemma share_step m :
  truthy (displayName (card m)) = true →
  step env EClickShare m =
  Some (spawn (TClipboard (share_url env (displayName (card m))))
          (emit (OClipboardWrite (share_url env (displayName (card m)))) m)).
Proof.
  intros Hd. unfold step, handle, handleShare. rewrite Hd. simpl.
  by rewrite commit_unchanged.
Qed.

(** The Share button does nothing at all exactly when no name is
    shown. *)
Theorem share_noop_iff m :
  step env EClickShare m = Some m ↔ truthy (displayName (card m)) = false.
Proof.
  destruct (truthy (displayName (card m))) eqn:Hd.
  - rewrite share_step by done. split; [|done].
    intros [= Hm]. apply (f_equal nextId) in Hm. simpl in Hm. lia.
  - unfold step, handle, handleShare. rewrite Hd. simpl.
    by rewrite commit_unchanged.
Qed.

(** C31. With a name on display, the Share button writes one link to the
    clipboard and changes no cell: the origin, "/weather/" and the city
    percent-encoded.  The encoded city holds only unreserved bytes and
    escapes, so the link has no further slash, query or fragment, and
    decoding it gives the city back: the text of the shown name before its
    first comma. *)
Theorem share_link m :
  truthy (displayName (card m)) = true →
  ∃ m', step env EClickShare m = Some m' ∧
    card m' = card m ∧
    log m' = log m ++ [OClipboardWrite
                         (env_origin env +:+ "/weather/" +:+
                          encodeURIComponent (share_city m))] ∧
    all_chars url_safe (encodeURIComponent (share_city m)) = true ∧
    decodeURIComponent (encodeURIComponent (share_city m)) = Some (share_city m) ∧
    no_sep "," (share_city m) = true.
Proof.
  intros Hd. eexists. split; [by apply share_step|]. simpl.
  repeat split; auto using encodeURIComponent_safe, decode_encode.
  apply split_head_no_sep.
Qed.

(** ** The feedback *)

(** When the clipboard write settles, the message reports the
    outcome and a timer of three seconds is set; when a timer fires, the
    message is cleared, whichever share set it. *)
Theorem share_feedback m id text ok :
  tasks m !! id = Some (TClipboard text) →
  ∃ m', step env (EClipboard id ok) m = Some m' ∧
    shareMessage (card m') =
      (if ok then "✅ Weather link copied!" else "❌ Failed to copy link") ∧
    log m' = log m ++ [OSetTimeout 3000] ∧
    tasks m' = <[nextId m := TTimer]> (delete id (tasks m)) ∧
    ∀ m'' t, tasks m' !! t = Some TTimer →
      step env (ETimeout t) m' = Some m'' → shareMessage (card m'') = "".
Proof.
  intros Ht. unfold step, handle. rewrite Ht. simpl.
  eexists. split; [by rewrite commit_unchanged|]. simpl.
  repeat split. intros m'' t Hl. simpl in *. rewrite Hl. simpl.
  rewrite commit_unchanged by done. by intros [= <-].
Qed.

End Share.

(** ** Witnesses *)

Lemma share_link_witness :
  ∃ m', step browser EClickShare (after chennai_shown) = Some m' ∧
    log m' = log (after chennai_shown) ++
             [OClipboardWrite
                (env_origin browser +:+ "/weather/" +:+
                 encodeURIComponent (share_city (after chennai_shown)))].
Proof.
  destruct (share_link browser (after chennai_shown)) as (m' & Hs & _ & Hl & _);
    [vm_compute; reflexivity|].
  exists m'. split; [exact Hs|exact Hl].
Defined.

(** The card with a share under way. *)
Definition sharing : Machine := after (chennai_shown ++ [EClickShare]).

Lemma share_feedback_witness :
  ∃ m', step browser (EClipboard 4 true) sharing = Some m' ∧
    shareMessage (card m') = "✅ Weather link copied!".
Proof.
  destruct (share_feedback browser sharing 4
              (share_url browser (displayName (card (after chennai_shown)))) true)
    as (m' & Hs & Hm & _); [vm_compute; reflexivity|].
  exists m'. split; [exact Hs|exact Hm].
Defined.
