(* ===== verification/View.v ===== *)
(** * View: what the card renders

    The [return] of [WeatherCard] (WeatherCard.jsx, lines 251-502) as a
    function from the theme and the cells to a record of what is on
    screen: the controls, the share message, the error box, the spinner,
    the current conditions, the seven-day grid and the tip, each present
    under the guard the JSX puts on it.  Numbers are shown as the integer
    [Math.round] gives ([None] where JavaScript would show [NaN]) and
    dates as the string handed to [Date], whose formatting depends on the
    locale.  Class strings are modelled where they depend on more than the
    theme. *)

From Stdlib Require Import Ascii String ZArith QArith Qround Lia.
From stdpp Require Import base tactics option list strings gmap.
From S2P Require Import Prelude JsLib WeatherCodes Api Session Samples Fetch.
From S2P Require Import Card Invariants Phases.

#[local] Open Scope Z_scope.

(** ** Definitions *)

(** [cardClass] (lines 80-90). *)
Definition cardClass (theme : Theme) : string :=
  cx ["w-full mx-auto max-w-3xl rounded-2xl shadow-xl p-5 sm:p-6 md:p-8 transition-colors";
      "backdrop-blur-md border";
      if decide (theme = dark) then "bg-white/10 border-white/15"
      else "bg-black/30 border-white/30"].

(** [unitLabel] (line 251). *)
Definition unitLabel (u : Unit) : string :=
  if decide (u = celsius) then "°C" else "°F".

(** The Search button (lines 287-300). *)
Record SearchButton : Type := mkSearchButton {
  search_disabled : bool;
  search_class : string;
  search_label : string
}.

Definition searchButton (theme : Theme) (loading : bool) : SearchButton :=
  mkSearchButton loading
    (cx ["px-4 py-3 rounded-xl font-semibold inline-flex items-center justify-center gap-2 transition cursor-pointer";
         if loading then "opacity-70" else "hover:scale-[1.02]";
         if decide (theme = dark) then "bg-indigo-600 text-white"
         else "bg-sky-600 text-white"])
    (if loading then "Searching…" else "Search").

(** The block of current conditions (lines 377-450). *)
Record CurrentView : Type := mkCurrentView {
  cur_icon : IconElement;
  cur_temperature : Z;
  cur_feels_like : Z;
  cur_unit : string;
  cur_name : string;
  cur_date : option string;
  cur_label : string;
  cur_day : string;
  cur_wind : Z;
  cur_wind_dir : option Z;
  cur_sun : option (option string * option string)
}.

Definition currentView (u : Unit) (displayName : string)
    (cw : CurrentWeather) (d : option Daily) : CurrentView :=
  mkCurrentView
    (iconFor (Some (weathercode cw)) (Some (is_day cw)) (Some 88))
    (Math_round (temperature cw))
    (Math_round (temperature cw))
    (unitLabel u)
    (or_else (Some displayName) "—")
    (if truthy_opt (time cw) then time cw else None)
    (labelFor (Some (weathercode cw)))
    (if truthy_num (is_day cw) then "Day" else "Night")
    (Math_round (windspeed cw))
    (Math_round <$> winddirection cw)
    ((λ d, (sunrise d !! 0%nat, sunset d !! 0%nat)) <$> d).

(** A cell of the seven-day grid (lines 457-484). *)
Record DayView : Type := mkDayView {
  day_key : string;
  day_date : string;
  day_icon : IconElement;
  day_max : option Z;
  day_min : option Z
}.

(** [dailyForecast.time.map((date, index) => ...)] (lines 456-485): the
    other arrays are read at the index of the date; an index past their end
    reads [undefined]. *)
Definition forecastRows (d : Daily) : list DayView :=
  imap (λ index date,
          mkDayView date date
            (iconFor (daily_weathercode d !! index) (Some 1) (Some 36))
            (Math_round <$> temperature_2m_max d !! index)
            (Math_round <$> temperature_2m_min d !! index))
       (daily_time d).

(** What is on screen. *)
Record View : Type := mkView {
  v_class : string;
  v_query : string;
  v_search : SearchButton;
  v_share_message : option string;
  v_error : option string;
  v_loader : bool;
  v_current : option CurrentView;
  v_forecast : option (list DayView);
  v_tip : bool
}.

(** [s && <div>{s}</div>] for a string. *)
Definition shown (s : string) : option string :=
  if truthy s then Some s else None.

(** The [return] of [WeatherCard] (lines 253-502). *)
Definition render (theme : Theme) (c : Card) : View :=
  let visible := bool_decide (is_Some (data c)) && negb (loading c) in
  mkView
    (cardClass theme)
    (query c)
    (searchButton theme (loading c))
    (shown (shareMessage c))
    (shown (error c))
    (loading c)
    (if visible
     then (λ cw, currentView (unit c) (displayName c) cw (dailyForecast c))
            <$> data c
     else None)
    (if visible then forecastRows <$> dailyForecast c else None)
    (negb (bool_decide (is_Some (data c))) && negb (loading c)
     && negb (truthy (error c))).

(** A cell that shows no [NaN]. *)
Definition complete (r : DayView) : bool :=
  bool_decide (is_Some (day_max r)) && bool_decide (is_Some (day_min r)).

(** ** The seven-day grid *)

Lemma forecastRows_lookup d i :
  forecastRows d !! i =
  (λ date, mkDayView date date
             (iconFor (daily_weathercode d !! i) (Some 1) (Some 36))
             (Math_round <$> temperature_2m_max d !! i)
             (Math_round <$> temperature_2m_min d !! i))
    <$> daily_time d !! i.
Proof. unfold forecastRows. by rewrite list_lookup_imap. Qed.

Lemma forecastRows_length d : length (forecastRows d) = length (daily_time d).
Proof. apply length_imap. Qed.

(** C28. The grid has one cell per date, and the cell of a date shows the
    code, the maximum and the minimum found at the index of that date in
    their arrays: the four arrays are read index for index. *)
Theorem forecast_rows_aligned d i date code tmax tmin :
  daily_time d !! i = Some date →
  daily_weathercode d !! i = Some code →
  temperature_2m_max d !! i = Some tmax →
  temperature_2m_min d !! i = Some tmin →
  length (forecastRows d) = length (daily_time d) ∧
  forecastRows d !! i =
    Some (mkDayView date date (iconFor (Some code) (Some 1) (Some 36))
            (Some (Math_round tmax)) (Some (Math_round tmin))).
Proof.
  intros Ht Hc Hmax Hmin. split; [apply forecastRows_length|].
  by rewrite forecastRows_lookup, Ht, Hc, Hmax, Hmin.
Qed.

(** C36. When the arrays of the daily block have the same length, every
    cell of the grid is complete: no temperature is shown as [NaN]. *)
Theorem aligned_rows_complete d :
  aligned d → Forall (λ r, complete r = true) (forecastRows d).
Proof.
  intros (_ & Hmax & Hmin & _). apply Forall_lookup. intros i r.
  rewrite forecastRows_lookup. intros [date [Ht ->]]%fmap_Some.
  apply lookup_lt_Some in Ht. unfold complete. simpl.
  destruct (lookup_lt_is_Some_2 (temperature_2m_max d) i) as [? ->]; [lia|].
  destruct (lookup_lt_is_Some_2 (temperature_2m_min d) i) as [? ->]; [lia|].
  rewrite !bool_decide_eq_true_2; by eauto.
Qed.

(** C37. A date whose weather code is missing is shown with the clear-day
    icon: [iconFor] reads the missing code as its default, 0. *)
Theorem missing_code_shows_sun d i date :
  daily_time d !! i = Some date → daily_weathercode d !! i = None →
  day_icon <$> forecastRows d !! i = Some (mkIcon WiDaySunny 36 "text-yellow-400").
Proof. intros Ht Hc. by rewrite forecastRows_lookup, Ht, Hc. Qed.

(** ** The current conditions *)

Lemma Math_round_mono x y : (x <= y)%Q → Math_round x <= Math_round y.
Proof.
  intros H. unfold Math_round. apply Qfloor_resp_le.
  by apply Qplus_le_l.
Qed.

(** C38. The temperature on screen is the integer nearest to the one
    received, half a degree away at most (halves go up), and a higher
    temperature is never shown as a lower number. *)
Theorem shown_temperature_bounds u n d cw cw' :
  (inject_Z (cur_temperature (currentView u n cw d)) - (1 # 2) <= temperature cw
   < inject_Z (cur_temperature (currentView u n cw d)) + (1 # 2))%Q ∧
  ((temperature cw <= temperature cw')%Q →
   cur_temperature (currentView u n cw d)
   <= cur_temperature (currentView u n cw' d)).
Proof. split; [apply Math_round_spec|apply Math_round_mono]. Qed.

(** ** The guards *)

(** Which of the spinner, the error box, the conditions and the tip are on
    screen. *)
Definition shows (v : View) : bool * bool * bool * bool :=
  (v_loader v, bool_decide (is_Some (v_error v)),
   bool_decide (is_Some (v_current v)), v_tip v).

(** C27. What is on screen in each phase: the tip alone when [Idle]; the
    spinner, without the conditions and with the Search button disabled,
    when [Loading]; the conditions alone when [Ready]; the error box,
    without spinner or tip, when [Failed].  The grid is only ever shown
    together with the conditions. *)
Theorem render_phase theme m :
  match phase m with
  | Idle => shows (render theme (card m)) = (false, false, false, true)
  | Loading =>
      v_loader (render theme (card m)) = true ∧
      v_current (render theme (card m)) = None ∧
      v_tip (render theme (card m)) = false ∧
      search_disabled (v_search (render theme (card m))) = true
  | Ready => shows (render theme (card m)) = (false, false, true, false)
  | Failed =>
      v_loader (render theme (card m)) = false ∧
      is_Some (v_error (render theme (card m))) ∧
      v_tip (render theme (card m)) = false
  end ∧
  (is_Some (v_forecast (render theme (card m))) →
   is_Some (v_current (render theme (card m)))).
Proof.
  unfold phase, shows, render, shown. simpl.
  destruct (loading (card m)), (error (card m)) as [|??], (data (card m));
    simpl; repeat split; try done; try (by eexists); by intros [??].
Qed.

(** ** Witnesses *)

(** A daily block whose code array is one short. *)
Definition short_week : Daily :=
  mkDaily ["2024-05-01"; "2024-05-02"] [61] [30 # 1; 31 # 1]%Q
    [25 # 1; 26 # 1]%Q ["2024-05-01T05:45"] ["2024-05-01T18:20"].

Lemma forecast_rows_aligned_witness :
  forecastRows week !! 4%nat =
  Some (mkDayView "2024-05-05" "2024-05-05"
          (mkIcon WiRain 36 "text-blue-500") (Some 30) (Some 25)).
Proof.
  exact (proj2 (forecast_rows_aligned week 4 "2024-05-05" 61 (30 # 1) (25 # 1)
                  eq_refl eq_refl eq_refl eq_refl)).
Defined.

Lemma aligned_rows_complete_witness :
  Forall (λ r, complete r = true) (forecastRows week).
Proof. apply (aligned_rows_complete week). vm_compute. by repeat split. Defined.

Lemma missing_code_shows_sun_witness :
  day_icon <$> forecastRows short_week !! 1%nat =
  Some (mkIcon WiDaySunny 36 "text-yellow-400").
Proof.
  exact (missing_code_shows_sun short_week 1 "2024-05-02" eq_refl eq_refl).
Defined.
