(* ===== verification/App.v ===== *)
(** * App: the shell around the card

    [App] of App.jsx: the theme, read from [localStorage] or the system
    preference when the page loads and written back after every render
    that changed it; the weather [meta] the card reports through
    [onMetaChange]; and the class strings computed from both.  The browser's
    storage is an interface ([Storage]) with the two laws the shell relies
    on; the theorems about the shell are proved for every implementation of
    it, and a finite map implements it. *)

From Stdlib Require Import Ascii String ZArith QArith.
From stdpp Require Import base tactics option list strings gmap.
From S2P Require Import Prelude JsLib WeatherCodes Api Session Samples Fetch.
From S2P Require Import Card Invariants Frames.

#[local] Open Scope Z_scope.

(** ** Storage *)

(** [localStorage], as far as [getItem] and [setItem] go. *)
Class Storage (St : Type) : Type := {
  getItem : string → St → option string;
  setItem : string → string → St → St;
  getItem_setItem k v s : getItem k (setItem k v s) = Some v;
  getItem_setItem_ne k k' v s :
    k ≠ k' → getItem k (setItem k' v s) = getItem k s
}.

#[export] Instance gmap_storage : Storage (gmap string string).
Proof.
  refine {| getItem k s := s !! k; setItem k v s := <[k := v]> s |}.
  - intros k v s. apply lookup_insert_eq.
  - intros k k' v s Hne. by apply lookup_insert_ne.
Defined.

(** ** Definitions *)

(** The [meta] state: [{ code, isDay }] (line 67). *)
Record Meta : Type := mkMeta {
  meta_code : Z;
  meta_isDay : Z
}.

#[export] Instance Meta_eq_dec : EqDecision Meta.
Proof. solve_decision. Defined.

(** The state of [App]. *)
Record App : Type := mkApp {
  theme : Theme;
  meta : Meta
}.

(** The string a theme is stored as. *)
Definition theme_string (t : Theme) : string :=
  match t with
  | light => "light"
  | dark => "dark"
  end.

(** The initialiser of the theme state (lines 51-60).  [matchMedia] is the
    answer of [window.matchMedia("(prefers-color-scheme: dark)").matches],
    [None] where [window.matchMedia] does not exist. *)
Definition initial_theme `{Storage St} (matchMedia : option bool) (s : St) :
    Theme :=
  let saved := getItem "theme" s in
  if decide (saved = Some "light") then light
  else if decide (saved = Some "dark") then dark
  else
    let prefersDark := default false matchMedia in
    if prefersDark then dark else light.

(** The effect that stores the theme (lines 62-64). *)
Definition persist `{Storage St} (a : App) (s : St) : St :=
  setItem "theme" (theme_string (theme a)) s.

(** The theme toggle (line 98). *)
Definition toggle_theme (t : Theme) : Theme :=
  if decide (t = dark) then light else dark.

(** [bgClass] (lines 69-76). *)
Definition bgClass (a : App) : string :=
  cx ["min-h-screen w-full transition-colors duration-700";
      gradientFor (theme a) (meta_code (meta a)) (meta_isDay (meta a))].

(** The class of the root element (lines 80-83). *)
Definition rootClass (a : App) : string :=
  cx [bgClass a;
      if decide (theme a = dark) then "text-slate-100" else "text-slate-900"].

(** What can happen to the shell. *)
Inductive AppEvent : Type :=
| AToggle                         (* the theme button *)
| AMeta (code isDay : Z).         (* [onMetaChange] called by the card *)

Section Shell.
Context `{Storage St}.

(** The first render and its effect. *)
Definition app_mount (matchMedia : option bool) (s : St) : App * St :=
  let a := mkApp (initial_theme matchMedia s) (mkMeta 0 1) in
  (a, persist a s).

(** One event; the storing effect runs when the theme changed. *)
Definition app_step (e : AppEvent) (st : App * St) : option (App * St) :=
  let '(a, s) := st in
  match e with
  | AToggle =>
      let a' := mkApp (toggle_theme (theme a)) (meta a) in
      Some (a', persist a' s)
  | AMeta code isDay => Some (mkApp (theme a) (mkMeta code isDay), s)
  end.

(** The stored theme is the theme on screen. *)
Definition stored_ok (st : App * St) : Prop :=
  getItem "theme" st.2 = Some (theme_string (theme st.1)).

End Shell.

(** The [meta] the shell holds after the card made the calls of a log. *)
Definition last_meta (os : list Output) : Meta :=
  foldl (λ acc o, match o with OMeta c d => mkMeta c d | _ => acc end)
    (mkMeta 0 1) os.

(** The [meta] that fits the conditions on display. *)
Definition meta_of (data : option CurrentWeather) : Meta :=
  match data with
  | Some cw => mkMeta (weathercode cw) (is_day cw)
  | None => mkMeta 0 1
  end.

Definition meta_ok (m : Machine) : Prop :=
  last_meta (log m) = meta_of (data (card m)).

(** ** The theme *)

Section Theme.
Context `{Storage St}.
Implicit Types (s : St) (a : App) (matchMedia : option bool).

Lemma initial_theme_saved matchMedia t s :
  getItem "theme" s = Some (theme_string t) → initial_theme matchMedia s = t.
Proof. intros Hs. unfold initial_theme. rewrite Hs. by destruct t. Qed.

Lemma toggle_theme_twice t : toggle_theme (toggle_theme t) = t.
Proof. by destruct t. Qed.

Lemma persist_other a s k : k ≠ "theme" → getItem k (persist a s) = getItem k s.
Proof. intros Hk. by apply getItem_setItem_ne. Qed.

(** C29. The theme survives a reload: whatever the storage held and whatever
    the system prefers, the theme read when the page loads next is the
    theme that was stored by the last render. *)
Theorem theme_survives_reload matchMedia a s :
  initial_theme matchMedia (persist a s) = theme a.
Proof. apply initial_theme_saved, getItem_setItem. Qed.

(** When the storage holds neither "light" nor "dark" under the key,
    the theme follows the system preference, and is light where
    [matchMedia] is missing. *)
Theorem initial_theme_fallback matchMedia s :
  getItem "theme" s ≠ Some "light" → getItem "theme" s ≠ Some "dark" →
  initial_theme matchMedia s = if default false matchMedia then dark else light.
Proof. intros Hl Hd. unfold initial_theme. by rewrite !decide_False. Qed.

Lemma app_mount_stored matchMedia s : stored_ok (app_mount matchMedia s).
Proof. apply getItem_setItem. Qed.

Lemma app_step_stored e st st' :
  stored_ok st → app_step e st = Some st' → stored_ok st'.
Proof.
  destruct st as [a s], e; intros Hs [= <-]; [apply getItem_setItem|exact Hs].
Qed.

Lemma app_step_other e st st' k :
  k ≠ "theme" → app_step e st = Some st' → getItem k st'.2 = getItem k st.2.
Proof.
  destruct st as [a s], e; intros Hk [= <-]; [by apply persist_other|done].
Qed.

(** C30. In every state of the shell the storage holds the theme on screen
    under the key "theme", and every other key holds what it held when the
    page loaded. *)
Theorem reachable_stored matchMedia s0 st :
  reachable (λ st, st = app_mount matchMedia s0) app_step st →
  stored_ok st ∧ ∀ k, k ≠ "theme" → getItem k st.2 = getItem k s0.
Proof.
  induction 1 as [st ->|st e st' _ [IHs IHk] Hstep].
  - split; [apply app_mount_stored|]. intros k Hk. by apply persist_other.
  - split; [by eapply app_step_stored|]. intros k Hk.
    erewrite app_step_other by done. by apply IHk.
Qed.

End Theme.

(** ** The background *)

Lemma last_meta_snoc os o :
  last_meta (os ++ [o]) =
  match o with OMeta c d => mkMeta c d | _ => last_meta os end.
Proof. unfold last_meta. by rewrite foldl_snoc. Qed.

Section Background.
Context (env : Env) (Hmeta : env_onMetaChange env = true).

(** The calls that are not [onMetaChange] leave the [meta]. *)
Ltac meta H :=
  unfold meta_ok in *; simpl; rewrite ?last_meta_snoc; first [exact H | done].

Lemma commit_meta_ok before m : meta_ok m → meta_ok (commit env before m).
Proof. intros Hm. frame; meta Hm. Qed.

Lemma handle_meta_ok e m m1 :
  meta_ok m → handle env e m = Some m1 → meta_ok m1.
Proof.
  intros Hm He. destruct e; simpl in *; repeat case_match; simplify_eq;
    try (frame; meta Hm).
  unfold seq. rewrite fetchWeatherAt_resume_cases.
  destruct (fetch_ok r) as [[??]|], k; unfold meta_ok in *; simpl;
    rewrite ?Hmeta; meta Hm.
Qed.

Lemma meta_ok_invariant : invariant (λ m, m = mount env) (step env) meta_ok.
Proof.
  apply invariant_ind.
  - intros m ->. unfold mount. frame; by meta I.
  - unfold step. intros m e m' _ Hm He.
    destruct (handle env e m) as [m1|] eqn:E; simplify_eq/=.
    eapply commit_meta_ok, handle_meta_ok; eauto.
Qed.

(** C26. The shell and the card agree: when the card is given
    [onMetaChange], the [meta] of the shell is at all times the code and
    the day flag of the conditions on display (clear day while there are
    none), so the background is the gradient of what the card shows. *)
Theorem background_follows_conditions th m :
  reachable_card env m →
  last_meta (log m) = meta_of (data (card m)) ∧
  bgClass (mkApp th (last_meta (log m))) =
  cx ["min-h-screen w-full transition-colors duration-700";
      gradientFor th (meta_code (meta_of (data (card m))))
        (meta_isDay (meta_of (data (card m))))].
Proof. intros Hm%meta_ok_invariant. unfold bgClass. simpl. by rewrite Hm. Qed.

End Background.

(** ** Witnesses *)

(** A storage that holds a value the shell does not know. *)
Definition saved_sepia : gmap string string := {["theme" := "sepia"]}.

Lemma initial_theme_fallback_witness :
  initial_theme (Some true) saved_sepia = dark.
Proof. apply (initial_theme_fallback (Some true) saved_sepia); by vm_compute. Defined.

Lemma reachable_stored_witness : stored_ok (app_mount None saved_sepia).
Proof.
  exact (proj1 (reachable_stored None saved_sepia (app_mount None saved_sepia)
                  (reach_init _ eq_refl))).
Defined.

Lemma background_follows_conditions_witness :
  last_meta (log (after chennai_shown)) =
  meta_of (data (card (after chennai_shown))).
Proof.
  refine (proj1 (background_follows_conditions browser eq_refl light
                   (after chennai_shown) _)).
  apply reachable_after. vm_compute. by eexists.
Defined.
