(* ===== verification/Scenarios.v ===== *)
(** * Scenarios: orders of events the specification rules out

    Theorems about what the card does when answers arrive in an order the
    written specification does not expect: an answer that was overtaken, an
    error raised while a fetch is in flight, the second of two identical
    requests failing after the first succeeded, the timer of an earlier
    share firing after a later one.  Each holds for every state in which
    the continuations it names are pending; the runs at the end of the file
    reach such states from the mount, so none of the four is vacuous.  They
    are the evidence for the findings recorded with the development. *)

From Stdlib Require Import Ascii String ZArith QArith.
From stdpp Require Import base tactics option list strings gmap.
From S2P Require Import Prelude JsLib WeatherCodes Api Session Samples.
From S2P Require Import Location Fetch Card Invariants Steps Phases View.

#[local] Open Scope act_scope.

Section Orders.
Context (env : Env).

(** ** An answer that was overtaken *)

(** C22. The answer that arrives last is shown, whatever was asked last:
    when a pending fetch was made for another unit than the one now
    selected and its answer is good, the card shows the temperature of that
    answer under the label of the selected unit, which is not the label of
    the unit it is in; it remembers the key of the old unit, so the guard
    does not speak for the selected one, and it sends nothing that would
    bring the right conditions. *)
Theorem stale_answer_wins th m id lat lon u label k cw d :
  tasks m !! id = Some (TFetch lat lon u label k) →
  u ≠ unit (card m) →
  ∃ m', step env (EResponse id (JsonOk (forecast_body cw d))) m = Some m' ∧
    unit (card m') = unit (card m) ∧
    data (card m') = Some cw ∧
    (λ v, (cur_temperature v, cur_unit v))
      <$> v_current (render th (card m')) =
    Some (Math_round (temperature cw), unitLabel (unit (card m))) ∧
    unitLabel (unit (card m)) ≠ unitLabel u ∧
    ref_unit (lastFetchRef (card m')) = Some u ∧
    same_key (lastFetchRef (card m')) lat lon (unit (card m')) = false ∧
    requests (new_calls m m') = [].
Proof.
  intros Ht Hu. rewrite (fetch_answer_step env m id _ _ _ _ _ _ Ht).
  rewrite fetchWeatherAt_resume_cases. simpl.
  eexists. split; [reflexivity|].
  assert (unitLabel (unit (card m)) ≠ unitLabel u)
    by (by destruct u, (unit (card m))).
  destruct k; repeat split; calls;
    try (by destruct (env_onMetaChange env));
    unfold same_key; simpl;
    by rewrite (bool_decide_eq_false_2 (Some u = _)), andb_false_r
      by congruence.
Qed.

(** ** An error raised while a fetch is in flight *)

(** C23. A good answer does not clear an error raised while its fetch was
    in flight: when the position is denied and a pending fetch then
    succeeds, the card is in the [Failed] phase with the conditions of that
    answer stored, and shows the error box and the conditions together. *)
Theorem error_survives_success th m idp u0 idf lat lon u label k cw d :
  tasks m !! idp = Some (TGeolocation u0) →
  tasks m !! idf = Some (TFetch lat lon u label k) →
  ∃ m', run (step env)
          [EPositionError idp; EResponse idf (JsonOk (forecast_body cw d))] m
        = Some m' ∧
    data (card m') = Some cw ∧
    loading (card m') = false ∧
    error (card m') = "Could not get your location." ∧
    phase m' = Failed ∧
    v_error (render th (card m')) = Some "Could not get your location." ∧
    is_Some (v_current (render th (card m'))).
Proof.
  intros Hp Hf. simpl. rewrite (position_error_step env m idp u0 Hp).
  erewrite fetch_answer_step.
  2: { simpl. rewrite lookup_delete_ne; [done|]. intros ->. congruence. }
  rewrite fetchWeatherAt_resume_cases. simpl.
  eexists. split; [reflexivity|]. by destruct k.
Qed.

(** ** The second of two identical requests fails *)

(** C24. The card leaves [Ready] for [Failed] without loading in between, a
    move the machine of the specification does not have: a search that
    resolves to a new key sends its forecast request twice; when the first
    request succeeds the card is [Ready], and when the second then fails
    it is [Failed], with the error shown over the conditions it keeps. *)
Theorem late_failure m id name r p cw d bad :
  tasks m !! id = Some (TResolve name (unit (card m))) →
  resolveCity_result r = inr p →
  same_key (lastFetchRef (card m)) (place_lat p) (place_lon p)
    (unit (card m)) = false →
  fetch_ok bad = None →
  ∃ m1 m2 m3,
    step env (EResponse id r) m = Some m1 ∧
    step env (EResponse (nextId m) (JsonOk (forecast_body cw d))) m1 = Some m2 ∧
    step env (EResponse (S (nextId m)) bad) m2 = Some m3 ∧
    phase m2 = Ready ∧ phase m3 = Failed ∧
    ¬ spec_step (phase m2) (phase m3) ∧
    data (card m3) = Some cw ∧
    error (card m3) = "Failed to fetch weather. Please try again.".
Proof.
  intros Ht Hr Hk Hbad. rewrite (search_found_step _ _ _ _ _ _ Ht Hr Hk).
  eexists _, _, _. split; [reflexivity|].
  split.
  { apply fetch_answer_step. simpl.
    by rewrite lookup_insert_ne, lookup_insert_eq by lia. }
  rewrite fetchWeatherAt_resume_cases. simpl.
  split.
  { apply fetch_answer_step. simpl.
    by rewrite lookup_delete_ne, lookup_insert_eq by lia. }
  rewrite fetchWeatherAt_resume_bad by done.
  repeat split. intros Hs. inv Hs.
Qed.

(** ** The timer of an earlier share *)

(** C25. A share message can vanish at once: the timer of an earlier share
    is never cancelled, so when a later share has put its message up and
    the old timer fires, the message is cleared while the timer of the
    later share is still pending. *)
Theorem earlier_timer_clears m t id text ok :
  reachable_card env m →
  tasks m !! t = Some TTimer →
  tasks m !! id = Some (TClipboard text) →
  ∃ m1 m2,
    step env (EClipboard id ok) m = Some m1 ∧
    step env (ETimeout t) m1 = Some m2 ∧
    shareMessage (card m1) =
      (if ok then "✅ Weather link copied!" else "❌ Failed to copy link") ∧
    shareMessage (card m2) = "" ∧
    tasks m2 !! nextId m = Some TTimer.
Proof.
  intros Hm%wf_invariant Ht Hid.
  assert (t < nextId m) as Hlt by (by eapply Hm).
  assert (t ≠ id) as Hne by (intros ->; congruence).
  unfold step, handle. rewrite Hid. simpl. rewrite commit_unchanged by done.
  eexists _, _. split; [reflexivity|]. simpl.
  rewrite lookup_insert_ne, lookup_delete_ne, Ht by (done || lia). simpl.
  rewrite commit_unchanged by done. split; [reflexivity|]. simpl.
  repeat split. by rewrite lookup_delete_ne, lookup_insert_eq by lia.
Qed.

End Orders.

(** ** Runs that reach these orders *)

(** A good forecast response. *)
Definition forecast (cw : CurrentWeather) : HttpResult Json :=
  JsonOk (forecast_body cw (Some week)).

(** The position is denied, the user types "  Chennai " and presses Enter,
    and the geocoding service answers.  Pending afterwards: the two
    forecast requests, [2] (from [onSearch]) and [3] (from the effect). *)
Definition searched : list Event :=
  [EPositionError 0; EInput "  Chennai "; EEnter;
   EResponse 1 (JsonOk (geo_body [Some chennai]))].

(** ... then the unit is toggled while the celsius requests are in flight,
    and the fahrenheit answer ([5]) arrives first.  Pending: [2], [3] and
    the position request of the toggle, [4]. *)
Definition overtaken : list Event :=
  searched ++ [EClickUnit; EResponse 5 (forecast rainy)].

(** The search is made while the position request of the mount is still
    pending.  Pending: [0] and the answer to the search, [1]. *)
Definition searching_early : list Event := [EInput "Chennai"; EEnter].

(** The forecast is on display and the link is shared twice; the first
    write has settled, the second has not.  Pending: the timer of the first
    share, [5], and the second write, [6]. *)
Definition shared_twice : list Event :=
  searched ++ [EResponse 2 (forecast sunny); EResponse 3 (forecast sunny);
               EClickShare; EClipboard 4 true; EClickShare].

Lemma stale_answer_wins_witness :
  ∃ m', step browser (EResponse 2 (JsonOk (forecast_body sunny (Some week))))
          (after overtaken) = Some m' ∧
    unit (card m') = unit (card (after overtaken)) ∧
    data (card m') = Some sunny ∧
    ref_unit (lastFetchRef (card m')) = Some celsius.
Proof.
  destruct (stale_answer_wins browser light (after overtaken) 2
              (latitude chennai) (longitude chennai) celsius
              (Some (formatLocationLabel (Some chennai))) KSearch
              sunny (Some week))
    as (m' & Hs & Hu & Hd & _ & _ & Hr & _);
    [vm_compute; reflexivity|vm_compute; discriminate|].
  exists m'. repeat split; assumption.
Defined.

Lemma error_survives_success_witness :
  ∃ m', run (step browser)
          [EPositionError 0;
           EResponse 2 (JsonOk (forecast_body sunny (Some week)))]
          (after (searching_early ++
                  [EResponse 1 (JsonOk (geo_body [Some chennai]))]))
        = Some m' ∧
    data (card m') = Some sunny ∧
    error (card m') = "Could not get your location.".
Proof.
  destruct (error_survives_success browser light
              (after (searching_early ++
                      [EResponse 1 (JsonOk (geo_body [Some chennai]))]))
              0 celsius 2 (latitude chennai) (longitude chennai) celsius
              (Some (formatLocationLabel (Some chennai))) KSearch
              sunny (Some week))
    as (m' & Hs & Hd & _ & He & _); [vm_compute; reflexivity..|].
  exists m'. repeat split; assumption.
Defined.

Lemma late_failure_witness :
  ∃ m1 m2 m3,
    step browser (EResponse 1 (JsonOk (geo_body [Some chennai])))
      (after searching_early) = Some m1 ∧
    step browser (EResponse (nextId (after searching_early))
                    (JsonOk (forecast_body sunny (Some week)))) m1 = Some m2 ∧
    step browser (EResponse (S (nextId (after searching_early))) StatusNotOk)
      m2 = Some m3 ∧
    phase m2 = Ready ∧ phase m3 = Failed.
Proof.
  destruct (late_failure browser (after searching_early) 1 "Chennai"
              (JsonOk (geo_body [Some chennai])) chennai_place
              sunny (Some week) StatusNotOk)
    as (m1 & m2 & m3 & H1 & H2 & H3 & Hr & Hf & _);
    [vm_compute; reflexivity..|].
  exists m1, m2, m3. repeat split; assumption.
Defined.

Lemma earlier_timer_clears_witness :
  ∃ m1 m2,
    step browser (EClipboard 6 false) (after shared_twice) = Some m1 ∧
    step browser (ETimeout 5) m1 = Some m2 ∧
    shareMessage (card m1) = "❌ Failed to copy link" ∧
    shareMessage (card m2) = "".
Proof.
  destruct (earlier_timer_clears browser (after shared_twice) 5 6
              (share_url browser (formatLocationLabel (Some chennai))) false)
    as (m1 & m2 & H1 & H2 & Hm1 & Hm2 & _);
    [apply reachable_after; vm_compute; by eexists|vm_compute; reflexivity..|].
  exists m1, m2. repeat split; assumption.
Defined.
